(** * fda.getdata: retrieval of SEC registry, profile, filing and price tables

    A shallow embedding of [src/fda/getdata.py].  The four functions of the
    module are embedded under their own names:

    - [get_sec_companies]            (the registry lister),
    - [get_sec_company_information]  (the entity profile extractor),
    - [get_seccompany_filings]       (the filing history assembler),
    - [get_fmp_stock_data]           (the price series fetcher).

    The outside world (files, HTTP endpoints) is a record [World]; every
    function runs in a small error-and-trace monad [IO] whose trace lists the
    I/O events in the order the code performs them.  The parts of pandas the
    module calls are embedded as pure functions on a [DataFrame] record. *)

From Stdlib Require Import List String Ascii ZArith NArith Bool Arith Lia.
From Stdlib Require Import Permutation Sorted DecimalString.
From Stdlib Require Decimal DecimalFacts DecimalPos.
Import ListNotations.
Open Scope string_scope.
Open Scope list_scope.

(** ** Python values *)

(** Scalars as [json.load] produces them.  A float is carried by the text
    [repr] gives it; binary64 arithmetic is not described, and equality of
    scalars is equality within one kind. *)
Inductive value : Type :=
| VNone
| VNaN
| VBool (b : bool)
| VInt (z : Z)
| VFloat (repr : string)
| VStr (s : string).

#[warnings="-register-all"]
Inductive json : Type :=
| JVal (v : value)
| JArr (items : list json)
| JObj (fields : list (string * json)).

(** Exceptions, by their Python class.  [Unsupported] marks shapes of input
    for which pandas builds a table in a way this development does not
    describe (nested objects as cells, ordering of floats). *)
Inductive exn : Type :=
| AssertionError
| ValueError
| TypeError
| AttributeError
| KeyError (key : string)
| FileNotFoundError (path : string)
| JSONDecodeError
| ConnectionError
| IndexError
| UnboundLocalError (name : string)
| Unsupported.

Inductive result (A : Type) : Type :=
| Ok (a : A)
| Raise (e : exn).
Arguments Ok {A} a.
Arguments Raise {A} e.

Definition rbind {A B} (r : result A) (k : A -> result B) : result B :=
  match r with
  | Ok a => k a
  | Raise e => Raise e
  end.

Declare Scope result_scope.
Delimit Scope result_scope with result.
Notation "x <~ r ;; k" := (rbind r (fun x => k))
  (at level 61, r at next level, right associativity) : result_scope.

Fixpoint rmap {A B} (f : A -> result B) (l : list A) : result (list B) :=
  match l with
  | [] => Ok []
  | a :: l' =>
      match f a with
      | Ok b => match rmap f l' with
                | Ok bs => Ok (b :: bs)
                | Raise e => Raise e
                end
      | Raise e => Raise e
      end
  end.

Definition value_eq_dec (a b : value) : {a = b} + {a <> b}.
Proof.
  decide equality; auto using Bool.bool_dec, Z.eq_dec, string_dec.
Defined.

Definition value_eqb (a b : value) : bool :=
  if value_eq_dec a b then true else false.

(** Python's [==] on scalars: NaN differs from everything, itself included. *)
Definition py_eq (a b : value) : bool :=
  match a, b with
  | VNaN, _ | _, VNaN => false
  | _, _ => value_eqb a b
  end.

(** [pd.isna] *)
Definition isna (v : value) : bool :=
  match v with
  | VNone | VNaN => true
  | _ => false
  end.

(** Truth value of an optional string argument: [None] and [''] are falsy. *)
Definition truthy (o : option string) : bool :=
  match o with
  | None => false
  | Some s => negb (s =? "")
  end.

Definition str_of_Z (z : Z) : string := NilZero.string_of_int (Z.to_int z).

(** [str(v)], also what an f-string interpolates. *)
Definition py_str (v : value) : string :=
  match v with
  | VNone => "None"
  | VNaN => "nan"
  | VBool true => "True"
  | VBool false => "False"
  | VInt z => str_of_Z z
  | VFloat r => r
  | VStr s => s
  end.

Fixpoint zeros (n : nat) : string :=
  match n with
  | O => ""
  | S n' => String "0" (zeros n')
  end.

(** [str.zfill]: pads on the left, after a leading sign; never truncates. *)
Definition zfill (width : nat) (s : string) : string :=
  if (width <=? String.length s)%nat then s
  else
    let pad := zeros (width - String.length s) in
    match s with
    | String c rest =>
        if (Ascii.eqb c "+" || Ascii.eqb c "-")%bool
        then String c (pad ++ rest)%string
        else (pad ++ s)%string
    | EmptyString => pad
    end.

Definition starts_with_slash (s : string) : bool :=
  match s with
  | String c _ => Ascii.eqb c "/"
  | EmptyString => false
  end.

Fixpoint ends_with_slash (s : string) : bool :=
  match s with
  | EmptyString => false
  | String c EmptyString => Ascii.eqb c "/"
  | String _ rest => ends_with_slash rest
  end.

(** [os.path.join] for two components (POSIX). *)
Definition path_join (a b : string) : string :=
  if starts_with_slash b then b
  else if ((a =? "") || ends_with_slash a)%bool then (a ++ b)%string
  else (a ++ "/" ++ b)%string.

(** ** Indexing and iterating parsed JSON *)

Fixpoint assoc {A} (k : string) (l : list (string * A)) : option A :=
  match l with
  | [] => None
  | (k', a) :: l' => if k' =? k then Some a else assoc k l'
  end.

(** [j[k]] with a string key. *)
Definition py_getitem (j : json) (k : string) : result json :=
  match j with
  | JObj fields =>
      match assoc k fields with
      | Some x => Ok x
      | None => Raise (KeyError k)
      end
  | _ => Raise TypeError
  end.

Fixpoint chars (s : string) : list json :=
  match s with
  | EmptyString => []
  | String c rest => JVal (VStr (String c EmptyString)) :: chars rest
  end.

(** The items a [for] loop over [j] visits. *)
Definition py_iter (j : json) : result (list json) :=
  match j with
  | JArr items => Ok items
  | JObj fields => Ok (map (fun kv => JVal (VStr (fst kv))) fields)
  | JVal (VStr s) => Ok (chars s)
  | JVal _ => Raise TypeError
  end.

(** [len(j)] *)
Definition py_len (j : json) : result nat :=
  match j with
  | JArr items => Ok (List.length items)
  | JObj fields => Ok (List.length fields)
  | JVal (VStr s) => Ok (String.length s)
  | JVal _ => Raise TypeError
  end.

(** [a + b] where [a] is a string literal. *)
Definition str_concat (a : string) (b : json) : result string :=
  match b with
  | JVal (VStr s) => Ok (a ++ s)%string
  | _ => Raise TypeError
  end.

(** ** Tables *)

(** A data frame: column labels in order, and rows carrying their index
    label.  Every row of a frame built below has one cell per column.

    A cell is the scalar it was built from.  pandas stores a column under
    one dtype: text and mixed columns keep their cells as they are, and so
    does a column of integers; but an integer in a column that also holds a
    float, a null or a cell filled in as missing is stored as a float
    (320193 becomes 320193.0).  That conversion is not part of this model,
    which therefore gives the cells of pandas' frames on columns of text and
    on columns of integers without missing cells; labels, row counts, index
    labels and the order of rows do not depend on it. *)
Record DataFrame : Type := mkDataFrame {
  columns : list string;
  rows : list (nat * list value)
}.

Definition index (df : DataFrame) : list nat := map fst (rows df).
Definition nrows (df : DataFrame) : nat := List.length (rows df).

Fixpoint index_of (c : string) (cols : list string) : option nat :=
  match cols with
  | [] => None
  | c' :: cols' =>
      if c' =? c then Some O
      else match index_of c cols' with
           | Some j => Some (S j)
           | None => None
           end
  end.

(** The cell of [row] under label [c]; NaN where the label is absent. *)
Definition cell (cols : list string) (row : list value) (c : string) : value :=
  match index_of c cols with
  | Some j => nth j row VNaN
  | None => VNaN
  end.

(** Align a row laid out along [old] with the labels [new]. *)
Definition reindex (old new : list string) (row : list value) : list value :=
  map (cell old row) new.

Definition mem (c : string) (l : list string) : bool :=
  existsb (String.eqb c) l.

(** Labels in order of first appearance. *)
Fixpoint union_labels (seen extra : list string) : list string :=
  match extra with
  | [] => seen
  | c :: extra' =>
      if mem c seen then union_labels seen extra'
      else union_labels (seen ++ [c]) extra'
  end.

Definition enumerate {A} (l : list A) : list (nat * A) :=
  combine (seq 0 (List.length l)) l.

(** What one value of a dict passed to [pd.DataFrame] contributes. *)
Inductive column_data : Type :=
| Broadcast (v : value)
| Column (vs : list value).

Definition as_scalar (j : json) : result value :=
  match j with
  | JVal v => Ok v
  | _ => Raise Unsupported
  end.

Definition as_column (j : json) : result column_data :=
  match j with
  | JVal v => Ok (Broadcast v)
  | JArr items => vs <~ rmap as_scalar items ;; Ok (Column vs)
  | JObj _ => Raise Unsupported
  end%result.

Definition column_length (c : column_data) : option nat :=
  match c with
  | Broadcast _ => None
  | Column vs => Some (List.length vs)
  end.

Fixpoint array_lengths (cs : list column_data) : list nat :=
  match cs with
  | [] => []
  | c :: cs' =>
      match column_length c with
      | Some n => n :: array_lengths cs'
      | None => array_lengths cs'
      end
  end.

Definition column_cell (i : nat) (c : column_data) : value :=
  match c with
  | Broadcast v => v
  | Column vs => nth i vs VNaN
  end.

(** [pd.DataFrame(d)] for a dict [d] of arrays and scalars: the arrays must
    agree on their length, scalars are repeated along it, and a dict of
    scalars alone is refused. *)
Definition DataFrame_of_dict (d : list (string * json)) : result DataFrame :=
  (cs <~ rmap (fun kv => as_column (snd kv)) d ;;
   match array_lengths cs with
   | [] =>
       match d with
       | [] => Ok (mkDataFrame [] [])
       | _ => Raise ValueError
       end
   | n :: ns =>
       if forallb (Nat.eqb n) ns
       then Ok (mkDataFrame (map fst d)
                  (map (fun i => (i, map (column_cell i) cs)) (seq 0 n)))
       else Raise ValueError
   end)%result.

Definition as_record (j : json) : result (list (string * value)) :=
  match j with
  | JObj fields =>
      rmap (fun kv => match as_scalar (snd kv) with
                      | Ok v => Ok (fst kv, v)
                      | Raise e => Raise e
                      end) fields
  | _ => Raise Unsupported
  end.

Definition record_cell (r : list (string * value)) (c : string) : value :=
  match assoc c r with
  | Some v => v
  | None => VNaN
  end.

(** [pd.DataFrame(l)] for a list [l] of flat records, which is also what
    [pd.json_normalize] makes of such a list: one row per record, the
    columns being the keys in order of first appearance. *)
Definition DataFrame_of_records (l : list json) : result DataFrame :=
  (rs <~ rmap as_record l ;;
   let cols := fold_left (fun acc r => union_labels acc (map fst r)) rs [] in
   Ok (mkDataFrame cols
         (enumerate (map (fun r => map (record_cell r) cols) rs))))%result.

(** [pd.DataFrame(j)]: no data ([None]) gives the empty frame, any other
    scalar is refused. *)
Definition pd_DataFrame (j : json) : result DataFrame :=
  match j with
  | JObj d => DataFrame_of_dict d
  | JArr l => DataFrame_of_records l
  | JVal VNone => Ok (mkDataFrame [] [])
  | JVal _ => Raise ValueError
  end.

(** [pd.concat((a, b))]: rows of [a] then rows of [b], index labels kept,
    columns united in order of first appearance, NaN where a frame lacks a
    column (cells are kept as they are, see [DataFrame]). *)
Definition concat (a b : DataFrame) : DataFrame :=
  let cols := union_labels (columns a) (columns b) in
  mkDataFrame cols
    (map (fun r => (fst r, reindex (columns a) cols (snd r))) (rows a) ++
     map (fun r => (fst r, reindex (columns b) cols (snd r))) (rows b)).

(** [df.reset_index(drop=True)] *)
Definition reset_index (df : DataFrame) : DataFrame :=
  mkDataFrame (columns df) (enumerate (map snd (rows df))).

(** [df[c]]: the cells of one column. *)
Definition getitem (df : DataFrame) (c : string) : result (list value) :=
  match index_of c (columns df) with
  | Some j => Ok (map (fun r => nth j (snd r) VNaN) (rows df))
  | None => Raise (KeyError c)
  end.

(** [df.c]: attribute access to a column. *)
Definition getattr (df : DataFrame) (c : string) : result (list value) :=
  match index_of c (columns df) with
  | Some j => Ok (map (fun r => nth j (snd r) VNaN) (rows df))
  | None => Raise AttributeError
  end.

Fixpoint set_nth {A} (j : nat) (a : A) (l : list A) : list A :=
  match j, l with
  | _, [] => []
  | O, _ :: l' => a :: l'
  | S j', x :: l' => x :: set_nth j' a l'
  end.

(** [df[c] = vs]: overwrite column [c] in place, or append it. *)
Definition setitem (df : DataFrame) (c : string) (vs : list value) : DataFrame :=
  match index_of c (columns df) with
  | Some j =>
      mkDataFrame (columns df)
        (map (fun rv => (fst (fst rv), set_nth j (snd rv) (snd (fst rv))))
             (combine (rows df) vs))
  | None =>
      mkDataFrame (columns df ++ [c])
        (map (fun rv => (fst (fst rv), snd (fst rv) ++ [snd rv]))
             (combine (rows df) vs))
  end.

(** [df.columns = names]: positional relabelling. *)
Definition set_columns (df : DataFrame) (names : list string) : result DataFrame :=
  if (List.length names =? List.length (columns df))%nat
  then Ok (mkDataFrame names (rows df))
  else Raise ValueError.

(** [df.loc[:, names]] *)
Definition loc_columns (df : DataFrame) (names : list string) : result DataFrame :=
  match find (fun c => negb (mem c (columns df))) names with
  | Some c => Raise (KeyError c)
  | None =>
      Ok (mkDataFrame names
            (map (fun r => (fst r, reindex (columns df) names (snd r))) (rows df)))
  end.

(** *** Sorting *)

Definition as_int (v : value) : option Z :=
  match v with
  | VInt z => Some z
  | VBool true => Some 1%Z
  | VBool false => Some 0%Z
  | _ => None
  end.

Definition is_number (v : value) : bool :=
  match v with
  | VInt _ | VBool _ | VFloat _ => true
  | _ => false
  end.

(** The comparison the sort makes between two keys that are not missing:
    strings by code unit, integers by value, and [TypeError] across kinds. *)
Definition py_le (a b : value) : result bool :=
  match a, b with
  | VStr s, VStr t => Ok (s <=? t)%string
  | _, _ =>
      match as_int a, as_int b with
      | Some x, Some y => Ok (x <=? y)%Z
      | _, _ =>
          if (is_number a && is_number b)%bool
          then Raise Unsupported
          else Raise TypeError
      end
  end.

Section Sorting.
Context {A : Type} (key : A -> value).

Fixpoint insert_by (a : A) (l : list A) : result (list A) :=
  match l with
  | [] => Ok [a]
  | x :: l' =>
      match py_le (key a) (key x) with
      | Ok true => Ok (a :: l)
      | Ok false =>
          match insert_by a l' with
          | Ok l'' => Ok (x :: l'')
          | Raise e => Raise e
          end
      | Raise e => Raise e
      end
  end.

(** Ascending order of the keys; equal keys keep their relative order. *)
Fixpoint sort_by (l : list A) : result (list A) :=
  match l with
  | [] => Ok []
  | a :: l' =>
      match sort_by l' with
      | Ok s => insert_by a s
      | Raise e => Raise e
      end
  end.
End Sorting.

(** [df.sort_values(by=c)]: ascending, missing keys last. *)
Definition sort_values (c : string) (df : DataFrame) : result DataFrame :=
  match index_of c (columns df) with
  | None => Raise (KeyError c)
  | Some j =>
      let key := fun r : nat * list value => nth j (snd r) VNaN in
      match sort_by key (filter (fun r => negb (isna (key r))) (rows df)) with
      | Ok present =>
          Ok (mkDataFrame (columns df)
                (present ++ filter (fun r => isna (key r)) (rows df)))
      | Raise e => Raise e
      end
  end.

(** *** Duplicates and masks *)

Fixpoint duplicated_from (seen l : list value) : list bool :=
  match l with
  | [] => []
  | v :: l' => existsb (value_eqb v) seen :: duplicated_from (v :: seen) l'
  end.

(** [s.duplicated()]: true at every occurrence of a value but its first. *)
Definition duplicated (l : list value) : list bool := duplicated_from [] l.

(** [l[m]] for a boolean mask [m]. *)
Fixpoint mask {A} (m : list bool) (l : list A) : list A :=
  match m, l with
  | true :: m', a :: l' => a :: mask m' l'
  | false :: m', _ :: l' => mask m' l'
  | _, _ => []
  end.

(** ** The outside world *)

Inductive content : Type :=
| NotJSON
| JSON (j : json).

Record World : Type := mkWorld {
  files : string -> option content;
  http : string -> list (string * string) -> list (string * string) -> option content
}.

Inductive event : Type :=
| Open (path : string)
| Get (url : string) (headers params : list (string * string))
| Sleep (milliseconds : nat)
| Print (line : string).

Definition trace := list event.

(** A computation extends the trace and returns or raises. *)
Definition IO (A : Type) : Type := trace -> result A * trace.

Definition ret {A} (a : A) : IO A := fun t => (Ok a, t).
Definition raise {A} (e : exn) : IO A := fun t => (Raise e, t).
Definition lift {A} (r : result A) : IO A := fun t => (r, t).
Definition emit (e : event) : IO unit := fun t => (Ok tt, t ++ [e]).

Definition bind {A B} (m : IO A) (k : A -> IO B) : IO B :=
  fun t =>
    match m t with
    | (Ok a, t') => k a t'
    | (Raise e, t') => (Raise e, t')
    end.

Declare Scope io_scope.
Delimit Scope io_scope with io.
Notation "x <- m ;; k" := (bind m (fun x => k))
  (at level 61, m at next level, right associativity) : io_scope.
Notation "m ;; k" := (bind m (fun _ => k))
  (at level 61, right associativity) : io_scope.

(** [for x in l: st = body st x] *)
Fixpoint for_each {A S} (body : S -> A -> IO S) (l : list A) (st : S) : IO S :=
  match l with
  | [] => ret st
  | a :: l' => bind (body st a) (for_each body l')
  end.

Definition load (c : content) : result json :=
  match c with
  | JSON j => Ok j
  | NotJSON => Raise JSONDecodeError
  end.

(** [with open(path) as f: json.load(f)] *)
Definition open_json (w : World) (path : string) : IO json :=
  (emit (Open path) ;;
   match files w path with
   | None => raise (FileNotFoundError path)
   | Some c => lift (load c)
   end)%io.

(** [requests.get(url, headers=..., params=...)] *)
Definition requests_get (w : World) (url : string)
    (headers params : list (string * string)) : IO content :=
  (emit (Get url headers params) ;;
   match http w url headers params with
   | None => raise ConnectionError
   | Some c => ret c
   end)%io.

(** The string an argument holds once it has tested true. *)
Definition text (o : option string) : string :=
  match o with
  | Some s => s
  | None => ""
  end.

(** ** get_sec_companies *)

(** [pd.json_normalize(j, max_level=0).values[0]]: the values of the mapping
    [j], in document order, its keys dropped. *)
Definition mapping_values (j : json) : result (list json) :=
  match j with
  | JObj fields => Ok (map snd fields)
  | _ => Raise Unsupported
  end.

(** [s.astype(str).str.zfill(10)] *)
Definition astype_str_zfill10 (s : list value) : list value :=
  map (fun v => VStr (zfill 10 (py_str v))) s.

Definition get_sec_companies (w : World) (email : string) : IO DataFrame :=
  (let headers := [("User-Agent", "email")] in
   let url := "https://www.sec.gov/files/company_tickers.json" in
   r <- requests_get w url headers [] ;;
   lift (j <~ load r ;;
         records <~ mapping_values j ;;
         tickers_cik <~ DataFrame_of_records records ;;
         cik_str <~ getitem tickers_cik "cik_str" ;;
         let tickers_cik := setitem tickers_cik "cik" (astype_str_zfill10 cik_str) in
         tickers_cik <~ set_columns tickers_cik ["cik"; "ticker"; "title"; "cik_long"] ;;
         loc_columns tickers_cik ["ticker"; "title"; "cik"; "cik_long"])%result)%io.

(** ** get_sec_company_information *)

Definition get_keys : list string :=
  ["cik"; "entityType"; "sic"; "sicDescription"; "name"; "tickers";
   "exchanges"; "fiscalYearEnd"].

(** [zip(r.keys(), r.values())] *)
Definition dict_items (r : json) : result (list (string * json)) :=
  match r with
  | JObj fields => Ok fields
  | _ => Raise AttributeError
  end.

(** [df.loc[:, c] = v] for a scalar [v]. *)
Definition setitem_scalar (df : DataFrame) (c : string) (v : value) : DataFrame :=
  setitem df c (map (fun _ => v) (rows df)).

(** [df.iloc[0].to_frame().transpose()]: the first row as a frame of its own. *)
Definition iloc0_frame (df : DataFrame) : result DataFrame :=
  match rows df with
  | r :: _ => Ok (mkDataFrame (columns df) [r])
  | [] => Raise IndexError
  end.

(** The local variables of the loop of [get_sec_company_information];
    [company_info] is unbound until the first assignment. *)
Record locals : Type := mkLocals {
  started : bool;
  no_info : nat;
  company_info : option DataFrame
}.

Definition report (n : nat) : string :=
  ("Company information for " ++ str_of_Z (Z.of_nat n)
   ++ " cik numbers could not be retrieved.")%string.

Section Profiles.
Variable w : World.
Variable submission_dir : string.
(** columns of [unique_cik_companies] *)
Variable cols : list string.
Variable ciks_with_multiple_tickers : list value.

Definition metadata_path (cik : value) : string :=
  path_join submission_dir ("CIK" ++ py_str cik ++ ".json")%string.

(** One pass of the [for idx, row in unique_cik_companies.iterrows()] body.
    The row is read as the frame holds it, which is what [iterrows] hands out
    for a registry with a text column (see [DataFrame]). *)
Definition profile_step (st : locals) (row : nat * list value) : IO locals :=
  (let cik := cell cols (snd row) "cik_long" in
   r <- open_json w (metadata_path cik) ;;
   items <- lift (dict_items r) ;;
   company_info_tmp <-
     lift (DataFrame_of_dict (filter (fun kv => mem (fst kv) get_keys) items)) ;;
   if (nrows company_info_tmp =? 0)%nat
   then ret (mkLocals (started st) (S (no_info st)) (company_info st))
   else
     let company_info_tmp :=
       if existsb (py_eq cik) ciks_with_multiple_tickers
       then setitem_scalar company_info_tmp "has_multiple_symbols" (VBool true)
       else setitem_scalar company_info_tmp "has_multiple_symbols" (VBool false) in
     first <- lift (iloc0_frame company_info_tmp) ;;
     if started st
     then
       match company_info st with
       | Some acc => ret (mkLocals (started st) (no_info st) (Some (concat acc first)))
       | None => raise (UnboundLocalError "company_info")
       end
     else ret (mkLocals true (no_info st) (Some first)))%io.
End Profiles.

Definition get_sec_company_information (w : World) (sec_companies : DataFrame)
    (submission_dir : string) : IO DataFrame :=
  (cik_long <- lift (getattr sec_companies "cik_long") ;;
   let ciks_with_multiple_tickers := mask (duplicated cik_long) cik_long in
   let unique_cik_companies :=
     mkDataFrame (columns sec_companies)
       (mask (map negb (duplicated cik_long)) (rows sec_companies)) in
   st <- for_each
           (profile_step w submission_dir (columns unique_cik_companies)
              ciks_with_multiple_tickers)
           (rows unique_cik_companies)
           (mkLocals false 0 None) ;;
   match company_info st with
   | None => raise (UnboundLocalError "company_info")
   | Some acc =>
       let company_info := reset_index acc in
       emit (Print (report (no_info st))) ;;
       ret company_info
   end)%io.

(** ** get_seccompany_filings *)

(** [r['filings'][k]] *)
Definition filings_section (r : json) (k : string) : result json :=
  (f <~ py_getitem r "filings" ;; py_getitem f k)%result.

(** [os.path.join(dir, name)] for a [name] read from a document. *)
Definition join_name (dir : string) (name : json) : result string :=
  match name with
  | JVal (VStr s) => Ok (path_join dir s)
  | _ => Raise TypeError
  end.

Section Filings.
Variable w : World.

(** Body of [for file in r['filings']['files']] (local files). *)
Definition local_shard (submission_dir : string) (filings : DataFrame)
    (file : json) : IO DataFrame :=
  (name <- lift (py_getitem file "name") ;;
   path <- lift (join_name submission_dir name) ;;
   j <- open_json w path ;;
   further_filings <- lift (pd_DataFrame j) ;;
   ret (concat filings further_filings))%io.

(** Body of [for extra_filings in r.json()['filings']['files']] (live). *)
Definition live_shard (headers : list (string * string)) (filings : DataFrame)
    (extra_filings : json) : IO DataFrame :=
  (name <- lift (py_getitem extra_filings "name") ;;
   url_tmp <- lift (str_concat "https://data.sec.gov/submissions/" name) ;;
   r_tmp <- requests_get w url_tmp headers [] ;;
   j <- lift (load r_tmp) ;;
   page <- lift (pd_DataFrame j) ;;
   let filings := concat filings page in
   emit (Sleep 100) ;;
   ret filings)%io.

Definition local_filings (cik submission_dir : string) : IO DataFrame :=
  (r <- open_json w (path_join submission_dir ("CIK" ++ cik ++ ".json")%string) ;;
   recent <- lift (filings_section r "recent") ;;
   filings <- lift (pd_DataFrame recent) ;;
   files <- lift (filings_section r "files") ;;
   n <- lift (py_len files) ;;
   if (0 <? n)%nat
   then
     files <- lift (x <~ filings_section r "files" ;; py_iter x)%result ;;
     for_each (local_shard submission_dir) files filings
   else ret filings)%io.

Definition live_filings (cik email : string) : IO DataFrame :=
  (let headers := [("User-Agent", email)] in
   let url := ("https://data.sec.gov/submissions/CIK" ++ cik ++ ".json")%string in
   r <- requests_get w url headers [] ;;
   recent <- lift (j <~ load r ;; filings_section j "recent")%result ;;
   filings <- lift (pd_DataFrame recent) ;;
   files <- lift (j <~ load r ;; x <~ filings_section j "files" ;; py_iter x)%result ;;
   for_each (live_shard headers) files filings)%io.

Definition get_seccompany_filings (cik : value)
    (submission_dir email : option string) : IO DataFrame :=
  match cik with
  | VStr c =>
      if (String.length c =? 10)%nat
      then
        if (negb (truthy submission_dir) && negb (truthy email))%bool
        then raise ValueError
        else
          (filings <-
             (if truthy submission_dir
              then local_filings c (text submission_dir)
              else live_filings c (text email)) ;;
           filings <- lift (sort_values "acceptanceDateTime" filings) ;;
           ret (reset_index filings))%io
      else raise AssertionError
  | _ => raise AssertionError
  end.
End Filings.

(** ** get_fmp_stock_data *)

Definition get_fmp_stock_data (w : World) (apikey ticker : string)
    (start_date end_date : option string) : IO DataFrame :=
  (let url :=
     ("https://financialmodelingprep.com/api/v3/historical-price-full/" ++ ticker)%string in
   if (truthy end_date && negb (truthy start_date))%bool
   then raise ValueError
   else
     let parameters := [("apikey", apikey)] in
     let parameters :=
       if truthy start_date then parameters ++ [("from", text start_date)]
       else parameters in
     let parameters :=
       if truthy end_date then parameters ++ [("to", text end_date)]
       else parameters in
     r <- requests_get w url [] parameters ;;
     lift (j <~ load r ;;
           historical <~ py_getitem j "historical" ;;
           ts <~ pd_DataFrame historical ;;
           ts <~ sort_values "date" ts ;;
           let ts := reset_index ts in
           loc_columns ts ["open"; "high"; "low"; "close"; "adjClose"; "volume"])%result)%io.

(** ** Vocabulary of the statements *)

Definition is_http (ev : event) : bool :=
  match ev with
  | Get _ _ _ => true
  | _ => false
  end.

(** No HTTP request among the events of a trace. *)
Definition no_http (t : trace) : Prop := Forall (fun ev => is_http ev = false) t.

(** Every event of a trace is the opening of a file of [dir]. *)
Definition opens_in (dir : string) (t : trace) : Prop :=
  Forall (fun ev => exists name, ev = Open (path_join dir name)) t.

(** Order of two keys in a column sorted ascending with missing keys last. *)
Definition key_le (a b : value) : Prop := py_le a b = Ok true.

Definition na_last_le (a b : value) : Prop := isna b = true \/ key_le a b.

Definition str_le (s t : string) : Prop := (s <=? t)%string = true.

(** ** The profile loop, one entity at a time *)

(** What one pass of the loop of [get_sec_company_information] computes from
    the world for the entity [cik], apart from the trace and the
    accumulator: an exception, [None] when the entity is skipped, or its
    one-row frame. *)
Definition entity_frame (w : World) (submission_dir : string)
    (ciks_with_multiple_tickers : list value) (cik : value)
    : result (option DataFrame) :=
  match files w (metadata_path submission_dir cik) with
  | None => Raise (FileNotFoundError (metadata_path submission_dir cik))
  | Some c =>
      (r <~ load c ;;
       items <~ dict_items r ;;
       tmp <~ DataFrame_of_dict (filter (fun kv => mem (fst kv) get_keys) items) ;;
       if (nrows tmp =? 0)%nat then Ok None
       else
         first <~ iloc0_frame
                    (setitem_scalar tmp "has_multiple_symbols"
                       (VBool (existsb (py_eq cik) ciks_with_multiple_tickers))) ;;
         Ok (Some first))%result
  end.

(** The effect of one pass on the local variables. *)
Definition absorb (st : locals) (o : option DataFrame) : locals :=
  match o with
  | None => mkLocals (started st) (S (no_info st)) (company_info st)
  | Some first =>
      match company_info st with
      | Some acc => mkLocals true (no_info st) (Some (concat acc first))
      | None => mkLocals true (no_info st) (Some first)
      end
  end.

Definition somes {A} (l : list (option A)) : list A :=
  flat_map (fun o => match o with Some a => [a] | None => [] end) l.

Definition nones {A} (l : list (option A)) : nat :=
  List.length (filter (fun o => match o with Some _ => false | None => true end) l).

(** [started] is set exactly when [company_info] is bound. *)
Definition consistent (st : locals) : Prop :=
  started st = match company_info st with Some _ => true | None => false end.

(** The metadata document of [cik] is present and parses, but no row can be
    extracted from its known fields. *)
Definition no_usable_metadata (w : World) (submission_dir : string) (cik : value)
    : Prop :=
  exists r items tmp,
    files w (metadata_path submission_dir cik) = Some (JSON r) /\
    dict_items r = Ok items /\
    DataFrame_of_dict (filter (fun kv => mem (fst kv) get_keys) items) = Ok tmp /\
    nrows tmp = 0.

(** The rows [sec_companies[sec_companies.cik_long.duplicated()==False]]
    keeps, as cik_long values. *)
Definition unique_ciks (cik_long : list value) : list value :=
  mask (map negb (duplicated cik_long)) cik_long.

Definition ciks_with_multiple (cik_long : list value) : list value :=
  mask (duplicated cik_long) cik_long.


(** ** Registry records *)

(** One value-record of the company-ticker mapping, fields in the order the
    resource lists them. *)
Definition registry_record (e : value * value * value) : json :=
  let '(cik_str, ticker, title) := e in
  JObj [("cik_str", JVal cik_str); ("ticker", JVal ticker); ("title", JVal title)].

Definition registry_keys : list string := ["cik_str"; "ticker"; "title"].

(** The row [get_sec_companies] makes of a record. *)
Definition registry_row (e : value * value * value) : list value :=
  let '(cik_str, ticker, title) := e in
  [ticker; title; cik_str; VStr (zfill 10 (py_str cik_str))].

(** The registry table as the specification words it: [cik] padded to ten
    characters, [cik_long] the unpadded string form, one row per record. *)
Definition registry_as_specified (entries : list (Z * string * string))
    (out : result DataFrame) : Prop :=
  exists df,
    out = Ok df /\
    getitem df "cik" =
      Ok (map (fun e => VStr (zfill 10 (str_of_Z (fst (fst e))))) entries) /\
    getitem df "cik_long" =
      Ok (map (fun e => VStr (str_of_Z (fst (fst e)))) entries) /\
    nrows df = List.length entries.

Definition starts_with_sign (s : string) : bool :=
  match s with
  | String c _ => (Ascii.eqb c "+" || Ascii.eqb c "-")%bool
  | EmptyString => false
  end.

(** ** Price records *)

Definition price_columns : list string :=
  ["open"; "high"; "low"; "close"; "adjClose"; "volume"].

(** The six retained cells of a price record. *)
Definition price_row (r : list (string * value)) : list value :=
  map (record_cell r) price_columns.

Definition date_of (r : list (string * value)) : value := record_cell r "date".

(** The query parameters of the price request. *)
Definition price_parameters (apikey : string) (start_date end_date : option string)
    : list (string * string) :=
  [("apikey", apikey)]
    ++ (if truthy start_date then [("from", text start_date)] else [])
    ++ (if truthy end_date then [("to", text end_date)] else []).

Definition price_url (ticker : string) : string :=
  ("https://financialmodelingprep.com/api/v3/historical-price-full/" ++ ticker)%string.

(** A record with a textual date and all six price fields. *)
Definition complete_price_record (r : list (string * value)) : Prop :=
  (exists d, assoc "date" r = Some (VStr d)) /\
  Forall (fun c => assoc c r <> None) price_columns.

(** ** Filing pages *)

(** A page of filings: an object of parallel arrays. *)
Definition page : Type := list (string * list value).

Definition page_json (p : page) : json :=
  JObj (map (fun kv => (fst kv, JArr (map JVal (snd kv)))) p).

(** A page of [n] filing records: every array has [n] entries, and
    [acceptanceDateTime] is one of the arrays, its entries text. *)
Definition filing_page (n : nat) (p : page) : Prop :=
  Forall (fun kv => List.length (snd kv) = n) p /\
  exists ts, assoc "acceptanceDateTime" p = Some (map VStr ts).

Definition timestamps (p : page) : list value :=
  match assoc "acceptanceDateTime" p with
  | Some vs => vs
  | None => []
  end.

(** The table [pd.DataFrame] makes of a page of [n] rows. *)
Definition page_frame (n : nat) (p : page) : DataFrame :=
  mkDataFrame (map fst p)
    (map (fun i => (i, map (fun kv => nth i (snd kv) VNaN) p)) (seq 0 n)).

(** The cells of column [c], top to bottom. *)
Definition column_cells (c : string) (df : DataFrame) : list value :=
  map (fun r => cell (columns df) (snd r) c) (rows df).

(** A shard descriptor of [filings.files]. *)
Definition shard_descriptor (name : string) : json :=
  JObj [("name", JVal (VStr name))].

(** A shard of the filing history: the name its descriptor carries, its
    number of rows and its page. *)
Definition shard : Type := (string * nat * page)%type.

(** Under [fetch], which resolves a shard name to a document, the descriptor
    [d] leads to the shard [s]. *)
Definition shard_at (fetch : string -> option content) (d : json) (s : shard)
    : Prop :=
  py_getitem d "name" = Ok (JVal (VStr (fst (fst s)))) /\
  fetch (fst (fst s)) = Some (JSON (page_json (snd s))) /\
  filing_page (snd (fst s)) (snd s).

Definition shard_frame (s : shard) : DataFrame :=
  page_frame (snd (fst s)) (snd s).

Definition total_rows (n : nat) (shards : list shard) : nat :=
  n + list_sum (map (fun s : shard => snd (fst s)) shards).

Definition all_timestamps (recent : page) (shards : list shard) : list value :=
  timestamps recent ++ flat_map (fun s : shard => timestamps (snd s)) shards.

(** The outcome the filing assembler is to have on a seed page of [n] rows
    and the given shards: a table of as many rows as the pages have together,
    numbered from zero without gaps, whose [acceptanceDateTime] column is
    the pages' timestamps in non-decreasing order. *)
Definition assembled_table (n : nat) (recent : page) (shards : list shard)
    (out : result DataFrame) : Prop :=
  exists df ts,
    out = Ok df
    /\ nrows df = total_rows n shards
    /\ index df = seq 0 (total_rows n shards)
    /\ getitem df "acceptanceDateTime" = Ok (map VStr ts)
    /\ Sorted str_le ts
    /\ Permutation (all_timestamps recent shards) (map VStr ts).

Definition submissions_url (name : string) : string :=
  ("https://data.sec.gov/submissions/" ++ name)%string.

(** ** Profile rows *)

Definition first_row (df : DataFrame) : list value :=
  match rows df with
  | r :: _ => snd r
  | [] => []
  end.

(** Under the labels [cols], the row [out] has the cells of the one-row
    frame [f]: the same cell under every label of [f], NaN elsewhere. *)
Definition same_cells (cols : list string) (out : list value) (f : DataFrame)
    : Prop :=
  forall c, cell cols out c = cell (columns f) (first_row f) c.

(** The entities of [U] for which a profile row is made. *)
Definition profiled_ciks (w : World) (submission_dir : string)
    (ciks_with_multiple_tickers U : list value) : list value :=
  filter (fun c =>
            match entity_frame w submission_dir ciks_with_multiple_tickers c with
            | Ok (Some _) => true
            | _ => false
            end) U.

(** ** Sample worlds and inputs *)

Module Sample.
Definition jstr (s : string) : json := JVal (VStr s).

Definition registry_response : json :=
  JObj [("0", JObj [("cik_str", JVal (VInt 320193)); ("ticker", jstr "AAPL");
                    ("title", jstr "Apple Inc.")])].

Definition recent : page :=
  [("accessionNumber", [VStr "0000320193-23-000106"; VStr "0000320193-23-000077"]);
   ("acceptanceDateTime", [VStr "2023-11-02T18:08:27.000Z"; VStr "2023-08-03T18:04:43.000Z"]);
   ("form", [VStr "10-K"; VStr "10-Q"])].

Definition older : page :=
  [("accessionNumber", [VStr "0000320193-14-000012"; VStr "0000320193-15-000005";
                        VStr "0000320193-13-000023"]);
   ("acceptanceDateTime", [VStr "2014-01-28T16:32:11.000Z"; VStr "2015-01-28T16:32:11.000Z";
                           VStr "2013-10-30T16:32:11.000Z"]);
   ("form", [VStr "10-Q"; VStr "10-Q"; VStr "10-K"])].

Definition recent_page : json := page_json recent.

Definition shard_page : json := page_json older.

Definition shard_descriptors : list json :=
  [JObj [("name", jstr "CIK0000320193-001.json"); ("filingCount", JVal (VInt 3))]].

Definition submission (tickers exchanges : list json) : json :=
  JObj [("cik", jstr "320193"); ("entityType", jstr "operating"); ("sic", jstr "3571");
        ("sicDescription", jstr "Electronic Computers"); ("name", jstr "Apple Inc.");
        ("tickers", JArr tickers); ("exchanges", JArr exchanges);
        ("fiscalYearEnd", jstr "0930");
        ("filings", JObj [("recent", recent_page);
                          ("files", JArr shard_descriptors)])].

Definition price_items : list json :=
  [JObj [("date", jstr "2020-01-03"); ("open", JVal (VFloat "1.5"));
         ("high", JVal (VFloat "2.5")); ("low", JVal (VFloat "1.0"));
         ("close", JVal (VFloat "2.0")); ("adjClose", JVal (VFloat "2.0"));
         ("volume", JVal (VInt 100))];
   JObj [("date", jstr "2020-01-02"); ("open", JVal (VFloat "1.6"));
         ("high", JVal (VFloat "2.6")); ("low", JVal (VFloat "1.1"));
         ("close", JVal (VFloat "2.1")); ("adjClose", JVal (VFloat "2.1"));
         ("volume", JVal (VInt 200))]].

Definition prices : json :=
  JObj [("symbol", jstr "ABC"); ("historical", JArr price_items)].

Definition world : World :=
  mkWorld
    (fun p =>
       if p =? "data/CIK0000320193.json"
       then Some (JSON (submission [jstr "AAPL"] [jstr "Nasdaq"]))
       else if p =? "data/CIK0000320193-001.json" then Some (JSON shard_page)
       else if p =? "data/CIK0000789019.json" then Some (JSON (submission [] []))
       else if p =? "data/CIK0000001800.json"
       then Some (JSON (submission [jstr "ABT"] [jstr "NYSE"]))
       else None)
    (fun u _ _ =>
       if u =? "https://www.sec.gov/files/company_tickers.json"
       then Some (JSON registry_response)
       else if u =? "https://data.sec.gov/submissions/CIK0000320193.json"
       then Some (JSON (submission [jstr "AAPL"] [jstr "Nasdaq"]))
       else if u =? "https://data.sec.gov/submissions/CIK0000320193-001.json"
       then Some (JSON shard_page)
       else if u =? "https://financialmodelingprep.com/api/v3/historical-price-full/ABC"
       then Some (JSON prices)
       else None).

Definition registry : DataFrame :=
  mkDataFrame ["ticker"; "title"; "cik"; "cik_long"]
    [(0, [VStr "AAPL"; VStr "Apple Inc."; VInt 320193; VStr "0000320193"]);
     (1, [VStr "MSFT"; VStr "Microsoft Corp"; VInt 789019; VStr "0000789019"]);
     (2, [VStr "APLE"; VStr "Apple Inc."; VInt 320193; VStr "0000320193"]);
     (3, [VStr "ABT"; VStr "Abbott Laboratories"; VInt 1800; VStr "0000001800"])].

Definition registry_ciks : list value :=
  [VStr "0000320193"; VStr "0000789019"; VStr "0000320193"; VStr "0000001800"].
End Sample.

Module SampleProfiles.
(** A registry whose second entity has no metadata document at all. *)
Definition registry_with_gap : DataFrame :=
  mkDataFrame ["ticker"; "title"; "cik"; "cik_long"]
    [(0, [VStr "AAPL"; VStr "Apple Inc."; VInt 320193; VStr "0000320193"]);
     (1, [VStr "NONE"; VStr "Nowhere Inc."; VInt 1; VStr "0000000001"])].

(** A registry all of whose entities have empty [tickers] and [exchanges]. *)
Definition registry_of_empties : DataFrame :=
  mkDataFrame ["ticker"; "title"; "cik"; "cik_long"]
    [(0, [VStr "MSFT"; VStr "Microsoft Corp"; VInt 789019; VStr "0000789019"])].
End SampleProfiles.

From Stdlib Require DecimalZ.

(** ** Further vocabulary *)

Definition is_open (ev : event) : bool :=
  match ev with
  | Open _ => true
  | _ => false
  end.

(** No file opened among the events of a trace. *)
Definition no_open (t : trace) : Prop := Forall (fun ev => is_open ev = false) t.

(** ** Kinds of cells

    pandas gives a column one dtype, and so does the row that [iterrows]
    hands out.  Text cells are kept as they are in every column, and so are
    integers of 64 bits in a column that holds nothing else; an integer beside
    a float, a null or a missing cell would be turned into a float.  The
    statements below that fix the cells of a table are made for cells of
    these two kinds. *)

Definition is_text (v : value) : bool :=
  match v with
  | VStr _ => true
  | _ => false
  end.

Definition is_int64 (v : value) : bool :=
  match v with
  | VInt z => ((- 2 ^ 63 <=? z) && (z <? 2 ^ 63))%Z
  | _ => false
  end.

(** A column all of whose cells are text, or all of whose cells are
    integers. *)
Definition uniform_column (col : list value) : bool :=
  (forallb is_text col || forallb is_int64 col)%bool.

(** A document field that is a text, or an array of texts. *)
Definition text_field (j : json) : bool :=
  match j with
  | JVal v => is_text v
  | JArr items =>
      forallb (fun x => match x with JVal v => is_text v | _ => false end) items
  | JObj _ => false
  end.

(** The pages of a run, field by field: a field holds text wherever it
    occurs (some pages may lack it), or it is in every page a column of one or
    more integers, so that no integer shares a column with a missing cell. *)
Definition plain_pages (ps : list page) : bool :=
  forallb
    (fun p : page =>
       forallb
         (fun kv : string * list value =>
            forallb is_text (snd kv)
            || forallb
                 (fun q : page =>
                    match assoc (fst kv) q with
                    | Some (v :: col) => forallb is_int64 (v :: col)
                    | _ => false
                    end)
                 ps)%bool
         p)
    ps.

(** The events of fetching the shards in local mode: one file each. *)
Definition shard_opens (dir : string) (shards : list shard) : trace :=
  map (fun s : shard => Open (path_join dir (fst (fst s)))) shards.

(** The events of fetching the shards in live mode: a request and a pause
    of 100 ms each. *)
Definition shard_requests (headers : list (string * string)) (shards : list shard)
    : trace :=
  flat_map (fun s : shard =>
              [Get (submissions_url (fst (fst s))) headers []; Sleep 100])
    shards.

(** The [i]-th filing record of a page: each field with its [i]-th entry. *)
Definition page_record (p : page) (i : nat) : list (string * value) :=
  map (fun kv => (fst kv, nth i (snd kv) VNaN)) p.

Definition page_records (n : nat) (p : page) : list (list (string * value)) :=
  map (page_record p) (seq 0 n).

(** The records of the seed page and of the shards, in the order fetched. *)
Definition all_records (n : nat) (recent : page) (shards : list shard)
    : list (list (string * value)) :=
  page_records n recent
    ++ flat_map (fun s : shard => page_records (snd (fst s)) (snd s)) shards.

(** The fields of all pages, in order of first appearance. *)
Definition all_columns (recent : page) (shards : list shard) : list string :=
  fold_left union_labels (map (fun s : shard => map fst (snd s)) shards)
    (map fst recent).

(** A record laid out along [cols]: NaN under the labels it lacks. *)
Definition layout (cols : list string) (r : list (string * value)) : list value :=
  map (record_cell r) cols.

(** A table that holds every filing record of the pages exactly once, each
    laid out along the union of the pages' fields. *)
Definition complete_table (n : nat) (recent : page) (shards : list shard)
    (out : result DataFrame) : Prop :=
  exists df,
    out = Ok df
    /\ columns df = all_columns recent shards
    /\ Permutation (map (layout (all_columns recent shards))
                      (all_records n recent shards))
         (map snd (rows df)).

(** The rows of [f] aligned with the labels [cols]. *)
Definition spread (cols : list string) (f : DataFrame) : list (list value) :=
  map (fun r => reindex (columns f) cols (snd r)) (rows f).


(** What a field of a metadata document contributes to the profile row:
    the scalar itself, or the first entry of an array. *)
Definition first_value (field : option json) : value :=
  match field with
  | Some (JVal v) => v
  | Some (JArr (JVal v :: _)) => v
  | _ => VNaN
  end.

Definition known_fields (items : list (string * json)) : list (string * json) :=
  filter (fun kv => mem (fst kv) get_keys) items.

(** ** Further sample worlds *)

Module SampleShards.
(** An entity with three shards of which only the first can be fetched. *)
Definition descriptors : list json :=
  [JObj [("name", Sample.jstr "CIK0000320193-001.json")];
   JObj [("name", Sample.jstr "CIK0000320193-002.json")];
   JObj [("name", Sample.jstr "CIK0000320193-003.json")]].

Definition main : json :=
  JObj [("cik", Sample.jstr "320193");
        ("filings", JObj [("recent", Sample.recent_page);
                          ("files", JArr descriptors)])].

Definition world : World :=
  mkWorld
    (fun p =>
       if p =? "data/CIK0000320193.json" then Some (JSON main)
       else if p =? "data/CIK0000320193-001.json" then Some (JSON Sample.shard_page)
       else if p =? "data/CIK0000001800.json"
       then Some (JSON (JObj [("cik", Sample.jstr "1800")]))
       else None)
    (fun u _ _ =>
       if u =? "https://data.sec.gov/submissions/CIK0000320193.json"
       then Some (JSON main)
       else if u =? "https://data.sec.gov/submissions/CIK0000320193-001.json"
       then Some (JSON Sample.shard_page)
       else if u =? "https://data.sec.gov/submissions/CIK0000001800.json"
       then Some (JSON (JObj [("cik", Sample.jstr "1800")]))
       else None).
End SampleShards.

Module SamplePages.
(** An entity whose older filings carry a field the recent ones lack, and a
    column of integers in every page. *)
Definition recent : page :=
  [("accessionNumber", [VStr "0000001800-23-000040"; VStr "0000001800-23-000031"]);
   ("acceptanceDateTime", [VStr "2023-10-18T09:01:12.000Z"; VStr "2023-07-20T08:45:03.000Z"]);
   ("size", [VInt 5120334; VInt 4981207])].

Definition older : page :=
  [("accessionNumber", [VStr "0000001800-05-000011"]);
   ("acceptanceDateTime", [VStr "2005-02-22T17:20:41.000Z"]);
   ("size", [VInt 880112]);
   ("items", [VStr "2.02,9.01"])].

Definition main : json :=
  JObj [("cik", Sample.jstr "1800");
        ("filings",
         JObj [("recent", page_json recent);
               ("files", JArr [JObj [("name", Sample.jstr "CIK0000001800-001.json")]])])].

Definition fetch (name : string) : option content :=
  if name =? "CIK0000001800.json" then Some (JSON main)
  else if name =? "CIK0000001800-001.json" then Some (JSON (page_json older))
  else None.

Definition world : World :=
  mkWorld
    (fun p => if p =? "data/CIK0000001800.json" then fetch "CIK0000001800.json"
              else if p =? "data/CIK0000001800-001.json"
                   then fetch "CIK0000001800-001.json"
                   else None)
    (fun u _ _ =>
       if u =? "https://data.sec.gov/submissions/CIK0000001800.json"
       then fetch "CIK0000001800.json"
       else if u =? "https://data.sec.gov/submissions/CIK0000001800-001.json"
            then fetch "CIK0000001800-001.json"
            else None).
End SamplePages.

Module SampleTickers.
(** An entity listed under two tickers on two exchanges. *)
Definition document : json :=
  JObj [("cik", Sample.jstr "1652044"); ("entityType", Sample.jstr "operating");
        ("sic", Sample.jstr "7370"); ("name", Sample.jstr "Alphabet Inc.");
        ("tickers", JArr [Sample.jstr "GOOGL"; Sample.jstr "GOOG"]);
        ("exchanges", JArr [Sample.jstr "Nasdaq"; Sample.jstr "Nasdaq"]);
        ("fiscalYearEnd", Sample.jstr "1231");
        ("filings", JObj [("recent", JObj []); ("files", JArr [])])].

(** A document with scalar fields only. *)
Definition scalars_only : json :=
  JObj [("cik", Sample.jstr "1800"); ("name", Sample.jstr "Abbott Laboratories")].

Definition world : World :=
  mkWorld
    (fun p =>
       if p =? "data/CIK0001652044.json" then Some (JSON document)
       else if p =? "data/CIK0000001800.json" then Some (JSON scalars_only)
       else None)
    (fun _ _ _ => None).

Definition registry : DataFrame :=
  mkDataFrame ["ticker"; "title"; "cik"; "cik_long"]
    [(0, [VStr "GOOGL"; VStr "Alphabet Inc."; VInt 1652044; VStr "0001652044"]);
     (1, [VStr "GOOG"; VStr "Alphabet Inc."; VInt 1652044; VStr "0001652044"])].

Definition registry_ciks : list value := [VStr "0001652044"; VStr "0001652044"].

Definition registry_with_scalars : DataFrame :=
  mkDataFrame ["ticker"; "title"; "cik"; "cik_long"]
    [(0, [VStr "GOOGL"; VStr "Alphabet Inc."; VInt 1652044; VStr "0001652044"]);
     (1, [VStr "ABT"; VStr "Abbott Laboratories"; VInt 1800; VStr "0000001800"])].
End SampleTickers.

(** The labels [pd.json_normalize] gives a list of flat records. *)
Definition record_labels (recs : list (list (string * value))) : list string :=
  fold_left (fun acc r => union_labels acc (map fst r)) recs [].

Definition tickers_url : string := "https://www.sec.gov/files/company_tickers.json".

Definition tickers_request : event :=
  Get tickers_url [("User-Agent", "email")] [].

Module SampleRegistry.
(** A response in the shape of the regulator's ticker-and-exchange listing:
    four fields per record. *)
Definition with_exchange : json :=
  JObj [("0", JObj [("cik_str", JVal (VInt 320193)); ("ticker", Sample.jstr "AAPL");
                    ("title", Sample.jstr "Apple Inc.");
                    ("exchange", Sample.jstr "Nasdaq")])].

(** A response whose records carry no [cik_str]. *)
Definition without_cik : json :=
  JObj [("0", JObj [("ticker", Sample.jstr "AAPL"); ("title", Sample.jstr "Apple Inc.")])].

(** A response listing the fields of a record in another order. *)
Definition reordered : json :=
  JObj [("0", JObj [("ticker", Sample.jstr "AAPL"); ("cik_str", JVal (VInt 320193));
                    ("title", Sample.jstr "Apple Inc.")])].

Definition world (response : json) : World :=
  mkWorld (fun _ => None) (fun _ _ _ => Some (JSON response)).
End SampleRegistry.

(** [int(s)] for a decimal numeral with an optional minus sign; leading
    zeros are allowed, as in Python. *)
Definition int_of_text (s : string) : option Z :=
  option_map Z.of_int (NilZero.int_of_string s).

Module SamplePrices.
(** What the provider answers for an unknown symbol. *)
Definition unknown_symbol : json := JObj [].

(** A response whose [historical] array is empty. *)
Definition empty_history : json :=
  JObj [("symbol", Sample.jstr "ABC"); ("historical", JArr [])].

Definition world (response : json) : World :=
  mkWorld (fun _ => None) (fun _ _ _ => Some (JSON response)).
End SamplePrices.

(** * Properties *)

(** ** The monad *)

Lemma bind_lift_ok {A B} (a : A) (k : A -> IO B) (t : trace) :
  bind (lift (Ok a)) k t = k a t.
Proof. reflexivity. Qed.

Lemma bind_lift_raise {A B} (e : exn) (k : A -> IO B) (t : trace) :
  bind (lift (Raise e)) k t = (Raise e, t).
Proof. reflexivity. Qed.

Lemma bind_emit {B} (ev : event) (k : unit -> IO B) (t : trace) :
  bind (emit ev) k t = k tt (t ++ [ev]).
Proof. reflexivity. Qed.

Lemma open_json_run (w : World) (path : string) (t : trace) :
  open_json w path t =
  (match files w path with
   | None => Raise (FileNotFoundError path)
   | Some c => load c
   end, t ++ [Open path]).
Proof.
  unfold open_json. rewrite bind_emit. destruct (files w path); reflexivity.
Qed.

Lemma requests_get_run (w : World) url headers params (t : trace) :
  requests_get w url headers params t =
  (match http w url headers params with
   | None => Raise ConnectionError
   | Some c => Ok c
   end, t ++ [Get url headers params]).
Proof.
  unfold requests_get. rewrite bind_emit.
  destruct (http w url headers params); reflexivity.
Qed.

Lemma no_http_snoc (t : trace) (ev : event) :
  no_http t -> is_http ev = false -> no_http (t ++ [ev]).
Proof.
  intros Ht Hev. apply Forall_app. split; [exact Ht | constructor; auto].
Qed.

Lemma for_each_trace {A S} (P : trace -> Prop) (body : S -> A -> IO S) :
  (forall st a t, P t -> P (snd (body st a t))) ->
  forall l st t, P t -> P (snd (for_each body l st t)).
Proof.
  intros Hbody l. induction l as [|a l IH]; intros st t Ht; simpl.
  - exact Ht.
  - unfold bind. specialize (Hbody st a t Ht).
    destruct (body st a t) as [[st'|e] t']; simpl in *; auto.
Qed.

Ltac run_io :=
  repeat first
    [ rewrite open_json_run
    | rewrite requests_get_run
    | progress (unfold bind, lift, ret, raise, emit; simpl)
    | match goal with
      | |- context [match ?x with _ => _ end] => destruct x eqn:?
      end ].

(** ** Preconditions *)

(** C8: [get_fmp_stock_data] raises [ValueError] when [end_date] is given and
    [start_date] is not, and it does so with the trace untouched: no request
    has been issued. *)
Theorem end_date_needs_start_date (w : World) (apikey ticker : string)
    (start_date end_date : option string) (t : trace) :
  truthy end_date = true ->
  truthy start_date = false ->
  get_fmp_stock_data w apikey ticker start_date end_date t = (Raise ValueError, t).
Proof.
  intros He Hs. unfold get_fmp_stock_data. rewrite He, Hs. reflexivity.
Qed.

Lemma end_date_needs_start_date_witness :
  get_fmp_stock_data Sample.world "key" "ABC" None (Some "2020-01-01") [] =
  (Raise ValueError, []).
Proof.
  apply end_date_needs_start_date; reflexivity.
Defined.

Lemma local_shard_no_http (w : World) (dir : string) (filings : DataFrame)
    (file : json) (t : trace) :
  no_http t -> no_http (snd (local_shard w dir filings file t)).
Proof.
  intros Ht. unfold local_shard.
  run_io; auto using no_http_snoc.
Qed.

Lemma local_filings_no_http (w : World) (cik dir : string) (t : trace) :
  no_http t -> no_http (snd (local_filings w cik dir t)).
Proof.
  intros Ht. unfold local_filings, bind, lift. rewrite open_json_run.
  assert (Ht' : no_http (t ++ [Open (path_join dir ("CIK" ++ cik ++ ".json"))]))
    by auto using no_http_snoc.
  repeat match goal with
         | |- context [match ?x with _ => _ end] => destruct x eqn:?
         end; simpl; try exact Ht'.
  apply for_each_trace; [|exact Ht'].
  intros. now apply local_shard_no_http.
Qed.

Lemma local_shard_opens (w : World) (dir : string) (filings : DataFrame)
    (file : json) (t0 t : trace) :
  (exists rest, t = t0 ++ rest /\ opens_in dir rest) ->
  exists rest, snd (local_shard w dir filings file t) = t0 ++ rest
               /\ opens_in dir rest.
Proof.
  intros (rest & -> & Hrest). unfold local_shard, bind, lift.
  destruct (py_getitem file "name") as [name|e]; cbn [fst snd]; [|eauto].
  unfold join_name.
  destruct name as [[| | | | |s]| |]; cbn [fst snd]; eauto.
  rewrite open_json_run.
  assert (Hext : exists rest', (t0 ++ rest) ++ [Open (path_join dir s)] = t0 ++ rest'
                               /\ opens_in dir rest').
  { exists (rest ++ [Open (path_join dir s)]). split; [now rewrite app_assoc|].
    apply Forall_app. split; [exact Hrest|]. constructor; [eauto | constructor]. }
  destruct (files w (path_join dir s)) as [c|]; cbn [fst snd]; [|exact Hext].
  destruct (load c) as [j|e]; cbn [fst snd]; [|exact Hext].
  destruct (pd_DataFrame j); exact Hext.
Qed.

Lemma local_filings_opens (w : World) (cik dir : string) (t : trace) :
  exists rest,
    snd (local_filings w cik dir t) =
      t ++ Open (path_join dir ("CIK" ++ cik ++ ".json")) :: rest
    /\ opens_in dir rest.
Proof.
  set (main := path_join dir ("CIK" ++ cik ++ ".json")).
  assert (Hgoal : exists rest,
             snd (local_filings w cik dir t) = (t ++ [Open main]) ++ rest
             /\ opens_in dir rest).
  { unfold local_filings, bind, lift. fold main. rewrite open_json_run.
    assert (H0 : exists rest, t ++ [Open main] = (t ++ [Open main]) ++ rest
                              /\ opens_in dir rest).
    { exists []. split; [now rewrite app_nil_r | constructor]. }
    repeat match goal with
           | |- context [match ?x with _ => _ end] => destruct x eqn:?
           end; cbn [fst snd]; try exact H0.
    apply (for_each_trace
             (fun t' => exists rest, t' = (t ++ [Open main]) ++ rest
                                     /\ opens_in dir rest)); [|exact H0].
    intros st0 x t' Ht'. now apply local_shard_opens. }
  destruct Hgoal as (rest & Htrace & Hrest). exists rest.
  split; [|exact Hrest]. rewrite Htrace, <- app_assoc. reflexivity.
Qed.

(** C7: [get_seccompany_filings] raises, with the trace untouched, when [cik]
    is not a string of ten characters ([AssertionError]) and when neither
    [submission_dir] nor [email] is given ([ValueError], or the assertion if
    [cik] is malformed too).  When [submission_dir] is given, local-file mode
    is used, with or without [email]: the run is the one without [email]; it
    is the same for any [email] and any network with the same files; it adds
    no HTTP request to the trace; for a well-formed [cik] the first thing it
    does is open [CIK<cik>.json] in [submission_dir], and everything it does
    after that is open further files of [submission_dir]; and when that first
    file is missing it ends in [FileNotFoundError] right there. *)
Theorem filings_preconditions (w : World) (cik : value)
    (submission_dir email : option string) (t : trace) :
  ((forall c, cik = VStr c -> String.length c <> 10) ->
   get_seccompany_filings w cik submission_dir email t = (Raise AssertionError, t))
  /\ (truthy submission_dir = false -> truthy email = false ->
      exists e, (e = AssertionError \/ e = ValueError) /\
        get_seccompany_filings w cik submission_dir email t = (Raise e, t))
  /\ (truthy submission_dir = true ->
      get_seccompany_filings w cik submission_dir email t =
      get_seccompany_filings w cik submission_dir None t
      /\ (no_http t ->
          no_http (snd (get_seccompany_filings w cik submission_dir email t)))
      /\ (forall w' email',
             files w' = files w ->
             get_seccompany_filings w' cik submission_dir email' t =
             get_seccompany_filings w cik submission_dir email t)
      /\ (forall c,
             cik = VStr c ->
             String.length c = 10 ->
             (exists rest,
                 snd (get_seccompany_filings w cik submission_dir email t) =
                   t ++ Open (path_join (text submission_dir) ("CIK" ++ c ++ ".json"))
                     :: rest
                 /\ opens_in (text submission_dir) rest)
             /\ (files w (path_join (text submission_dir) ("CIK" ++ c ++ ".json"))
                   = None ->
                 get_seccompany_filings w cik submission_dir email t =
                 (Raise (FileNotFoundError
                           (path_join (text submission_dir) ("CIK" ++ c ++ ".json"))),
                  t ++ [Open (path_join (text submission_dir)
                                ("CIK" ++ c ++ ".json"))])))).
Proof.
  split; [|split].
  - intros Hcik. destruct cik; try reflexivity. simpl.
    destruct (Nat.eqb_spec (String.length s) 10) as [E|E]; [|reflexivity].
    exfalso. now apply (Hcik s).
  - intros Hd He. destruct cik; try (exists AssertionError; auto; fail). simpl.
    destruct (String.length s =? 10)%nat.
    + exists ValueError. rewrite Hd, He. auto.
    + exists AssertionError. auto.
  - intros Hd. split; [|split; [|split]].
    + destruct cik; try reflexivity. simpl. rewrite Hd. reflexivity.
    + intros Ht. destruct cik; try exact Ht. simpl.
      destruct (String.length s =? 10)%nat; [|exact Ht].
      rewrite Hd. simpl. unfold bind.
      pose proof (local_filings_no_http w s (text submission_dir) t Ht) as Hl.
      destruct (local_filings w s (text submission_dir) t) as [[f|e] t'];
        simpl in *; [|exact Hl].
      unfold lift. destruct (sort_values "acceptanceDateTime" f); exact Hl.
    + intros w' email' Hfiles. destruct w as [f h], w' as [f' h'].
      cbn [files] in Hfiles. subst f'.
      destruct cik; try reflexivity. simpl. rewrite Hd. reflexivity.
    + intros c -> Hlen. unfold get_seccompany_filings.
      rewrite Hlen, Hd. cbn [Nat.eqb negb andb]. unfold bind at 1. split.
      * destruct (local_filings_opens w c (text submission_dir) t)
          as (rest & Htrace & Hrest).
        exists rest. split; [|exact Hrest].
        destruct (local_filings w c (text submission_dir) t) as [[f|e] t'];
          cbn [fst snd] in *; [|exact Htrace].
        unfold bind, lift. destruct (sort_values "acceptanceDateTime" f); exact Htrace.
      * intros Hnone. unfold local_filings, bind. rewrite open_json_run, Hnone.
        reflexivity.
Qed.

Lemma filings_preconditions_witness :
  get_seccompany_filings Sample.world (VStr "123") (Some "data") None [] =
    (Raise AssertionError, [])
  /\ (exists e, (e = AssertionError \/ e = ValueError) /\
        get_seccompany_filings Sample.world (VStr "0000320193") None None [] =
          (Raise e, []))
  /\ no_http (snd (get_seccompany_filings Sample.world (VStr "0000320193")
                     (Some "data") (Some "jane.doe@example.org") []))
  /\ (exists rest,
         snd (get_seccompany_filings Sample.world (VStr "0000320193")
                (Some "data") (Some "jane.doe@example.org") []) =
           [] ++ Open (path_join "data" "CIK0000320193.json") :: rest
         /\ opens_in "data" rest).
Proof.
  split; [|split; [|split]].
  - apply (proj1 (filings_preconditions Sample.world (VStr "123") (Some "data") None [])).
    intros c [= <-]. simpl. lia.
  - apply (proj1 (proj2 (filings_preconditions Sample.world (VStr "0000320193")
                           None None [])));
      reflexivity.
  - apply (proj2 (proj2 (filings_preconditions Sample.world (VStr "0000320193")
                           (Some "data") (Some "jane.doe@example.org") [])));
      [reflexivity | constructor].
  - destruct (proj2 (proj2 (filings_preconditions Sample.world (VStr "0000320193")
                              (Some "data") (Some "jane.doe@example.org") []))
                eq_refl) as (_ & _ & _ & Hlocal).
    exact (proj1 (Hlocal "0000320193" eq_refl eq_refl)).
Defined.

(** ** The loop of get_sec_company_information *)

Section ProfileLoop.
Variable w : World.
Variable dir : string.
Variable cols : list string.
Variable dups : list value.

Let key (row : nat * list value) : value := cell cols (snd row) "cik_long".

Lemma profile_step_run (st : locals) (row : nat * list value) (t : trace) :
  consistent st ->
  profile_step w dir cols dups st row t =
  (match entity_frame w dir dups (key row) with
   | Ok o => Ok (absorb st o)
   | Raise e => Raise e
   end, t ++ [Open (metadata_path dir (key row))]).
Proof.
  intros Hst. unfold profile_step, entity_frame, bind. fold (key row).
  rewrite open_json_run.
  destruct (files w (metadata_path dir (key row))) as [c|]; [|reflexivity].
  destruct (load c) as [r|e]; [|reflexivity]. simpl.
  unfold lift.
  destruct (dict_items r) as [items|e]; [|reflexivity]. simpl.
  destruct (DataFrame_of_dict _) as [tmp|e]; [|reflexivity]. simpl.
  destruct (nrows tmp =? 0)%nat; [reflexivity|].
  destruct (existsb (py_eq (key row)) dups);
    (destruct (iloc0_frame _) as [first|e]; [|reflexivity]); simpl;
    unfold consistent in Hst; unfold ret, raise;
    destruct (company_info st); rewrite Hst; reflexivity.
Qed.

Lemma absorb_consistent (st : locals) (o : option DataFrame) :
  consistent st -> consistent (absorb st o).
Proof.
  unfold consistent. destruct o as [f|]; simpl; [|auto].
  destruct (company_info st); reflexivity.
Qed.

Lemma profile_loop_run (l : list (nat * list value)) :
  forall (st : locals) (t : trace),
    consistent st ->
    fst (for_each (profile_step w dir cols dups) l st t) =
    match rmap (entity_frame w dir dups) (map key l) with
    | Ok os => Ok (fold_left absorb os st)
    | Raise e => Raise e
    end.
Proof.
  induction l as [|row l IH]; intros st t Hst; simpl; [reflexivity|].
  unfold bind. rewrite profile_step_run by exact Hst.
  destruct (entity_frame w dir dups (key row)) as [o|e]; [|reflexivity].
  rewrite IH by (now apply absorb_consistent).
  destruct (rmap (entity_frame w dir dups) (map key l)); reflexivity.
Qed.

Lemma profile_loop_trace (l : list (nat * list value)) :
  forall (st : locals) (t : trace) (os : list (option DataFrame)),
    consistent st ->
    rmap (entity_frame w dir dups) (map key l) = Ok os ->
    snd (for_each (profile_step w dir cols dups) l st t) =
    t ++ map (fun row => Open (metadata_path dir (key row))) l.
Proof.
  induction l as [|row l IH]; intros st t os Hst Hos; simpl.
  - now rewrite app_nil_r.
  - simpl in Hos. unfold bind. rewrite profile_step_run by exact Hst.
    destruct (entity_frame w dir dups (key row)) as [o|e]; [|discriminate].
    destruct (rmap (entity_frame w dir dups) (map key l)) as [os'|] eqn:E;
      [|discriminate].
    rewrite (IH _ _ os') by (auto using absorb_consistent).
    now rewrite <- app_assoc.
Qed.
End ProfileLoop.

Lemma mask_map {A B} (f : A -> B) (m : list bool) :
  forall l : list A, map f (mask m l) = mask m (map f l).
Proof.
  induction m as [|b m IH]; intros [|a l]; simpl; try reflexivity.
  - now destruct b.
  - destruct b; simpl; now rewrite IH.
Qed.

Lemma mask_Forall {A} (P : A -> Prop) (m : list bool) :
  forall l : list A, Forall P l -> Forall P (mask m l).
Proof.
  induction m as [|b m IH]; intros [|a l] H; simpl; try constructor.
  - destruct b; constructor.
  - inversion H; subst. destruct b; [constructor|]; auto.
Qed.

Lemma absorb_no_info (os : list (option DataFrame)) :
  forall st, no_info (fold_left absorb os st) = no_info st + nones os.
Proof.
  unfold nones.
  induction os as [|o os IH]; intros st; simpl; [lia|].
  rewrite IH. destruct o as [f|]; simpl; [|lia].
  destruct (company_info st); simpl; lia.
Qed.

Lemma absorb_company_info (os : list (option DataFrame)) :
  forall st,
    company_info (fold_left absorb os st) =
    match company_info st, somes os with
    | Some acc, fs => Some (fold_left concat fs acc)
    | None, [] => None
    | None, f :: fs => Some (fold_left concat fs f)
    end.
Proof.
  induction os as [|o os IH]; intros st; simpl.
  - now destruct (company_info st).
  - rewrite IH. destruct o as [f|]; simpl; [|reflexivity].
    destruct (company_info st); reflexivity.
Qed.

Lemma getattr_cells (df : DataFrame) (c : string) (vs : list value) :
  getattr df c = Ok vs ->
  map (fun row => cell (columns df) (snd row) c) (rows df) = vs.
Proof.
  unfold getattr, cell. destruct (index_of c (columns df)); [|discriminate].
  now intros [= <-].
Qed.

(** The whole of [get_sec_company_information], in terms of the entities it
    visits. *)
Lemma company_information_run (w : World) (sec_companies : DataFrame)
    (dir : string) (cik_long : list value) (t : trace) :
  getattr sec_companies "cik_long" = Ok cik_long ->
  fst (get_sec_company_information w sec_companies dir t) =
  match rmap (entity_frame w dir (ciks_with_multiple cik_long)) (unique_ciks cik_long) with
  | Raise e => Raise e
  | Ok os =>
      match somes os with
      | [] => Raise (UnboundLocalError "company_info")
      | f :: fs => Ok (reset_index (fold_left concat fs f))
      end
  end.
Proof.
  intros Hc. unfold get_sec_company_information. rewrite Hc, bind_lift_ok.
  cbn [columns rows]. unfold bind.
  match goal with
  | |- context [for_each ?b ?l ?s t] =>
      pose proof (profile_loop_run w dir (columns sec_companies)
                    (mask (duplicated cik_long) cik_long) l s t eq_refl) as Hrun;
      destruct (for_each b l s t) as [[st|e] t'] eqn:E
  end; simpl in Hrun;
    rewrite mask_map, (getattr_cells _ _ _ Hc) in Hrun;
    fold (unique_ciks cik_long) (ciks_with_multiple cik_long) in Hrun;
    destruct (rmap _ (unique_ciks cik_long)) as [os|e']; try discriminate.
  - injection Hrun as ->. rewrite absorb_company_info. simpl.
    destruct (somes os); reflexivity.
  - now injection Hrun as ->.
Qed.

Lemma company_information_trace (w : World) (sec_companies : DataFrame)
    (dir : string) (cik_long : list value) (t : trace)
    (os : list (option DataFrame)) :
  getattr sec_companies "cik_long" = Ok cik_long ->
  rmap (entity_frame w dir (ciks_with_multiple cik_long)) (unique_ciks cik_long) = Ok os ->
  somes os <> [] ->
  snd (get_sec_company_information w sec_companies dir t) =
  t ++ map (fun c => Open (metadata_path dir c)) (unique_ciks cik_long)
    ++ [Print (report (nones os))].
Proof.
  intros Hc Hos Hne. unfold get_sec_company_information.
  rewrite Hc, bind_lift_ok. cbn [columns rows]. unfold bind.
  match goal with
  | |- context [for_each ?b ?l ?s t] =>
      pose proof (profile_loop_run w dir (columns sec_companies)
                    (mask (duplicated cik_long) cik_long) l s t eq_refl) as Hrun;
      pose proof (profile_loop_trace w dir (columns sec_companies)
                    (mask (duplicated cik_long) cik_long) l s t os eq_refl) as Htr;
      destruct (for_each b l s t) as [[st|e] t'] eqn:E
  end; simpl in Hrun, Htr;
    rewrite mask_map, (getattr_cells _ _ _ Hc) in Hrun, Htr;
    fold (unique_ciks cik_long) (ciks_with_multiple cik_long) in Hrun, Htr;
    rewrite Hos in Hrun; try discriminate.
  injection Hrun as ->. specialize (Htr Hos). subst t'.
  rewrite absorb_company_info, absorb_no_info. simpl.
  destruct (somes os) as [|f fs]; [contradiction|]. simpl.
  rewrite <- app_assoc. f_equal.
  rewrite <- (getattr_cells _ _ _ Hc) at 2.
  unfold unique_ciks.
  rewrite <- (getattr_cells _ _ _ Hc).
  rewrite <- mask_map, map_map. reflexivity.
Qed.

Lemma no_usable_entity_frame (w : World) (dir : string) (dups : list value)
    (c : value) :
  no_usable_metadata w dir c -> entity_frame w dir dups c = Ok None.
Proof.
  intros (r & items & tmp & Hf & Hi & Hd & Hn).
  unfold entity_frame, rbind. rewrite Hf. cbn [load]. rewrite Hi, Hd, Hn.
  reflexivity.
Qed.

Lemma rmap_Forall2 {A B} (f : A -> result B) (l : list A) :
  forall bs, rmap f l = Ok bs <-> Forall2 (fun a b => f a = Ok b) l bs.
Proof.
  induction l as [|a l IH]; intros bs; simpl.
  - split; [intros [= <-]; constructor | intros H; now inversion H].
  - destruct (f a) as [b|e] eqn:Ea.
    + destruct (rmap f l) as [bs'|e] eqn:El.
      * split.
        -- intros [= <-]. constructor; [exact Ea | now apply IH].
        -- intros H. inversion H; subst.
           assert (b = y) by congruence. subst y.
           match goal with
           | H' : Forall2 _ l _ |- _ => apply IH in H'; now injection H' as ->
           end.
      * split; [discriminate|].
        intros H. inversion H; subst.
        match goal with
        | H' : Forall2 _ l _ |- _ => apply IH in H'; discriminate
        end.
    + split; [discriminate|]. intros H. inversion H; subst. congruence.
Qed.

Lemma rmap_first_raise {A B} (f : A -> result B) (pre : list A) (a : A)
    (post : list A) (e : exn) :
  Forall (fun x => exists b, f x = Ok b) pre ->
  f a = Raise e ->
  rmap f (pre ++ a :: post) = Raise e.
Proof.
  intros Hpre Ha. induction Hpre as [|x pre [b Hx] _ IH]; simpl.
  - now rewrite Ha.
  - now rewrite Hx, IH.
Qed.

Lemma rmap_raises {A B} (f : A -> result B) (l : list A) (a : A) (e : exn) :
  In a l -> f a = Raise e -> exists e', rmap f l = Raise e'.
Proof.
  intros Hin Ha. induction l as [|x l IH]; [contradiction|]. simpl.
  destruct (f x) as [b|e0] eqn:Ex; [|now exists e0].
  destruct Hin as [->|Hin]; [congruence|].
  destruct (IH Hin) as [e' ->]. now exists e'.
Qed.

Lemma rmap_all_skipped {A B} (f : A -> result (option B)) (l : list A) :
  Forall (fun a => f a = Ok None) l ->
  exists os, rmap f l = Ok os /\ somes os = [].
Proof.
  induction 1 as [|a l Ha _ (os & Hos & Hs)]; simpl.
  - now exists [].
  - rewrite Ha, Hos. now exists (None :: os).
Qed.

(** C10: with an empty registry, or one whose entities are all skipped for
    lack of usable metadata, [get_sec_company_information] returns no table:
    [company_info] is still unbound at [company_info.reset_index], and the
    run ends in [UnboundLocalError] (Python's unbound-name error for locals). *)
Theorem no_profile_leaves_company_info_unbound (w : World)
    (sec_companies : DataFrame) (dir : string) (cik_long : list value)
    (t : trace) :
  getattr sec_companies "cik_long" = Ok cik_long ->
  rows sec_companies = [] \/
  Forall (no_usable_metadata w dir) (unique_ciks cik_long) ->
  fst (get_sec_company_information w sec_companies dir t) =
  Raise (UnboundLocalError "company_info").
Proof.
  intros Hc Hcase.
  assert (Hall : Forall (no_usable_metadata w dir) (unique_ciks cik_long)).
  { destruct Hcase as [Hempty|Hall]; [|exact Hall].
    apply getattr_cells in Hc. rewrite Hempty in Hc. subst cik_long.
    constructor. }
  rewrite (company_information_run _ _ _ _ _ Hc).
  destruct (rmap_all_skipped (entity_frame w dir (ciks_with_multiple cik_long))
              (unique_ciks cik_long)) as (os & -> & ->); [|reflexivity].
  eapply Forall_impl; [|exact Hall].
  intros c. apply no_usable_entity_frame.
Qed.

Lemma no_profile_leaves_company_info_unbound_witness :
  fst (get_sec_company_information Sample.world
         (mkDataFrame ["ticker"; "title"; "cik"; "cik_long"] []) "data" []) =
    Raise (UnboundLocalError "company_info")
  /\ fst (get_sec_company_information Sample.world
            SampleProfiles.registry_of_empties "data" []) =
       Raise (UnboundLocalError "company_info").
Proof.
  split.
  - apply (no_profile_leaves_company_info_unbound Sample.world
             (mkDataFrame ["ticker"; "title"; "cik"; "cik_long"] []) "data" []);
      [reflexivity | left; reflexivity].
  - apply (no_profile_leaves_company_info_unbound Sample.world
             SampleProfiles.registry_of_empties "data" [VStr "0000789019"]);
      [reflexivity|].
    right. constructor; [|constructor].
    eexists; eexists; eexists.
    split; [reflexivity|]. split; [reflexivity|]. split; reflexivity.
Defined.

(** ** Missing documents and skipped entities *)

(** C6: the first entity of the working set whose processing fails, if it
    fails for a missing file, ends the run in [FileNotFoundError]; whichever
    comes first, a missing file for any entity of the working set means no
    table is returned.  An entity whose document is present but yields no
    row is passed over: the pass raises nothing, leaves the accumulator
    alone and adds one to [no_info]; and a run over documents that are all
    present returns a table and reports the number of entities passed
    over. *)
Theorem missing_file_is_fatal_empty_record_is_skipped (w : World)
    (sec_companies : DataFrame) (dir : string) (cik_long : list value)
    (t : trace) :
  getattr sec_companies "cik_long" = Ok cik_long ->
  let D := ciks_with_multiple cik_long in
  (forall pre c post,
      unique_ciks cik_long = pre ++ c :: post ->
      Forall (fun c' => exists o, entity_frame w dir D c' = Ok o) pre ->
      files w (metadata_path dir c) = None ->
      fst (get_sec_company_information w sec_companies dir t) =
      Raise (FileNotFoundError (metadata_path dir c)))
  /\ (forall c,
         In c (unique_ciks cik_long) ->
         files w (metadata_path dir c) = None ->
         exists e, fst (get_sec_company_information w sec_companies dir t) = Raise e)
  /\ (forall st row,
         consistent st ->
         no_usable_metadata w dir (cell (columns sec_companies) (snd row) "cik_long") ->
         fst (profile_step w dir (columns sec_companies) D st row t) =
         Ok (mkLocals (started st) (S (no_info st)) (company_info st)))
  /\ (forall os,
         rmap (entity_frame w dir D) (unique_ciks cik_long) = Ok os ->
         somes os <> [] ->
         exists df,
           get_sec_company_information w sec_companies dir t =
           (Ok df,
            t ++ map (fun c => Open (metadata_path dir c)) (unique_ciks cik_long)
              ++ [Print (report (nones os))])).
Proof.
  intros Hc D. split; [|split; [|split]].
  - intros pre c post HU Hpre Hmiss.
    rewrite (company_information_run _ _ _ _ _ Hc). fold D. rewrite HU.
    rewrite (rmap_first_raise _ pre c post
               (FileNotFoundError (metadata_path dir c))); auto.
    unfold entity_frame. now rewrite Hmiss.
  - intros c Hin Hmiss.
    rewrite (company_information_run _ _ _ _ _ Hc). fold D.
    destruct (rmap_raises (entity_frame w dir D) (unique_ciks cik_long) c
                (FileNotFoundError (metadata_path dir c)) Hin) as [e' ->].
    + unfold entity_frame. now rewrite Hmiss.
    + now exists e'.
  - intros st row Hst Hno.
    rewrite profile_step_run by exact Hst. simpl.
    now rewrite (no_usable_entity_frame _ _ _ _ Hno).
  - intros os Hos Hne.
    pose proof (company_information_run w _ dir _ t Hc) as Hr.
    pose proof (company_information_trace w _ dir _ t os Hc Hos Hne) as Ht.
    fold D in Hr. rewrite Hos in Hr.
    destruct (somes os) as [|f fs] eqn:Es; [contradiction|].
    destruct (get_sec_company_information w sec_companies dir t) as [r t'].
    simpl in Hr, Ht. subst r t'. eexists. reflexivity.
Qed.

Lemma missing_file_is_fatal_empty_record_is_skipped_witness :
  fst (get_sec_company_information Sample.world
         SampleProfiles.registry_with_gap "data" []) =
    Raise (FileNotFoundError "data/CIK0000000001.json")
  /\ fst (profile_step Sample.world "data" (columns Sample.registry)
            (ciks_with_multiple Sample.registry_ciks)
            (mkLocals false 0 None)
            (1, [VStr "MSFT"; VStr "Microsoft Corp"; VInt 789019; VStr "0000789019"])
            []) =
       Ok (mkLocals false 1 None)
  /\ exists df,
       get_sec_company_information Sample.world Sample.registry "data" [] =
       (Ok df,
        [Open "data/CIK0000320193.json"; Open "data/CIK0000789019.json";
         Open "data/CIK0000001800.json";
         Print "Company information for 1 cik numbers could not be retrieved."]).
Proof.
  split; [|split].
  - destruct (missing_file_is_fatal_empty_record_is_skipped Sample.world
                SampleProfiles.registry_with_gap "data"
                [VStr "0000320193"; VStr "0000000001"] [] eq_refl)
      as (Hfirst & _).
    apply (Hfirst [VStr "0000320193"] (VStr "0000000001") []).
    + reflexivity.
    + constructor; [|constructor]. eexists. reflexivity.
    + reflexivity.
  - destruct (missing_file_is_fatal_empty_record_is_skipped Sample.world
                Sample.registry "data" Sample.registry_ciks [] eq_refl)
      as (_ & _ & Hskip & _).
    apply (Hskip (mkLocals false 0 None)
             (1, [VStr "MSFT"; VStr "Microsoft Corp"; VInt 789019; VStr "0000789019"])).
    + reflexivity.
    + eexists; eexists; eexists.
      split; [reflexivity|]. split; [reflexivity|]. split; reflexivity.
  - destruct (missing_file_is_fatal_empty_record_is_skipped Sample.world
                Sample.registry "data" Sample.registry_ciks [] eq_refl)
      as (_ & _ & _ & Hrun).
    let r := eval vm_compute in
      (rmap (entity_frame Sample.world "data"
               (ciks_with_multiple Sample.registry_ciks))
            (unique_ciks Sample.registry_ciks)) in
    match r with
    | Ok ?os => apply (Hrun os)
    end.
    + reflexivity.
    + discriminate.
Defined.

(** ** The registry request *)

(** C3: whatever [email] is, the one request [get_sec_companies] issues
    carries the fixed text [email] as its User-Agent, not the argument: for
    [jane.doe@example.org] the header sent is not the identity passed in. *)
Theorem registry_request_carries_a_fixed_user_agent (w : World) (email : string)
    (t : trace) :
  snd (get_sec_companies w email t) =
    t ++ [Get "https://www.sec.gov/files/company_tickers.json"
            [("User-Agent", "email")] []]
  /\ snd (get_sec_companies w "jane.doe@example.org" []) <>
       [Get "https://www.sec.gov/files/company_tickers.json"
          [("User-Agent", "jane.doe@example.org")] []].
Proof.
  assert (H : forall e t0,
             snd (get_sec_companies w e t0) =
             t0 ++ [Get "https://www.sec.gov/files/company_tickers.json"
                      [("User-Agent", "email")] []]).
  { intros e t0. unfold get_sec_companies, bind. rewrite requests_get_run.
    destruct (http w _ _ _); reflexivity. }
  split; [apply H|].
  rewrite H. simpl. intros [= Habs].
Qed.

(** ** Padding *)

Lemma zeros_length (n : nat) : String.length (zeros n) = n.
Proof. induction n; simpl; auto. Qed.

Lemma string_length_app (s t : string) :
  String.length (s ++ t) = String.length s + String.length t.
Proof. induction s; simpl; auto. Qed.

Lemma zfill_length (width : nat) (s : string) :
  String.length (zfill width s) = Nat.max width (String.length s).
Proof.
  unfold zfill. destruct (Nat.leb_spec width (String.length s)) as [H|H]; [lia|].
  destruct s as [|c rest]; simpl in *.
  - rewrite zeros_length. lia.
  - destruct (Ascii.eqb c "+" || Ascii.eqb c "-")%bool; simpl;
      rewrite string_length_app, zeros_length; simpl; lia.
Qed.

Lemma zfill_unsigned (width : nat) (s : string) :
  starts_with_sign s = false ->
  zfill width s = (zeros (width - String.length s) ++ s)%string.
Proof.
  intros Hs. unfold zfill.
  destruct (Nat.leb_spec width (String.length s)) as [H|H].
  - replace (width - String.length s) with 0 by lia. reflexivity.
  - destruct s as [|c rest]; simpl in *.
    + generalize (zeros (width - 0)). clear.
      intros z. induction z; simpl; congruence.
    + now rewrite Hs.
Qed.

Lemma str_of_Z_unsigned (z : Z) :
  (0 <= z)%Z -> starts_with_sign (str_of_Z z) = false.
Proof.
  intros Hz. unfold str_of_Z. destruct z as [|p|p]; [reflexivity| |lia].
  simpl. unfold NilZero.string_of_int.
  destruct (Pos.to_uint p); reflexivity.
Qed.

(** *** The length of a decimal numeral *)

Lemma string_of_uint_length (d : Decimal.uint) :
  String.length (NilEmpty.string_of_uint d) = Decimal.nb_digits d.
Proof. induction d; simpl; congruence. Qed.

Lemma to_lu_small (r : N) :
  (0 < r < 10)%N -> Decimal.nb_digits (DecimalPos.Unsigned.to_lu r) = 1.
Proof.
  intros H.
  assert (E : (r = 1 \/ r = 2 \/ r = 3 \/ r = 4 \/ r = 5 \/ r = 6 \/ r = 7 \/
               r = 8 \/ r = 9)%N) by lia.
  repeat destruct E as [E|E]; subst r; reflexivity.
Qed.

(** One more decimal digit in front of [q] is one more digit in the numeral. *)
Lemma to_lu_digit (q : positive) (r : N) :
  (r < 10)%N ->
  Decimal.nb_digits (DecimalPos.Unsigned.to_lu (10 * Npos q + r)) =
  S (Decimal.nb_digits (DecimalPos.Unsigned.to_lu (Npos q))).
Proof.
  intros H.
  assert (E : (r = 0 \/ r = 1 \/ r = 2 \/ r = 3 \/ r = 4 \/ r = 5 \/ r = 6 \/
               r = 7 \/ r = 8 \/ r = 9)%N) by lia.
  repeat destruct E as [E|E]; subst r;
    repeat match goal with
           | |- context [(?a + N.pos ?p)%N] =>
               let b := eval compute in (N.pred (N.pos p)) in
               replace (a + N.pos p)%N with (N.succ (a + b)) by lia
           end;
    rewrite ?N.add_0_r, ?DecimalPos.Unsigned.to_lu_succ,
      DecimalPos.Unsigned.to_ldec_tenfold;
    reflexivity.
Qed.

Lemma to_lu_digits (k : nat) :
  forall n, (0 < n < 10 ^ N.of_nat k)%N ->
            Decimal.nb_digits (DecimalPos.Unsigned.to_lu n) <= k.
Proof.
  induction k as [|k IH]; intros n Hn.
  - simpl in Hn. lia.
  - rewrite Nat2N.inj_succ, N.pow_succ_r' in Hn.
    pose proof (N.div_mod' n 10) as Hdm.
    assert (Hr : (n mod 10 < 10)%N) by (apply N.mod_lt; lia).
    remember (n / 10)%N as q eqn:Hq. remember (n mod 10)%N as r eqn:Hrem.
    clear Hq Hrem. subst n. destruct q as [|q].
    + rewrite N.mul_0_r, N.add_0_l in *.
      rewrite to_lu_small by lia. lia.
    + rewrite to_lu_digit by exact Hr.
      apply le_n_S, IH. generalize dependent (10 ^ N.of_nat k)%N.
      intros m _ Hn. lia.
Qed.

(** A non-negative integer below [10 ^ k] prints in at most [k] characters. *)
Lemma str_of_Z_length (k : nat) (z : Z) :
  (0 <= z < 10 ^ Z.of_nat k)%Z -> String.length (str_of_Z z) <= Nat.max 1 k.
Proof.
  intros Hz. unfold str_of_Z.
  destruct z as [|p|p];
    [apply Nat.le_max_l | | destruct Hz as [Hz _]; now destruct Hz].
  assert (Hp : (0 < N.pos p < 10 ^ N.of_nat k)%N).
  { split; [reflexivity|]. apply N2Z.inj_lt.
    rewrite N2Z.inj_pow, nat_N_Z. apply Hz. }
  pose proof (to_lu_digits k _ Hp) as Hd.
  change (DecimalPos.Unsigned.to_lu (N.pos p)) with (Pos.to_little_uint p) in Hd.
  rewrite <- DecimalFacts.nb_digits_rev in Hd. fold (Pos.to_uint p) in Hd.
  simpl. unfold NilZero.string_of_int, NilZero.string_of_uint.
  pose proof (DecimalPos.Unsigned.to_uint_nonnil p) as Hnil.
  assert (Hlen : String.length (NilEmpty.string_of_uint (Pos.to_uint p))
                 <= Nat.max 1 k).
  { rewrite string_of_uint_length. lia. }
  destruct (Pos.to_uint p); try contradiction; exact Hlen.
Qed.

Lemma zfill_ten_digits (z : Z) :
  (0 <= z < 10 ^ 10)%Z -> String.length (zfill 10 (str_of_Z z)) = 10.
Proof.
  intros Hz. rewrite zfill_length.
  pose proof (str_of_Z_length 10 z Hz). lia.
Qed.

(** ** The registry table *)

Lemma enumerate_map {A B} (f : A -> B) (l : list A) :
  enumerate (map f l) = map (fun p => (fst p, f (snd p))) (enumerate l).
Proof.
  unfold enumerate. rewrite length_map.
  generalize 0. induction l as [|a l IH]; intros n; simpl; [reflexivity|].
  now rewrite IH.
Qed.

Lemma enumerate_length {A} (l : list A) : List.length (enumerate l) = List.length l.
Proof.
  unfold enumerate. rewrite length_combine, length_seq. lia.
Qed.

Lemma enumerate_fst {A} (l : list A) : map fst (enumerate l) = seq 0 (List.length l).
Proof.
  unfold enumerate. generalize 0.
  induction l as [|a l IH]; intros n; simpl; [reflexivity|]. now rewrite IH.
Qed.

Lemma enumerate_snd {A} (l : list A) : map snd (enumerate l) = l.
Proof.
  unfold enumerate. generalize 0.
  induction l as [|a l IH]; intros n; simpl; [reflexivity|]. now rewrite IH.
Qed.

Lemma combine_map_self {A B} (h : A -> B) (l : list A) :
  combine l (map h l) = map (fun x => (x, h x)) l.
Proof. induction l; simpl; congruence. Qed.

Lemma rmap_ok_map {A B} (f : A -> result B) (g : A -> B) (l : list A) :
  (forall a, f a = Ok (g a)) -> rmap f l = Ok (map g l).
Proof.
  intros H. induction l as [|a l IH]; simpl; [reflexivity|].
  now rewrite H, IH.
Qed.

Lemma rmap_map {A B C} (f : B -> result C) (h : A -> B) (l : list A) :
  rmap f (map h l) = rmap (fun a => f (h a)) l.
Proof.
  induction l as [|a l IH]; simpl; [reflexivity|]. now rewrite IH.
Qed.

Lemma registry_labels (rs : list (list (string * value))) :
  Forall (fun r => map fst r = registry_keys) rs ->
  fold_left (fun acc r => union_labels acc (map fst r)) rs registry_keys =
  registry_keys.
Proof.
  induction 1 as [|r rs Hr _ IH]; simpl; [reflexivity|].
  rewrite Hr. exact IH.
Qed.

Lemma registry_records_frame (entries : list (value * value * value)) :
  entries <> [] ->
  DataFrame_of_records (map registry_record entries) =
  Ok (mkDataFrame registry_keys
        (enumerate (map (fun e => [fst (fst e); snd (fst e); snd e]) entries))).
Proof.
  intros Hne. unfold DataFrame_of_records.
  rewrite rmap_map.
  rewrite (rmap_ok_map _
             (fun e : value * value * value =>
                [("cik_str", fst (fst e)); ("ticker", snd (fst e)); ("title", snd e)]))
    by (intros [[a b] c]; reflexivity).
  cbn [rbind].
  assert (Hcols :
    fold_left (fun acc r => union_labels acc (map fst r))
      (map (fun e : value * value * value =>
              [("cik_str", fst (fst e)); ("ticker", snd (fst e)); ("title", snd e)])
           entries) [] = registry_keys).
  { destruct entries as [|e entries]; [contradiction|]. simpl.
    apply registry_labels. apply Forall_forall.
    intros r Hr. apply in_map_iff in Hr. destruct Hr as (x & <- & _). reflexivity. }
  rewrite Hcols. rewrite map_map. reflexivity.
Qed.

Lemma registry_frame (w : World) (email : string) (t : trace)
    (fields : list (string * json)) (entries : list (value * value * value)) :
  http w "https://www.sec.gov/files/company_tickers.json"
    [("User-Agent", "email")] [] = Some (JSON (JObj fields)) ->
  map snd fields = map registry_record entries ->
  entries <> [] ->
  fst (get_sec_companies w email t) =
    Ok (mkDataFrame ["ticker"; "title"; "cik"; "cik_long"]
          (enumerate (map registry_row entries))).
Proof.
  intros Hhttp Hfields Hne.
  unfold get_sec_companies, bind. rewrite requests_get_run, Hhttp.
  unfold lift, mapping_values. cbn [load rbind fst].
  rewrite Hfields, registry_records_frame by exact Hne.
  cbn [rbind].
  unfold getitem. cbn [columns rows registry_keys index_of String.eqb Ascii.eqb Bool.eqb].
  cbn [rbind]. unfold astype_str_zfill10. rewrite map_map.
  unfold setitem. cbn [columns rows registry_keys index_of String.eqb Ascii.eqb Bool.eqb].
  rewrite combine_map_self, map_map.
  unfold set_columns, loc_columns, rbind, reindex, cell.
  cbn -[zfill py_str enumerate].
  rewrite !enumerate_map, !map_map. do 2 f_equal.
  apply map_ext. intros [i [[a b] c]]. reflexivity.
Qed.

Lemma map_enumerate_snd {A B} (f : A -> B) (l : list A) :
  map (fun p => f (snd p)) (enumerate l) = map f l.
Proof.
  rewrite <- (map_map snd f). now rewrite enumerate_snd.
Qed.

(** C2, as the code has it: for a response of one or more records listing
    an integer [cik_str] (of 64 bits), a [ticker] and a [title], the table
    has one row per record, its column [cik_long] is the decimal text of
    [cik_str] padded on the left with zeros to width ten, and its column
    [cik] is the integer [cik_str] itself, neither padded nor turned into a
    string.  Padding yields at least ten characters, and exactly ten for a
    [cik_str] from 0 to 9999999999. *)
Theorem registry_columns (w : World) (email : string) (t : trace)
    (fields : list (string * json)) (entries : list (Z * value * value)) :
  http w "https://www.sec.gov/files/company_tickers.json"
    [("User-Agent", "email")] [] = Some (JSON (JObj fields)) ->
  map snd fields =
    map (fun e : Z * value * value =>
           registry_record (VInt (fst (fst e)), snd (fst e), snd e)) entries ->
  entries <> [] ->
  Forall (fun e : Z * value * value => (- 2 ^ 63 <= fst (fst e) < 2 ^ 63)%Z)
    entries ->
  exists df,
    fst (get_sec_companies w email t) = Ok df
    /\ columns df = ["ticker"; "title"; "cik"; "cik_long"]
    /\ nrows df = List.length fields
    /\ index df = seq 0 (List.length fields)
    /\ getitem df "cik" = Ok (map (fun e => VInt (fst (fst e))) entries)
    /\ getitem df "cik_long" =
         Ok (map (fun e => VStr (zfill 10 (str_of_Z (fst (fst e))))) entries)
    /\ (forall s, String.length (zfill 10 s) = Nat.max 10 (String.length s))
    /\ (forall z, (0 <= z)%Z ->
          zfill 10 (str_of_Z z) =
          (zeros (10 - String.length (str_of_Z z)) ++ str_of_Z z)%string)
    /\ (forall z, (0 <= z < 10 ^ 10)%Z ->
          String.length (zfill 10 (str_of_Z z)) = 10).
Proof.
  intros Hhttp Hfields Hne _.
  set (triples := map (fun e : Z * value * value =>
                         (VInt (fst (fst e)), snd (fst e), snd e)) entries).
  assert (Hfields' : map snd fields = map registry_record triples).
  { unfold triples. now rewrite map_map. }
  assert (Hne' : triples <> []).
  { unfold triples. destruct entries; [contradiction | discriminate]. }
  assert (Hlen : List.length fields = List.length entries).
  { rewrite <- (length_map snd fields), Hfields. apply length_map. }
  assert (Hlen' : List.length triples = List.length entries)
    by apply length_map.
  eexists. split; [now apply (registry_frame w email t fields triples)|].
  split; [reflexivity|].
  split; [unfold nrows; cbn [rows]; now rewrite enumerate_length, length_map, Hlen'|].
  split; [unfold index; cbn [rows];
          now rewrite enumerate_fst, length_map, Hlen', Hlen|].
  split; [|split; [|split; [|split]]].
  - unfold getitem. cbn -[enumerate]. f_equal.
    rewrite enumerate_map, map_map. cbn [snd].
    rewrite (map_enumerate_snd (fun e => nth 2 (registry_row e) VNaN)).
    unfold triples. rewrite map_map. apply map_ext. now intros [[a b] c].
  - unfold getitem. cbn -[enumerate zfill py_str]. f_equal.
    rewrite enumerate_map, map_map. cbn [snd].
    rewrite (map_enumerate_snd (fun e => nth 3 (registry_row e) VNaN)).
    unfold triples. rewrite map_map. apply map_ext. now intros [[a b] c].
  - intros s. apply zfill_length.
  - intros z Hz. apply zfill_unsigned. now apply str_of_Z_unsigned.
  - intros z Hz. now apply (zfill_ten_digits z).
Qed.

Lemma registry_columns_witness :
  exists df,
    fst (get_sec_companies Sample.world "jane.doe@example.org" []) = Ok df
    /\ nrows df = 1
    /\ getitem df "cik" = Ok [VInt 320193]
    /\ getitem df "cik_long" = Ok [VStr "0000320193"].
Proof.
  destruct (registry_columns Sample.world "jane.doe@example.org" []
              [("0", registry_record (VInt 320193, VStr "AAPL", VStr "Apple Inc."))]
              [(320193%Z, VStr "AAPL", VStr "Apple Inc.")]
              eq_refl eq_refl)
    as (df & Hrun & _ & Hn & _ & Hcik & Hlong & _).
  - discriminate.
  - constructor; [simpl; lia | constructor].
  - exists df. repeat split; assumption.
Defined.

(** C2 as worded fails on the specification's own example: for the record
    of Apple Inc. the column [cik] holds the integer 320193 and [cik_long]
    the padded text, the other way round from the wording. *)
Lemma registry_columns_counterexample :
  ~ registry_as_specified [(320193%Z, "AAPL", "Apple Inc.")]
      (fst (get_sec_companies Sample.world "jane.doe@example.org" [])).
Proof.
  intros (df & Hrun & Hcik & _).
  vm_compute in Hrun. injection Hrun as <-.
  vm_compute in Hcik. discriminate.
Qed.

(** ** Sorting *)

Lemma py_le_total (a b : value) : py_le a b = Ok false -> py_le b a = Ok true.
Proof.
  destruct a as [| |[|]|x|r|s], b as [| |[|]|y|r'|s']; simpl;
    try discriminate; try reflexivity;
    try (intros [= H]; f_equal; lia).
  intros [= H]. f_equal.
  destruct (String.leb_total s s') as [H'|H']; congruence.
Qed.

Section SortingFacts.
Context {A : Type} (key : A -> value).

Let R (a b : A) : Prop := key_le (key a) (key b).

Lemma insert_by_perm (a : A) (l : list A) :
  forall l', insert_by key a l = Ok l' -> Permutation (a :: l) l'.
Proof.
  induction l as [|x l IH]; simpl; intros l' H.
  - injection H as <-. apply Permutation_refl.
  - destruct (py_le (key a) (key x)) as [[|]|e]; try discriminate.
    + injection H as <-. apply Permutation_refl.
    + destruct (insert_by key a l) as [l''|e]; [|discriminate].
      injection H as <-.
      eapply perm_trans; [apply perm_swap|]. apply perm_skip. now apply IH.
Qed.

Lemma insert_by_hd (x a : A) (l : list A) :
  forall l', insert_by key a l = Ok l' -> R x a -> HdRel R x l -> HdRel R x l'.
Proof.
  destruct l as [|y l]; simpl; intros l' H Hxa Hx.
  - injection H as <-. now constructor.
  - destruct (py_le (key a) (key y)) as [[|]|e]; try discriminate.
    + injection H as <-. now constructor.
    + destruct (insert_by key a l) as [l''|e]; [|discriminate].
      injection H as <-. inversion Hx; subst. now constructor.
Qed.

Lemma insert_by_sorted (a : A) (l : list A) :
  forall l', insert_by key a l = Ok l' -> Sorted R l -> Sorted R l'.
Proof.
  induction l as [|x l IH]; simpl; intros l' H Hs.
  - injection H as <-. repeat constructor.
  - destruct (py_le (key a) (key x)) as [[|]|e] eqn:E; try discriminate.
    + injection H as <-. constructor; [exact Hs|]. now constructor.
    + destruct (insert_by key a l) as [l''|e] eqn:El; [|discriminate].
      injection H as <-. inversion Hs; subst.
      constructor; [now apply IH|].
      eapply insert_by_hd; eauto. now apply py_le_total.
Qed.

Lemma sort_by_spec (l : list A) :
  forall s, sort_by key l = Ok s -> Permutation l s /\ Sorted R s.
Proof.
  induction l as [|a l IH]; simpl; intros s H.
  - injection H as <-. split; constructor.
  - destruct (sort_by key l) as [s'|e]; [|discriminate].
    destruct (IH s' eq_refl) as [Hp Hs]. split.
    + eapply perm_trans; [apply perm_skip, Hp|]. now apply insert_by_perm.
    + eapply insert_by_sorted; eauto.
Qed.

Lemma insert_by_strings (a : A) (l : list A) :
  (exists s, key a = VStr s) ->
  Forall (fun x => exists s, key x = VStr s) l ->
  exists l', insert_by key a l = Ok l'.
Proof.
  intros [s Ha] Hl. induction Hl as [|x l [sx Hx] _ [l' IH]]; simpl.
  - eauto.
  - rewrite Ha, Hx. simpl. destruct (s <=? sx)%string; [eauto|].
    rewrite IH. eauto.
Qed.

Lemma sort_by_strings (l : list A) :
  Forall (fun x => exists s, key x = VStr s) l ->
  exists s, sort_by key l = Ok s.
Proof.
  induction 1 as [|a l Ha Hl [s IH]]; simpl; [eauto|].
  rewrite IH. apply insert_by_strings; [exact Ha|].
  destruct (sort_by_spec l s IH) as [Hp _].
  eapply Permutation_Forall; eauto.
Qed.
End SortingFacts.

(** ** Cells, alignment, and the pandas operations *)

Lemma index_of_mem (c : string) (cols : list string) :
  mem c cols = true <-> exists j, index_of c cols = Some j.
Proof.
  unfold mem. induction cols as [|c' cols IH]; simpl.
  - split; [discriminate | intros [j H]; discriminate].
  - rewrite (String.eqb_sym c c'). destruct (c' =? c)%string; simpl.
    + split; eauto.
    + rewrite IH. split; intros [j H].
      * rewrite H. eauto.
      * destruct (index_of c cols); [eauto | discriminate].
Qed.

Lemma index_of_none (c : string) (cols : list string) :
  mem c cols = false <-> index_of c cols = None.
Proof.
  pose proof (index_of_mem c cols) as H.
  destruct (mem c cols), (index_of c cols) as [j|]; split; intros; try reflexivity;
    try discriminate.
  - destruct (proj1 H eq_refl); discriminate.
  - assert (true = false -> False) by discriminate.
    destruct H as [_ H]. specialize (H (ex_intro _ j eq_refl)). discriminate.
Qed.

Lemma index_of_nth {B} (g : string -> B) (d : B) (c : string) (cols : list string) :
  forall j, index_of c cols = Some j -> nth j (map g cols) d = g c.
Proof.
  induction cols as [|c' cols IH]; simpl; intros j H; [discriminate|].
  destruct (String.eqb_spec c' c) as [->|Hne].
  - now injection H as <-.
  - destruct (index_of c cols) as [j'|]; [|discriminate].
    injection H as <-. now apply IH.
Qed.

(** Reading an aligned row under a label of the new layout gives what the
    old row had under that label. *)
Lemma cell_map (g : string -> value) (c : string) (cols : list string) :
  mem c cols = true -> cell cols (map g cols) c = g c.
Proof.
  intros H. apply index_of_mem in H. destruct H as [j H].
  unfold cell. rewrite H. now apply index_of_nth.
Qed.

Lemma cell_absent (cols : list string) (row : list value) (c : string) :
  mem c cols = false -> cell cols row c = VNaN.
Proof.
  intros H. apply index_of_none in H. unfold cell. now rewrite H.
Qed.

Lemma cell_reindex (old new : list string) (row : list value) (c : string) :
  (forall x, mem x old = true -> mem x new = true) ->
  cell new (reindex old new row) c = cell old row c.
Proof.
  intros Hincl. unfold reindex.
  destruct (mem c new) eqn:Hc.
  - now apply cell_map.
  - rewrite cell_absent by exact Hc.
    destruct (mem c old) eqn:Ho.
    + apply Hincl in Ho. congruence.
    + now rewrite cell_absent.
Qed.

Lemma filter_partition_perm {A} (p : A -> bool) (l : list A) :
  Permutation l (filter (fun a => negb (p a)) l ++ filter p l).
Proof.
  induction l as [|a l IH]; simpl; [constructor|].
  destruct (p a); simpl.
  - now apply Permutation_cons_app.
  - now constructor.
Qed.

Lemma Sorted_app_top {A} (R : A -> A -> Prop) (l1 l2 : list A) :
  Sorted R l1 -> Sorted R l2 -> Forall (fun b => forall a, R a b) l2 ->
  Sorted R (l1 ++ l2).
Proof.
  intros H1 H2 Htop. induction H1 as [|a l1 Hs IH Hhd]; simpl; [exact H2|].
  constructor; [exact IH|].
  destruct l1 as [|x l1]; simpl.
  - destruct Htop; constructor; auto.
  - inversion Hhd; subst. now constructor.
Qed.

Lemma Sorted_all {A} (R : A -> A -> Prop) (l : list A) :
  Forall (fun b => forall a, R a b) l -> Sorted R l.
Proof.
  induction 1 as [|b l Hb Hl IH]; constructor; [exact IH|].
  destruct Hl; constructor; auto.
Qed.

Lemma Sorted_weaken {A} (R R' : A -> A -> Prop) (l : list A) :
  (forall a b, R a b -> R' a b) -> Sorted R l -> Sorted R' l.
Proof.
  intros HR. induction 1 as [|a l Hs IH Hhd]; constructor; [exact IH|].
  destruct Hhd; constructor; auto.
Qed.

(** [sort_values] keeps the columns, permutes the rows, and leaves them in
    ascending order of the key, rows without a key last. *)
Lemma sort_values_spec (c : string) (df df' : DataFrame) :
  sort_values c df = Ok df' ->
  mem c (columns df) = true
  /\ columns df' = columns df
  /\ Permutation (rows df) (rows df')
  /\ Sorted (fun r1 r2 =>
               na_last_le (cell (columns df) (snd r1) c) (cell (columns df) (snd r2) c))
       (rows df').
Proof.
  unfold sort_values, cell.
  destruct (index_of c (columns df)) as [j|] eqn:Hj; [|discriminate].
  set (key := fun r : nat * list value => nth j (snd r) VNaN).
  destruct (sort_by key _) as [present|e] eqn:Hs; [|discriminate].
  intros [= <-]. cbn [columns rows].
  destruct (sort_by_spec key _ _ Hs) as [Hp Hsorted].
  split; [apply index_of_mem; eauto|]. split; [reflexivity|]. split.
  - eapply perm_trans; [apply (filter_partition_perm (fun r => isna (key r)))|].
    now apply Permutation_app_tail.
  - apply Sorted_app_top.
    + eapply Sorted_weaken; [|exact Hsorted]. intros a b H. now right.
    + apply Sorted_all. apply Forall_forall. intros b Hb a.
      apply filter_In in Hb. left. apply Hb.
    + apply Forall_forall. intros b Hb a.
      apply filter_In in Hb. left. apply Hb.
Qed.

(** With a textual key in every row, [sort_values] returns. *)
Lemma sort_values_strings (c : string) (df : DataFrame) :
  mem c (columns df) = true ->
  Forall (fun r => exists s, cell (columns df) (snd r) c = VStr s) (rows df) ->
  exists df', sort_values c df = Ok df'.
Proof.
  intros Hc Hrows. unfold sort_values, cell in *.
  apply index_of_mem in Hc. destruct Hc as [j Hj]. rewrite Hj in *. cbv zeta.
  set (key := fun r : nat * list value => nth j (snd r) VNaN).
  destruct (sort_by_strings key (filter (fun r => negb (isna (key r))) (rows df)))
    as [s Hs].
  - apply Forall_forall. intros r Hr. apply filter_In in Hr.
    rewrite Forall_forall in Hrows. now apply Hrows.
  - subst key. cbv beta in Hs |- *. rewrite Hs. eauto.
Qed.

(** ** The price table *)

Lemma rmap_length {A B} (f : A -> result B) (l : list A) (bs : list B) :
  rmap f l = Ok bs -> List.length bs = List.length l.
Proof.
  intros H. apply rmap_Forall2 in H. symmetry. eapply Forall2_length; eauto.
Qed.

Lemma prices_run (w : World) (apikey ticker : string)
    (start_date end_date : option string) (t : trace) :
  (truthy end_date && negb (truthy start_date))%bool = false ->
  get_fmp_stock_data w apikey ticker start_date end_date t =
  (match http w (price_url ticker) [] (price_parameters apikey start_date end_date) with
   | None => Raise ConnectionError
   | Some r =>
       (j <~ load r ;;
        historical <~ py_getitem j "historical" ;;
        ts <~ pd_DataFrame historical ;;
        ts <~ sort_values "date" ts ;;
        loc_columns (reset_index ts) price_columns)%result
   end,
   t ++ [Get (price_url ticker) [] (price_parameters apikey start_date end_date)]).
Proof.
  intros Hargs. unfold get_fmp_stock_data. rewrite Hargs.
  assert (Hp : (if truthy end_date
                then (if truthy start_date
                      then [("apikey", apikey)] ++ [("from", text start_date)]
                      else [("apikey", apikey)]) ++ [("to", text end_date)]
                else (if truthy start_date
                      then [("apikey", apikey)] ++ [("from", text start_date)]
                      else [("apikey", apikey)])) =
               price_parameters apikey start_date end_date).
  { unfold price_parameters. destruct (truthy start_date), (truthy end_date); reflexivity. }
  rewrite Hp. fold (price_url ticker). unfold bind. rewrite requests_get_run.
  destruct (http w _ _ _); reflexivity.
Qed.

Lemma prices_refused (w : World) (apikey ticker : string)
    (start_date end_date : option string) (t : trace) :
  (truthy end_date && negb (truthy start_date))%bool = true ->
  fst (get_fmp_stock_data w apikey ticker start_date end_date t) = Raise ValueError.
Proof.
  intros H. unfold get_fmp_stock_data. now rewrite H.
Qed.

Section Records.
Variable recs : list (list (string * value)).

Let cols : list string :=
  fold_left (fun acc r => union_labels acc (map fst r)) recs [].

Let frame : DataFrame :=
  mkDataFrame cols (enumerate (map (fun r => map (record_cell r) cols) recs)).

(** After sorting by [c], resetting the index and selecting [names], the
    rows are those of a reordering of the records, in ascending order of
    their [c] with the records lacking it last. *)
Lemma sorted_selection (c : string) (names : list string) (ts df : DataFrame) :
  sort_values c frame = Ok ts ->
  loc_columns (reset_index ts) names = Ok df ->
  columns df = names
  /\ index df = seq 0 (List.length recs)
  /\ exists sorted,
       Permutation recs sorted
       /\ Sorted (fun r1 r2 => na_last_le (record_cell r1 c) (record_cell r2 c)) sorted
       /\ map snd (rows df) = map (fun r => map (record_cell r) names) sorted.
Proof.
  intros Hsort Hloc.
  destruct (sort_values_spec _ _ _ Hsort) as (Hc & Hcols & Hperm & Hsorted).
  cbn [columns rows frame] in Hc, Hcols, Hperm, Hsorted.
  unfold loc_columns in Hloc.
  destruct (find _ names) as [x|] eqn:Hfind; [discriminate|].
  injection Hloc as <-. cbn [columns rows reset_index].
  rewrite Hcols.
  assert (Hnames : forall x, In x names -> mem x cols = true).
  { intros x Hx. pose proof (find_none _ _ Hfind x Hx) as H.
    cbn [columns reset_index] in H. rewrite Hcols in H.
    now destruct (mem x cols). }
  rewrite enumerate_map in Hperm.
  apply Permutation_sym in Hperm.
  destruct (Permutation_map_inv _ _ Hperm) as (l3 & Hrows & Hl3).
  split; [reflexivity|]. split.
  - unfold index. cbn [rows]. rewrite map_map. cbn [fst].
    rewrite enumerate_fst, length_map.
    rewrite Hrows, length_map, <- (Permutation_length Hl3), enumerate_length.
    reflexivity.
  - exists (map snd l3). split; [|split].
    + rewrite <- (enumerate_snd recs) at 1. now apply Permutation_map.
    + rewrite Hrows in Hsorted. clear - Hsorted Hc.
      induction l3 as [|a l3 IH]; [constructor|].
      simpl in *. inversion Hsorted as [|? ? Hs Hhd]; subst.
      constructor; [now apply IH|].
      destruct l3 as [|b l3]; simpl in *; constructor.
      inversion Hhd as [|? ? Hab]; subst. cbn [snd] in Hab.
      now rewrite !cell_map in Hab by exact Hc.
    + rewrite map_map. cbn [snd]. rewrite map_enumerate_snd.
      rewrite Hrows, !map_map. cbn [snd].
      apply map_ext. intros [i r]. cbn [snd].
      unfold reindex. apply map_ext_in. intros x Hx.
      apply cell_map. now apply Hnames.
Qed.
End Records.

Lemma mem_app (x : string) (l1 l2 : list string) :
  mem x (l1 ++ l2) = (mem x l1 || mem x l2)%bool.
Proof. unfold mem. apply existsb_app. Qed.

Lemma mem_union_labels (x : string) (extra : list string) :
  forall seen, mem x (union_labels seen extra) = (mem x seen || mem x extra)%bool.
Proof.
  induction extra as [|c extra IH]; intros seen; simpl.
  - now rewrite orb_false_r.
  - destruct (mem c seen) eqn:Hc; rewrite IH.
    + destruct (String.eqb_spec x c) as [->|Hne]; simpl.
      * rewrite Hc. reflexivity.
      * reflexivity.
    + rewrite mem_app. simpl. rewrite orb_false_r, <- orb_assoc. reflexivity.
Qed.

Lemma mem_In (x : string) (l : list string) : mem x l = true <-> In x l.
Proof.
  unfold mem. rewrite existsb_exists. split.
  - intros (y & Hy & E). apply String.eqb_eq in E. now subst.
  - intros H. exists x. split; [exact H | apply String.eqb_refl].
Qed.

Lemma mem_fold_labels (x : string) (rs : list (list (string * value))) :
  forall seen,
    mem x (fold_left (fun acc r => union_labels acc (map fst r)) rs seen) =
    (mem x seen || existsb (fun r => mem x (map fst r)) rs)%bool.
Proof.
  induction rs as [|r rs IH]; intros seen; simpl.
  - now rewrite orb_false_r.
  - rewrite IH, mem_union_labels, orb_assoc. reflexivity.
Qed.

Lemma assoc_mem {A} (k : string) (r : list (string * A)) :
  assoc k r <> None -> mem k (map fst r) = true.
Proof.
  induction r as [|[k' a] r IH]; simpl; [congruence|].
  rewrite (String.eqb_sym k k'). destruct (k' =? k)%string; simpl; auto.
Qed.

(** C9: when the response holds a [historical] array of flat records, any
    table [get_fmp_stock_data] returns has exactly the columns open, high,
    low, close, adjClose, volume (so no [date]), the index 0, 1, 2, ..., and
    as rows the six cells of the records taken in ascending order of their
    [date] (records without one last).  A table is returned whenever the
    array is not empty and each record has a textual date and the six
    fields. *)
Theorem prices_table (w : World) (apikey ticker : string)
    (start_date end_date : option string) (t : trace)
    (j : json) (items : list json) (recs : list (list (string * value))) :
  http w (price_url ticker) [] (price_parameters apikey start_date end_date) =
    Some (JSON j) ->
  py_getitem j "historical" = Ok (JArr items) ->
  rmap as_record items = Ok recs ->
  (forall df,
      fst (get_fmp_stock_data w apikey ticker start_date end_date t) = Ok df ->
      columns df = price_columns
      /\ index df = seq 0 (List.length items)
      /\ exists sorted,
           Permutation recs sorted
           /\ Sorted (fun r1 r2 => na_last_le (date_of r1) (date_of r2)) sorted
           /\ map snd (rows df) = map price_row sorted)
  /\ ((truthy end_date && negb (truthy start_date))%bool = false ->
      items <> [] ->
      Forall complete_price_record recs ->
      exists df, fst (get_fmp_stock_data w apikey ticker start_date end_date t) = Ok df).
Proof.
  intros Hhttp Hhist Hrecs.
  assert (Hrun : (truthy end_date && negb (truthy start_date))%bool = false ->
                 fst (get_fmp_stock_data w apikey ticker start_date end_date t) =
                 (ts <~ sort_values "date"
                          (mkDataFrame
                             (fold_left (fun acc r => union_labels acc (map fst r)) recs [])
                             (enumerate
                                (map (fun r =>
                                        map (record_cell r)
                                          (fold_left
                                             (fun acc r => union_labels acc (map fst r))
                                             recs []))
                                     recs))) ;;
                  loc_columns (reset_index ts) price_columns)%result).
  { intros Hargs. rewrite prices_run by exact Hargs. rewrite Hhttp.
    cbn [fst load rbind]. rewrite Hhist. cbn [rbind pd_DataFrame].
    unfold DataFrame_of_records. rewrite Hrecs. reflexivity. }
  split.
  - intros df Hdf.
    destruct (truthy end_date && negb (truthy start_date))%bool eqn:Hargs.
    { rewrite prices_refused in Hdf by exact Hargs. discriminate. }
    rewrite (Hrun eq_refl) in Hdf.
    destruct (sort_values "date" _) as [ts|e] eqn:Hsort; [|discriminate].
    cbn [rbind] in Hdf.
    destruct (sorted_selection recs "date" price_columns ts df Hsort Hdf)
      as (Hcols & Hidx & sorted & Hp & Hs & Hrows).
    rewrite (rmap_length _ _ _ Hrecs) in Hidx. eauto 10.
  - intros Hargs Hne Hcomplete. rewrite (Hrun Hargs).
    set (cols := fold_left (fun acc r => union_labels acc (map fst r)) recs []).
    assert (Hmem : forall c, (c = "date" \/ In c price_columns) -> mem c cols = true).
    { intros c Hc. unfold cols. rewrite mem_fold_labels. simpl.
      destruct recs as [|r recs'].
      - destruct items; [contradiction | discriminate Hrecs ||
          (simpl in Hrecs; destruct (as_record j0); [destruct (rmap as_record items)|];
           discriminate)].
      - simpl. inversion Hcomplete as [|? ? [[d Hd] Hsix] _]; subst.
        replace (mem c (map fst r)) with true; [reflexivity|].
        symmetry. apply assoc_mem. destruct Hc as [->|Hc].
        + congruence.
        + rewrite Forall_forall in Hsix. now apply Hsix. }
    destruct (sort_values_strings "date"
                (mkDataFrame cols
                   (enumerate (map (fun r => map (record_cell r) cols) recs))))
      as [ts Hts].
    + apply Hmem. now left.
    + cbn [columns rows]. rewrite enumerate_map. apply Forall_forall.
      intros r Hr. apply in_map_iff in Hr. destruct Hr as ([i r0] & <- & Hin).
      cbn [snd fst]. rewrite cell_map by (apply Hmem; now left).
      assert (Hr0 : In r0 recs).
      { rewrite <- (enumerate_snd recs). apply in_map_iff. now exists (i, r0). }
      rewrite Forall_forall in Hcomplete.
      destruct (Hcomplete r0 Hr0) as [[d Hd] _].
      exists d. unfold record_cell. now rewrite Hd.
    + rewrite Hts. cbn [rbind]. unfold loc_columns.
      destruct (sort_values_spec _ _ _ Hts) as (_ & Hcols & _).
      cbn [columns reset_index] in *. rewrite Hcols.
      destruct (find _ price_columns) as [x|] eqn:Hfind; [|eauto].
      apply find_some in Hfind. destruct Hfind as [Hin Hx].
      rewrite Hmem in Hx by (now right). discriminate.
Qed.

Lemma prices_table_witness :
  exists df,
    fst (get_fmp_stock_data Sample.world "key" "ABC" (Some "2020-01-01") None []) = Ok df
    /\ columns df = price_columns
    /\ index df = [0; 1].
Proof.
  let r := eval vm_compute in (rmap as_record Sample.price_items) in
  match r with
  | Ok ?recs =>
      destruct (prices_table Sample.world "key" "ABC" (Some "2020-01-01") None []
                  Sample.prices Sample.price_items recs eq_refl eq_refl eq_refl)
        as [Hshape Hreturns]
  end.
  destruct Hreturns as [df Hdf].
  - reflexivity.
  - discriminate.
  - repeat constructor; try (eexists; reflexivity); discriminate.
  - exists df. destruct (Hshape df Hdf) as (Hc & Hi & _). auto.
Defined.

(** ** Pages of filings *)

Lemma rmap_as_scalar (vs : list value) : rmap as_scalar (map JVal vs) = Ok vs.
Proof.
  induction vs as [|v vs IH]; simpl; [reflexivity|]. now rewrite IH.
Qed.

Lemma page_columns (p : page) :
  rmap (fun kv : string * json => as_column (snd kv))
    (map (fun kv : string * list value => (fst kv, JArr (map JVal (snd kv)))) p) =
  Ok (map (fun kv => Column (snd kv)) p).
Proof.
  induction p as [|[k vs] p IH]; simpl; [reflexivity|].
  rewrite rmap_as_scalar. simpl. now rewrite IH.
Qed.

Lemma page_array_lengths (p : page) :
  array_lengths (map (fun kv : string * list value => Column (snd kv)) p) =
  map (fun kv => List.length (snd kv)) p.
Proof.
  induction p as [|[k vs] p IH]; simpl; [reflexivity|]. now rewrite IH.
Qed.

(** [pd.DataFrame] of a page whose arrays all have [n] entries. *)
Lemma pd_DataFrame_page (n : nat) (p : page) :
  p <> [] ->
  Forall (fun kv => List.length (snd kv) = n) p ->
  pd_DataFrame (page_json p) = Ok (page_frame n p).
Proof.
  intros Hne Hlen. unfold page_json, pd_DataFrame, DataFrame_of_dict.
  rewrite page_columns. cbn [rbind]. rewrite page_array_lengths.
  destruct p as [|[k vs] p]; [contradiction|].
  inversion Hlen as [|? ? Hvs Hp]; subst. cbn [map snd fst].
  replace (forallb (Nat.eqb (List.length vs))
             (map (fun kv : string * list value => List.length (snd kv)) p))
    with true.
  - unfold page_frame. f_equal. f_equal.
    + cbn [map fst]. f_equal. now rewrite map_map.
    + apply map_ext. intros i. f_equal. cbn [map snd column_cell].
      f_equal. now rewrite map_map.
  - symmetry. apply forallb_forall. intros x Hx.
    apply in_map_iff in Hx. destruct Hx as (kv & <- & Hkv).
    rewrite Forall_forall in Hp. rewrite (Hp kv Hkv). apply Nat.eqb_refl.
Qed.

Lemma cell_assoc {B} (h : B -> value) (c : string) (p : list (string * B)) :
  cell (map fst p) (map (fun kv => h (snd kv)) p) c =
  match assoc c p with
  | Some b => h b
  | None => VNaN
  end.
Proof.
  unfold cell. induction p as [|[k b] p IH]; simpl; [reflexivity|].
  destruct (k =? c)%string; [reflexivity|].
  destruct (index_of c (map fst p)) as [j|]; exact IH.
Qed.

Lemma assoc_mem_keys {B} (c : string) (p : list (string * B)) (b : B) :
  assoc c p = Some b -> mem c (map fst p) = true.
Proof.
  intros H. apply assoc_mem. congruence.
Qed.

Lemma map_nth_seq {B} (l : list B) (d : B) :
  map (fun i => nth i l d) (seq 0 (List.length l)) = l.
Proof.
  induction l as [|b l IH]; simpl; [reflexivity|].
  f_equal. rewrite <- seq_shift, map_map. exact IH.
Qed.

Lemma page_frame_cells (n : nat) (p : page) (c : string) (vs : list value) :
  assoc c p = Some vs ->
  List.length vs = n ->
  column_cells c (page_frame n p) = vs.
Proof.
  intros Hc Hn. unfold column_cells, page_frame. cbn [columns rows].
  rewrite map_map. cbn [snd].
  rewrite (map_ext _ (fun i => nth i vs VNaN)).
  - subst n. apply map_nth_seq.
  - intros i. rewrite (cell_assoc (fun l => nth i l VNaN)). now rewrite Hc.
Qed.

Lemma page_frame_nrows (n : nat) (p : page) : nrows (page_frame n p) = n.
Proof.
  unfold nrows, page_frame. cbn [rows]. now rewrite length_map, length_seq.
Qed.

Lemma assoc_In {B} (c : string) (p : list (string * B)) (b : B) :
  assoc c p = Some b -> In (c, b) p.
Proof.
  induction p as [|[k x] p IH]; simpl; [discriminate|].
  destruct (String.eqb_spec k c) as [->|Hne].
  - intros [= ->]. now left.
  - intros H. right. now apply IH.
Qed.

(** What a filing page contributes: its rows, and its timestamps in the
    [acceptanceDateTime] column. *)
Lemma filing_page_frame (n : nat) (p : page) :
  filing_page n p ->
  pd_DataFrame (page_json p) = Ok (page_frame n p)
  /\ nrows (page_frame n p) = n
  /\ mem "acceptanceDateTime" (columns (page_frame n p)) = true
  /\ column_cells "acceptanceDateTime" (page_frame n p) = timestamps p.
Proof.
  intros [Hlen [ts Hts]].
  assert (Hn : List.length (map VStr ts) = n).
  { apply assoc_In in Hts. rewrite Forall_forall in Hlen.
    exact (Hlen _ Hts). }
  split; [|split; [|split]].
  - apply pd_DataFrame_page; [|exact Hlen]. intros ->. discriminate.
  - apply page_frame_nrows.
  - cbn [columns page_frame]. eapply assoc_mem_keys; eauto.
  - unfold timestamps. rewrite Hts. now apply page_frame_cells.
Qed.

(** ** Concatenation *)

Lemma mem_union_l (x : string) (a b : list string) :
  mem x a = true -> mem x (union_labels a b) = true.
Proof. intros H. now rewrite mem_union_labels, H. Qed.

Lemma mem_union_r (x : string) (a b : list string) :
  mem x b = true -> mem x (union_labels a b) = true.
Proof. intros H. rewrite mem_union_labels, H. apply orb_true_r. Qed.

Lemma concat_cells (c : string) (a b : DataFrame) :
  column_cells c (concat a b) = column_cells c a ++ column_cells c b.
Proof.
  unfold column_cells, concat. cbn [columns rows].
  rewrite map_app, !map_map. cbn [snd]. f_equal; apply map_ext; intros r.
  - apply cell_reindex. intros x. apply mem_union_l.
  - apply cell_reindex. intros x. apply mem_union_r.
Qed.

Lemma concat_nrows (a b : DataFrame) : nrows (concat a b) = nrows a + nrows b.
Proof.
  unfold nrows, concat. cbn [rows]. now rewrite length_app, !length_map.
Qed.

Lemma concat_mem_l (c : string) (a b : DataFrame) :
  mem c (columns a) = true -> mem c (columns (concat a b)) = true.
Proof. apply mem_union_l. Qed.

(** ** The shard loops *)

Lemma local_shards_run (w : World) (dir : string) (descs : list json)
    (shards : list shard) :
  Forall2 (shard_at (fun name => files w (path_join dir name))) descs shards ->
  forall filings t,
    fst (for_each (local_shard w dir) descs filings t) =
    Ok (fold_left concat (map shard_frame shards) filings).
Proof.
  induction 1 as [|d s descs shards (Hname & Hfile & Hpage) _ IH];
    intros filings t; simpl; [reflexivity|].
  unfold bind at 1. unfold local_shard at 1. unfold bind, lift.
  rewrite Hname. cbn [join_name]. rewrite open_json_run, Hfile. cbn [load].
  destruct (filing_page_frame _ _ Hpage) as (-> & _). unfold ret.
  apply IH.
Qed.

Lemma live_shards_run (w : World) (headers : list (string * string))
    (descs : list json) (shards : list shard) :
  Forall2 (shard_at (fun name =>
                       http w ("https://data.sec.gov/submissions/" ++ name)%string
                         headers []))
    descs shards ->
  forall filings t,
    fst (for_each (live_shard w headers) descs filings t) =
    Ok (fold_left concat (map shard_frame shards) filings).
Proof.
  induction 1 as [|d s descs shards (Hname & Hget & Hpage) _ IH];
    intros filings t; simpl; [reflexivity|].
  unfold bind at 1. unfold live_shard at 1. unfold bind, lift.
  rewrite Hname. cbn [str_concat]. rewrite requests_get_run, Hget. cbn [load].
  destruct (filing_page_frame _ _ Hpage) as (-> & _). unfold emit, ret.
  apply IH.
Qed.

Lemma assembled_frame (shards : list shard) :
  Forall (fun s : shard => filing_page (snd (fst s)) (snd s)) shards ->
  forall (acc : DataFrame),
    mem "acceptanceDateTime" (columns acc) = true ->
    let df := fold_left concat (map shard_frame shards) acc in
    mem "acceptanceDateTime" (columns df) = true
    /\ nrows df = nrows acc + list_sum (map (fun s : shard => snd (fst s)) shards)
    /\ column_cells "acceptanceDateTime" df =
       column_cells "acceptanceDateTime" acc
         ++ flat_map (fun s : shard => timestamps (snd s)) shards.
Proof.
  induction 1 as [|s shards Hs _ IH]; intros acc Hacc; simpl.
  - rewrite app_nil_r. auto.
  - destruct (filing_page_frame _ _ Hs) as (_ & Hn & _ & Hcells).
    destruct (IH (concat acc (shard_frame s))) as (Hm & Hrows & Hc).
    { now apply concat_mem_l. }
    split; [exact Hm|]. split.
    + rewrite Hrows, concat_nrows. unfold shard_frame at 1. rewrite Hn. lia.
    + rewrite Hc, concat_cells. unfold shard_frame at 1. rewrite Hcells.
      now rewrite <- app_assoc.
Qed.

Lemma shard_at_pages (fetch : string -> option content) (descs : list json)
    (shards : list shard) :
  Forall2 (shard_at fetch) descs shards ->
  Forall (fun s : shard => filing_page (snd (fst s)) (snd s)) shards.
Proof.
  induction 1 as [|d s descs shards (_ & _ & Hp) _ IH]; constructor; auto.
Qed.

(** ** Sorting by timestamp *)

Lemma getitem_cells (c : string) (df : DataFrame) :
  mem c (columns df) = true -> getitem df c = Ok (column_cells c df).
Proof.
  intros H. apply index_of_mem in H. destruct H as [j Hj].
  unfold getitem, column_cells, cell. now rewrite Hj.
Qed.

Lemma reset_index_cells (c : string) (df : DataFrame) :
  column_cells c (reset_index df) = column_cells c df.
Proof.
  unfold column_cells, reset_index. cbn [columns rows].
  rewrite (map_enumerate_snd (fun row => cell (columns df) row c)).
  now rewrite map_map.
Qed.

Lemma reset_index_index (df : DataFrame) :
  index (reset_index df) = seq 0 (nrows df).
Proof.
  unfold index, reset_index, nrows. cbn [rows].
  now rewrite enumerate_fst, length_map.
Qed.

Lemma reset_index_nrows (df : DataFrame) : nrows (reset_index df) = nrows df.
Proof.
  unfold reset_index, nrows. cbn [rows]. now rewrite enumerate_length, length_map.
Qed.

Lemma sorted_texts (l : list value) :
  forall ts, l = map VStr ts -> Sorted na_last_le l -> Sorted str_le ts.
Proof.
  induction l as [|v l IH]; intros [|s ts] E Hs; try discriminate; [constructor|].
  injection E as -> ->. inversion Hs as [|? ? Hs' Hhd]; subst.
  constructor; [now apply IH|].
  destruct ts as [|s' ts]; simpl in *; constructor.
  inversion Hhd as [|? ? Hab]; subst.
  destruct Hab as [Hab|Hab]; [discriminate|].
  unfold key_le in Hab. simpl in Hab. unfold str_le. congruence.
Qed.

Lemma Sorted_map {A B} (R : B -> B -> Prop) (f : A -> B) (l : list A) :
  Sorted (fun a b => R (f a) (f b)) l -> Sorted R (map f l).
Proof.
  induction 1 as [|a l Hs IH Hhd]; simpl; constructor; [exact IH|].
  destruct Hhd; simpl; constructor; auto.
Qed.

(** Sorting a table whose key column is text throughout, then renumbering. *)
Lemma sort_and_reset (c : string) (df : DataFrame) (texts : list string) :
  mem c (columns df) = true ->
  column_cells c df = map VStr texts ->
  exists sorted ts,
    sort_values c df = Ok sorted
    /\ nrows (reset_index sorted) = nrows df
    /\ index (reset_index sorted) = seq 0 (nrows df)
    /\ getitem (reset_index sorted) c = Ok (map VStr ts)
    /\ Sorted str_le ts
    /\ Permutation texts ts.
Proof.
  intros Hc Hcells.
  destruct (sort_values_strings c df Hc) as [sorted Hsort].
  { unfold column_cells in Hcells. clear - Hcells.
    revert texts Hcells. induction (rows df) as [|r l IH]; intros texts H;
      [constructor|].
    destruct texts as [|s texts]; [discriminate|]. simpl in H.
    injection H as Hr Hl. constructor; eauto. }
  destruct (sort_values_spec _ _ _ Hsort) as (_ & Hcols & Hperm & Hsorted).
  assert (Hp : Permutation (map VStr texts) (column_cells c sorted)).
  { rewrite <- Hcells. unfold column_cells. rewrite Hcols.
    now apply Permutation_map. }
  apply Permutation_sym in Hp.
  destruct (Permutation_map_inv _ _ Hp) as (ts & Hts & Hpts).
  assert (Hn : nrows sorted = nrows df).
  { unfold nrows. symmetry. now apply Permutation_length. }
  exists sorted, ts. split; [exact Hsort|].
  split; [now rewrite reset_index_nrows|].
  split; [now rewrite reset_index_index, Hn|].
  split; [|split].
  - rewrite getitem_cells by (cbn [columns reset_index]; now rewrite Hcols).
    now rewrite reset_index_cells, Hts.
  - apply (sorted_texts (column_cells c sorted)); [exact Hts|].
    unfold column_cells. rewrite Hcols.
    now apply (Sorted_map na_last_le (fun r => cell (columns df) (snd r) c)).
  - exact Hpts.
Qed.

(** ** The filing table *)

Lemma local_filings_run (w : World) (c dir : string) (t : trace) (r : json)
    (recent : page) (n : nat) (descs : list json) (shards : list shard) :
  files w (path_join dir ("CIK" ++ c ++ ".json")) = Some (JSON r) ->
  filings_section r "recent" = Ok (page_json recent) ->
  filings_section r "files" = Ok (JArr descs) ->
  filing_page n recent ->
  Forall2 (shard_at (fun name => files w (path_join dir name))) descs shards ->
  fst (local_filings w c dir t) =
  Ok (fold_left concat (map shard_frame shards) (page_frame n recent)).
Proof.
  intros Hfile Hrecent Hfiles Hpage Hshards.
  unfold local_filings, bind, lift. rewrite open_json_run, Hfile. cbn [load].
  rewrite Hrecent. destruct (filing_page_frame _ _ Hpage) as (-> & _).
  rewrite Hfiles. cbn [py_len rbind py_iter].
  destruct (0 <? List.length descs)%nat eqn:Hlen.
  - now apply local_shards_run.
  - destruct descs; [|discriminate]. inversion Hshards; subst. reflexivity.
Qed.

Lemma live_filings_run (w : World) (c email : string) (t : trace) (r : json)
    (recent : page) (n : nat) (descs : list json) (shards : list shard) :
  http w (submissions_url ("CIK" ++ c ++ ".json")) [("User-Agent", email)] [] =
    Some (JSON r) ->
  filings_section r "recent" = Ok (page_json recent) ->
  filings_section r "files" = Ok (JArr descs) ->
  filing_page n recent ->
  Forall2 (shard_at (fun name =>
                       http w (submissions_url name) [("User-Agent", email)] []))
    descs shards ->
  fst (live_filings w c email t) =
  Ok (fold_left concat (map shard_frame shards) (page_frame n recent)).
Proof.
  intros Hget Hrecent Hfiles Hpage Hshards.
  unfold live_filings, bind, lift. rewrite requests_get_run.
  unfold submissions_url in Hget. cbn [String.append] in Hget |- *.
  rewrite Hget. cbn [load rbind].
  rewrite Hrecent. destruct (filing_page_frame _ _ Hpage) as (-> & _).
  rewrite Hfiles. cbn [rbind py_iter].
  now apply live_shards_run.
Qed.

Lemma filing_page_texts (n : nat) (p : page) :
  filing_page n p -> exists ts, timestamps p = map VStr ts.
Proof.
  intros [_ [ts Hts]]. exists ts. unfold timestamps. now rewrite Hts.
Qed.

Lemma all_timestamps_texts (n : nat) (recent : page) (shards : list shard) :
  filing_page n recent ->
  Forall (fun s : shard => filing_page (snd (fst s)) (snd s)) shards ->
  exists texts, all_timestamps recent shards = map VStr texts.
Proof.
  intros Hr Hs. unfold all_timestamps.
  destruct (filing_page_texts _ _ Hr) as [ts ->].
  induction Hs as [|s shards Hp _ [texts IH]].
  - exists ts. simpl. now rewrite app_nil_r.
  - destruct (filing_page_texts _ _ Hp) as [ts' Hts'].
    assert (exists rest, flat_map (fun s : shard => timestamps (snd s)) shards =
                         map VStr rest) as [rest Hrest].
    { clear - IH. revert texts IH. generalize (flat_map (fun s : shard => timestamps (snd s)) shards).
      induction ts as [|a ts IHts]; intros l texts H; simpl in H.
      - eauto.
      - destruct texts as [|x texts]; [discriminate|]. injection H as _ H. eauto. }
    exists (ts ++ ts' ++ rest). simpl. now rewrite Hts', Hrest, !map_app.
Qed.

(** What sorting and renumbering make of the concatenated pages. *)
Lemma assemble (n : nat) (recent : page) (shards : list shard) :
  filing_page n recent ->
  Forall (fun s : shard => filing_page (snd (fst s)) (snd s)) shards ->
  assembled_table n recent shards
    (filings <~ sort_values "acceptanceDateTime"
                  (fold_left concat (map shard_frame shards) (page_frame n recent)) ;;
     Ok (reset_index filings))%result.
Proof.
  intros Hr Hs.
  destruct (filing_page_frame _ _ Hr) as (_ & Hn & Hmem & Hcells).
  destruct (assembled_frame shards Hs (page_frame n recent) Hmem)
    as (Hm & Hrows & Hc).
  destruct (all_timestamps_texts n recent shards Hr Hs) as [texts Htexts].
  rewrite Hcells in Hc. fold (all_timestamps recent shards) in Hc.
  rewrite Htexts in Hc. rewrite Hn in Hrows. fold (total_rows n shards) in Hrows.
  destruct (sort_and_reset _ _ texts Hm Hc)
    as (sorted & ts & Hsort & Hnr & Hidx & Hget & Hsorted & Hperm).
  exists (reset_index sorted), ts. rewrite Hsort. cbn [rbind].
  rewrite Hrows in Hnr, Hidx. rewrite Htexts.
  repeat split; auto. now apply Permutation_map.
Qed.

(** C1: on a seed page of [n] filing records and shard pages of [m1..mK]
    records, reached through local files or through the live endpoint,
    [get_seccompany_filings] returns a table of [n + m1 + ... + mK] rows,
    its index 0, 1, ..., [n + m1 + ... + mK - 1], and its
    [acceptanceDateTime] column the timestamps of all pages in
    non-decreasing order. *)
Theorem filings_table (w : World) (c : string)
    (submission_dir email : option string) (t : trace) (r : json)
    (recent : page) (n : nat) (descs : list json) (shards : list shard) :
  String.length c = 10 ->
  filings_section r "recent" = Ok (page_json recent) ->
  filings_section r "files" = Ok (JArr descs) ->
  filing_page n recent ->
  (truthy submission_dir = true ->
   files w (path_join (text submission_dir) ("CIK" ++ c ++ ".json")) = Some (JSON r) ->
   Forall2 (shard_at (fun name => files w (path_join (text submission_dir) name)))
     descs shards ->
   assembled_table n recent shards
     (fst (get_seccompany_filings w (VStr c) submission_dir email t)))
  /\ (truthy submission_dir = false ->
      truthy email = true ->
      http w (submissions_url ("CIK" ++ c ++ ".json"))
        [("User-Agent", text email)] [] = Some (JSON r) ->
      Forall2 (shard_at (fun name =>
                           http w (submissions_url name)
                             [("User-Agent", text email)] []))
        descs shards ->
      assembled_table n recent shards
        (fst (get_seccompany_filings w (VStr c) submission_dir email t))).
Proof.
  intros Hc Hrecent Hfiles Hpage. split.
  - intros Hdir Hfile Hshards.
    pose proof (local_filings_run w c (text submission_dir) t r recent n descs
                  shards Hfile Hrecent Hfiles Hpage Hshards) as Hrun.
    unfold get_seccompany_filings. rewrite Hc, Nat.eqb_refl, Hdir. cbn [negb andb].
    unfold bind, lift, ret.
    destruct (local_filings w c (text submission_dir) t) as [res t'].
    cbn [fst] in Hrun. subst res.
    pose proof (assemble n recent shards Hpage (shard_at_pages _ _ _ Hshards)) as H.
    unfold rbind in H.
    destruct (sort_values "acceptanceDateTime" _); exact H.
  - intros Hdir Hemail Hget Hshards.
    pose proof (live_filings_run w c (text email) t r recent n descs
                  shards Hget Hrecent Hfiles Hpage Hshards) as Hrun.
    unfold get_seccompany_filings. rewrite Hc, Nat.eqb_refl, Hdir, Hemail.
    cbn [negb andb].
    unfold bind, lift, ret.
    destruct (live_filings w c (text email) t) as [res t'].
    cbn [fst] in Hrun. subst res.
    pose proof (assemble n recent shards Hpage (shard_at_pages _ _ _ Hshards)) as H.
    unfold rbind in H.
    destruct (sort_values "acceptanceDateTime" _); exact H.
Qed.

Lemma filings_table_witness :
  assembled_table 2 Sample.recent [("CIK0000320193-001.json", 3, Sample.older)]
    (fst (get_seccompany_filings Sample.world (VStr "0000320193")
            (Some "data") None []))
  /\ assembled_table 2 Sample.recent [("CIK0000320193-001.json", 3, Sample.older)]
       (fst (get_seccompany_filings Sample.world (VStr "0000320193")
               None (Some "jane.doe@example.org") [])).
Proof.
  assert (Hrecent : filing_page 2 Sample.recent).
  { split; [repeat constructor|].
    exists ["2023-11-02T18:08:27.000Z"; "2023-08-03T18:04:43.000Z"]. reflexivity. }
  assert (Holder : filing_page 3 Sample.older).
  { split; [repeat constructor|].
    exists ["2014-01-28T16:32:11.000Z"; "2015-01-28T16:32:11.000Z";
            "2013-10-30T16:32:11.000Z"]. reflexivity. }
  split.
  - apply (proj1 (filings_table Sample.world "0000320193" (Some "data") None []
                    (Sample.submission [Sample.jstr "AAPL"] [Sample.jstr "Nasdaq"])
                    Sample.recent 2 Sample.shard_descriptors
                    [("CIK0000320193-001.json", 3, Sample.older)]
                    eq_refl eq_refl eq_refl Hrecent)).
    + reflexivity.
    + reflexivity.
    + constructor; [|constructor]. split; [reflexivity|]. split; [reflexivity|].
      exact Holder.
  - apply (proj2 (filings_table Sample.world "0000320193" None
                    (Some "jane.doe@example.org") []
                    (Sample.submission [Sample.jstr "AAPL"] [Sample.jstr "Nasdaq"])
                    Sample.recent 2 Sample.shard_descriptors
                    [("CIK0000320193-001.json", 3, Sample.older)]
                    eq_refl eq_refl eq_refl Hrecent)).
    + reflexivity.
    + reflexivity.
    + reflexivity.
    + constructor; [|constructor]. split; [reflexivity|]. split; [reflexivity|].
      exact Holder.
Defined.

(** ** Duplicates *)

Lemma value_eqb_eq (a b : value) : value_eqb a b = true <-> a = b.
Proof.
  unfold value_eqb. destruct (value_eq_dec a b); split; congruence.
Qed.

Lemma existsb_value_eqb (v : value) (l : list value) :
  existsb (value_eqb v) l = true <-> In v l.
Proof.
  rewrite existsb_exists. split.
  - intros (x & Hx & E). apply value_eqb_eq in E. now subst.
  - intros H. exists v. split; [exact H | now apply value_eqb_eq].
Qed.

Lemma py_eq_value_eqb (c d : value) : c <> VNaN -> py_eq c d = value_eqb c d.
Proof.
  intros Hc. destruct c; try contradiction; destruct d; try reflexivity;
    unfold value_eqb; destruct (value_eq_dec _ _); congruence.
Qed.

Lemma existsb_py_eq (c : value) (l : list value) :
  c <> VNaN -> existsb (py_eq c) l = existsb (value_eqb c) l.
Proof.
  intros Hc. induction l as [|d l IH]; simpl; [reflexivity|].
  now rewrite IH, py_eq_value_eqb.
Qed.

(** The values [duplicated] marks are those met before, or met twice. *)
Lemma duplicated_from_count (l : list value) :
  forall seen c,
    In c (mask (duplicated_from seen l) l) <->
    (In c seen /\ In c l) \/ 2 <= count_occ value_eq_dec l c.
Proof.
  induction l as [|k l IH]; intros seen c; simpl.
  - split; [contradiction | intros [[_ []]|H]; lia].
  - pose proof (count_occ_In value_eq_dec l c) as Hcount.
    specialize (IH (k :: seen) c). simpl in IH.
    destruct (existsb (value_eqb k) seen) eqn:Hk.
    + apply existsb_value_eqb in Hk. simpl. rewrite IH, Hcount.
      destruct (value_eq_dec k c) as [->|Hne].
      * intuition (try congruence; try lia).
      * intuition (try congruence; try lia).
    + assert (Hk' : ~ In k seen).
      { intros H. apply existsb_value_eqb in H. congruence. }
      rewrite IH, Hcount.
      destruct (value_eq_dec k c) as [->|Hne].
      * intuition (try congruence; try lia).
      * intuition (try congruence; try lia).
Qed.

Lemma ciks_with_multiple_count (cik_long : list value) (c : value) :
  In c (ciks_with_multiple cik_long) <-> 2 <= count_occ value_eq_dec cik_long c.
Proof.
  unfold ciks_with_multiple, duplicated. rewrite duplicated_from_count.
  simpl. tauto.
Qed.

(** The rows [duplicated() == False] keeps: one for each value not met
    before, and no value twice. *)
Lemma unique_from (l : list value) :
  forall seen,
    NoDup (mask (map negb (duplicated_from seen l)) l)
    /\ forall c, In c (mask (map negb (duplicated_from seen l)) l) <->
                 In c l /\ ~ In c seen.
Proof.
  induction l as [|k l IH]; intros seen; simpl.
  - split; [constructor | tauto].
  - destruct (IH (k :: seen)) as [Hnd Hin].
    destruct (existsb (value_eqb k) seen) eqn:Hk; simpl.
    + apply existsb_value_eqb in Hk. split; [exact Hnd|].
      intros c. rewrite Hin. simpl.
      split; [tauto|]. intros [[->|H] Hs]; [contradiction|]. 
      destruct (value_eq_dec k c); subst; tauto.
    + assert (Hk' : ~ In k seen).
      { intros H. apply existsb_value_eqb in H. congruence. }
      split.
      * constructor; [|exact Hnd]. rewrite Hin. simpl. tauto.
      * intros c. rewrite Hin. simpl.
        destruct (value_eq_dec k c); subst; tauto.
Qed.

Lemma unique_ciks_spec (cik_long : list value) :
  NoDup (unique_ciks cik_long)
  /\ forall c, In c (unique_ciks cik_long) <-> In c cik_long.
Proof.
  unfold unique_ciks, duplicated.
  destruct (unique_from cik_long []) as [Hnd Hin]. split; [exact Hnd|].
  intros c. rewrite Hin. simpl. tauto.
Qed.

(** A row kept by [duplicated() == False] is the first row of the table
    with its key. *)
Lemma first_rows_from {A} (key : A -> value) (l : list A) :
  forall seen row,
    In row (mask (map negb (duplicated_from seen (map key l))) l) ->
    ~ In (key row) seen
    /\ find (fun r => value_eqb (key r) (key row)) l = Some row.
Proof.
  induction l as [|a l IH]; intros seen row; simpl; [contradiction|].
  destruct (existsb (value_eqb (key a)) seen) eqn:Hk; simpl.
  - intros Hin. destruct (IH _ _ Hin) as [Hseen Hfind]. simpl in Hseen.
    split; [tauto|].
    destruct (value_eqb (key a) (key row)) eqn:E; [|exact Hfind].
    apply value_eqb_eq in E. tauto.
  - intros [->|Hin].
    + split.
      * intros H. apply existsb_value_eqb in H. congruence.
      * replace (value_eqb (key row) (key row)) with true; [reflexivity|].
        symmetry. now apply value_eqb_eq.
    + destruct (IH _ _ Hin) as [Hseen Hfind]. simpl in Hseen.
      split; [tauto|].
      destruct (value_eqb (key a) (key row)) eqn:E; [|exact Hfind].
      apply value_eqb_eq in E. tauto.
Qed.

(** ** One-row frames *)

Lemma column_cells_length (i : nat) (cs : list column_data) :
  List.length (map (column_cell i) cs) = List.length cs.
Proof. apply length_map. Qed.

Lemma DataFrame_of_dict_shape (d : list (string * json)) (df : DataFrame) :
  DataFrame_of_dict d = Ok df ->
  columns df = map fst d
  /\ Forall (fun r => List.length (snd r) = List.length (columns df)) (rows df).
Proof.
  unfold DataFrame_of_dict.
  destruct (rmap _ d) as [cs|e] eqn:Hcs; [|discriminate]. cbn [rbind].
  pose proof (rmap_length _ _ _ Hcs) as Hlen.
  destruct (array_lengths cs) as [|n ns].
  - destruct d; [|discriminate]. intros [= <-]. split; [reflexivity|constructor].
  - destruct (forallb (Nat.eqb n) ns); [|discriminate].
    intros [= <-]. cbn [columns rows]. split; [reflexivity|].
    apply Forall_forall. intros r Hr. apply in_map_iff in Hr.
    destruct Hr as (i & <- & _). cbn [snd].
    now rewrite !length_map.
Qed.

Lemma mem_cons (x y : string) (l : list string) :
  mem x (y :: l) = ((x =? y)%string || mem x l)%bool.
Proof. reflexivity. Qed.

Lemma known_fields_exclude_flag (items : list (string * json)) :
  mem "has_multiple_symbols"
    (map fst (filter (fun kv => mem (fst kv) get_keys) items)) = false.
Proof.
  induction items as [|[k v] items IH]; [reflexivity|].
  cbn [filter fst]. destruct (mem k get_keys) eqn:Hk; [|exact IH].
  cbn [map fst]. rewrite mem_cons, IH, orb_false_r.
  destruct (String.eqb_spec "has_multiple_symbols" k) as [<-|Hne];
    [discriminate Hk | reflexivity].
Qed.

Lemma index_of_snoc (c : string) (cols : list string) :
  index_of c cols = None -> index_of c (cols ++ [c]) = Some (List.length cols).
Proof.
  induction cols as [|c' cols IH]; simpl.
  - now rewrite String.eqb_refl.
  - destruct (c' =? c)%string; [discriminate|].
    destruct (index_of c cols); [discriminate|].
    intros _. now rewrite IH.
Qed.

Lemma cell_snoc (c : string) (cols : list string) (row : list value) (v : value) :
  index_of c cols = None ->
  List.length row = List.length cols ->
  cell (cols ++ [c]) (row ++ [v]) c = v.
Proof.
  intros Hc Hlen. unfold cell. rewrite index_of_snoc by exact Hc.
  rewrite <- Hlen. apply nth_middle.
Qed.

(** The frame the loop makes for an entity it does not skip: one row, its
    [has_multiple_symbols] cell being the outcome of the membership test. *)
Lemma entity_frame_row (w : World) (dir : string) (dups : list value)
    (c : value) (f : DataFrame) :
  entity_frame w dir dups c = Ok (Some f) ->
  (exists r, rows f = [r])
  /\ cell (columns f) (first_row f) "has_multiple_symbols" =
     VBool (existsb (py_eq c) dups).
Proof.
  unfold entity_frame.
  destruct (files w (metadata_path dir c)) as [content|]; [|discriminate].
  destruct (load content) as [r|]; [|discriminate]. cbn [rbind].
  destruct (dict_items r) as [items|]; [|discriminate]. cbn [rbind].
  destruct (DataFrame_of_dict _) as [tmp|] eqn:Htmp; [|discriminate]. cbn [rbind].
  destruct (nrows tmp =? 0)%nat eqn:Hn; [discriminate|].
  destruct (DataFrame_of_dict_shape _ _ Htmp) as [Hcols Hrows].
  assert (Hflag : index_of "has_multiple_symbols" (columns tmp) = None).
  { apply index_of_none. rewrite Hcols. apply known_fields_exclude_flag. }
  unfold setitem_scalar, setitem, iloc0_frame. rewrite Hflag. cbn [rows columns].
  unfold nrows in Hn. destruct (rows tmp) as [|r0 rest]; [discriminate|].
  cbn [map combine rbind fst snd]. intros [= <-].
  split; [eexists; reflexivity|]. unfold first_row. cbn [rows columns snd].
  inversion Hrows; subst. now apply cell_snoc.
Qed.

(** ** The accumulated table *)

Lemma concat_same_cells (acc f : DataFrame) (parts : list DataFrame) (r : nat * list value) :
  rows f = [r] ->
  Forall2 (fun out p => same_cells (columns acc) (snd out) p) (rows acc) parts ->
  Forall2 (fun out p => same_cells (columns (concat acc f)) (snd out) p)
    (rows (concat acc f)) (parts ++ [f]).
Proof.
  intros Hf Hacc. unfold concat. cbn [columns rows]. rewrite Hf. cbn [map].
  apply Forall2_app.
  - clear Hf. induction Hacc as [|out p outs ps Hout _ IH]; simpl; constructor; auto.
    intros c. cbn [snd]. rewrite cell_reindex; [apply Hout|].
    intros x. apply mem_union_l.
  - constructor; [|constructor]. intros c. cbn [snd].
    rewrite cell_reindex by (intros x; apply mem_union_r).
    unfold first_row. now rewrite Hf.
Qed.

Lemma fold_concat_same_cells (fs : list DataFrame) :
  Forall (fun f => exists r, rows f = [r]) fs ->
  forall acc parts,
    Forall2 (fun out p => same_cells (columns acc) (snd out) p) (rows acc) parts ->
    let df := fold_left concat fs acc in
    Forall2 (fun out p => same_cells (columns df) (snd out) p) (rows df) (parts ++ fs).
Proof.
  induction 1 as [|f fs [r Hr] _ IH]; intros acc parts Hacc; simpl.
  - now rewrite app_nil_r.
  - replace (parts ++ f :: fs) with ((parts ++ [f]) ++ fs)
      by (now rewrite <- app_assoc).
    apply IH. now apply (concat_same_cells acc f parts r).
Qed.

Lemma profiles_same_cells (f : DataFrame) (fs : list DataFrame) :
  Forall (fun f => exists r, rows f = [r]) (f :: fs) ->
  let df := reset_index (fold_left concat fs f) in
  Forall2 (fun out p => same_cells (columns df) (snd out) p) (rows df) (f :: fs)
  /\ index df = seq 0 (List.length (f :: fs)).
Proof.
  intros Hall. inversion Hall as [|? ? [r Hr] Hfs]; subst.
  pose proof (fold_concat_same_cells fs Hfs f [f]) as H. cbn zeta in H.
  assert (Hinit : Forall2 (fun out p => same_cells (columns f) (snd out) p)
                    (rows f) [f]).
  { rewrite Hr. constructor; [|constructor]. intros c.
    unfold first_row. now rewrite Hr. }
  specialize (H Hinit). cbn [app] in H.
  cbn zeta. split.
  - unfold reset_index. cbn [columns rows].
    remember (fold_left concat fs f) as acc. clear - H.
    assert (Hgen : forall (l : list (nat * list value)) ps,
               Forall2 (fun out p => same_cells (columns acc) (snd out) p) l ps ->
               forall n,
                 Forall2 (fun (out : nat * list value) p =>
                            same_cells (columns acc) (snd out) p)
                   (combine (seq n (List.length (map snd l))) (map snd l)) ps).
    { induction 1; intros n; simpl; constructor; auto. }
    apply Hgen. exact H.
  - rewrite reset_index_index. unfold nrows.
    now rewrite (Forall2_length H).
Qed.

(** ** Profiles *)

Lemma profiled_frames (w : World) (dir : string) (dups : list value)
    (U : list value) :
  forall os,
    rmap (entity_frame w dir dups) U = Ok os ->
    Forall2 (fun c f => In c U /\ entity_frame w dir dups c = Ok (Some f))
      (profiled_ciks w dir dups U) (somes os).
Proof.
  unfold profiled_ciks.
  induction U as [|c U IH]; simpl; intros os H.
  - injection H as <-. constructor.
  - destruct (entity_frame w dir dups c) as [o|e] eqn:Hc; [|discriminate].
    destruct (rmap (entity_frame w dir dups) U) as [os'|e]; [|discriminate].
    injection H as <-.
    assert (Hrest : Forall2 (fun c0 f => (c = c0 \/ In c0 U) /\
                                         entity_frame w dir dups c0 = Ok (Some f))
                      (filter (fun c0 => match entity_frame w dir dups c0 with
                                         | Ok (Some _) => true
                                         | _ => false
                                         end) U)
                      (somes os')).
    { eapply Forall2_impl; [|apply IH; reflexivity]. simpl. tauto. }
    destruct o as [f|]; simpl; [|exact Hrest].
    constructor; auto.
Qed.

Lemma company_information_ok (w : World) (sec_companies : DataFrame)
    (dir : string) (cik_long : list value) (t : trace) (df : DataFrame) :
  getattr sec_companies "cik_long" = Ok cik_long ->
  fst (get_sec_company_information w sec_companies dir t) = Ok df ->
  exists os f fs,
    rmap (entity_frame w dir (ciks_with_multiple cik_long)) (unique_ciks cik_long) = Ok os
    /\ somes os = f :: fs
    /\ df = reset_index (fold_left concat fs f).
Proof.
  intros Hc Hrun. rewrite (company_information_run _ _ _ _ _ Hc) in Hrun.
  destruct (rmap _ (unique_ciks cik_long)) as [os|e]; [|discriminate].
  destruct (somes os) as [|f fs] eqn:Hs; [discriminate|].
  injection Hrun as <-. exists os, f, fs. auto.
Qed.

Lemma Forall2_through {A B C} (R1 : A -> C -> Prop) (R2 : B -> C -> Prop)
    (la : list A) (lc : list C) :
  Forall2 R1 la lc ->
  forall lb, Forall2 R2 lb lc ->
             Forall2 (fun a b => exists c, R1 a c /\ R2 b c) la lb.
Proof.
  induction 1 as [|a c la lc Hac _ IH]; intros lb Hb; inversion Hb; subst;
    constructor; eauto.
Qed.

Lemma profile_rows (w : World) (sec_companies : DataFrame) (dir : string)
    (cik_long : list value) (t : trace) (df : DataFrame) :
  getattr sec_companies "cik_long" = Ok cik_long ->
  fst (get_sec_company_information w sec_companies dir t) = Ok df ->
  let D := ciks_with_multiple cik_long in
  let U := unique_ciks cik_long in
  exists frames,
    Forall2 (fun c f => In c U /\ entity_frame w dir D c = Ok (Some f))
      (profiled_ciks w dir D U) frames
    /\ Forall2 (fun out f => same_cells (columns df) (snd out) f) (rows df) frames
    /\ index df = seq 0 (List.length frames).
Proof.
  intros Hc Hrun D U.
  destruct (company_information_ok _ _ _ _ _ _ Hc Hrun) as (os & f & fs & Hos & Hs & ->).
  pose proof (profiled_frames _ _ _ _ _ Hos) as Hframes.
  fold D U in Hframes. rewrite Hs in Hframes.
  exists (f :: fs). split; [exact Hframes|].
  apply profiles_same_cells.
  clear - Hframes. induction Hframes as [|c f0 cs fs0 [_ Hf] _ IH]; constructor; auto.
  apply (entity_frame_row _ _ _ _ _ Hf).
Qed.

(** C4: in the table [get_sec_company_information] returns, the row of an
    entity whose cik_long occurs twice or more in the registry has
    [has_multiple_symbols] true, and the row of an entity whose cik_long
    occurs once has it false.  The rows are those of the entities profiled,
    in the order of the registry. *)
Theorem has_multiple_symbols_flag (w : World) (sec_companies : DataFrame)
    (dir : string) (cik_long : list value) (t : trace) (df : DataFrame) :
  getattr sec_companies "cik_long" = Ok cik_long ->
  ~ In VNaN cik_long ->
  fst (get_sec_company_information w sec_companies dir t) = Ok df ->
  Forall2
    (fun out c =>
       (2 <= count_occ value_eq_dec cik_long c ->
        cell (columns df) (snd out) "has_multiple_symbols" = VBool true)
       /\ (count_occ value_eq_dec cik_long c = 1 ->
           cell (columns df) (snd out) "has_multiple_symbols" = VBool false))
    (rows df)
    (profiled_ciks w dir (ciks_with_multiple cik_long) (unique_ciks cik_long)).
Proof.
  intros Hc Hnan Hrun.
  destruct (profile_rows _ _ _ _ _ _ Hc Hrun) as (frames & Hframes & Hcells & _).
  eapply Forall2_impl; [|exact (Forall2_through _ _ _ _ Hcells _ Hframes)].
  intros out c (f & Hout & Hin & Hf). simpl in Hout, Hin, Hf.
  destruct (entity_frame_row _ _ _ _ _ Hf) as [_ Hflag].
  rewrite (Hout "has_multiple_symbols"), Hflag.
  assert (Hne : c <> VNaN).
  { intros ->. apply Hnan. now apply (unique_ciks_spec cik_long). }
  rewrite existsb_py_eq by exact Hne.
  pose proof (existsb_value_eqb c (ciks_with_multiple cik_long)) as Hex.
  rewrite ciks_with_multiple_count in Hex.
  destruct (existsb (value_eqb c) (ciks_with_multiple cik_long)).
  - split; [reflexivity|]. intros H1.
    assert (H2 : 2 <= count_occ value_eq_dec cik_long c) by (now apply Hex).
    lia.
  - split; [|reflexivity]. intros H2. apply Hex in H2. discriminate.
Qed.

(** C5: the loop visits one registry row for each distinct cik_long, the
    first row of the registry carrying it; the table returned has one row,
    in that order, for each of these entities that yields a usable record
    (the cells of the entity's one-row frame, NaN under labels it lacks),
    and its index is 0, 1, 2, ... *)
Theorem one_profile_per_entity (w : World) (sec_companies : DataFrame)
    (dir : string) (cik_long : list value) (t : trace) (df : DataFrame) :
  getattr sec_companies "cik_long" = Ok cik_long ->
  fst (get_sec_company_information w sec_companies dir t) = Ok df ->
  let D := ciks_with_multiple cik_long in
  let U := unique_ciks cik_long in
  let key := fun row : nat * list value =>
               cell (columns sec_companies) (snd row) "cik_long" in
  let visited := mask (map negb (duplicated cik_long)) (rows sec_companies) in
  map key visited = U
  /\ NoDup U
  /\ (forall c, In c U <-> In c cik_long)
  /\ (forall row, In row visited ->
        find (fun r => value_eqb (key r) (key row)) (rows sec_companies) = Some row)
  /\ (exists frames,
        Forall2 (fun c f => entity_frame w dir D c = Ok (Some f))
          (profiled_ciks w dir D U) frames
        /\ Forall2 (fun out f => same_cells (columns df) (snd out) f) (rows df) frames)
  /\ nrows df = List.length (profiled_ciks w dir D U)
  /\ index df = seq 0 (nrows df).
Proof.
  intros Hc Hrun D U key visited.
  destruct (unique_ciks_spec cik_long) as [Hnd Hin].
  pose proof (getattr_cells _ _ _ Hc) as Hkeys. fold key in Hkeys.
  destruct (profile_rows _ _ _ _ _ _ Hc Hrun) as (frames & Hframes & Hcells & Hidx).
  fold D U in Hframes.
  assert (Hn : nrows df = List.length frames).
  { unfold nrows. apply (Forall2_length Hcells). }
  split; [|split; [|split; [|split; [|split; [|split]]]]].
  - unfold visited, U, unique_ciks. now rewrite mask_map, Hkeys.
  - exact Hnd.
  - exact Hin.
  - intros row Hrow. unfold visited, duplicated in Hrow. rewrite <- Hkeys in Hrow.
    now apply (first_rows_from key (rows sec_companies) [] row).
  - exists frames. split; [|exact Hcells].
    eapply Forall2_impl; [|exact Hframes]. simpl. tauto.
  - rewrite Hn. symmetry. apply (Forall2_length Hframes).
  - now rewrite Hn.
Qed.

Lemma has_multiple_symbols_flag_witness :
  match fst (get_sec_company_information Sample.world Sample.registry "data" []) with
  | Ok df =>
      Forall2
        (fun out c =>
           (2 <= count_occ value_eq_dec Sample.registry_ciks c ->
            cell (columns df) (snd out) "has_multiple_symbols" = VBool true)
           /\ (count_occ value_eq_dec Sample.registry_ciks c = 1 ->
               cell (columns df) (snd out) "has_multiple_symbols" = VBool false))
        (rows df)
        [VStr "0000320193"; VStr "0000001800"]
  | Raise _ => False
  end.
Proof.
  destruct (fst (get_sec_company_information Sample.world Sample.registry "data" []))
    as [df|e] eqn:Hrun.
  - apply (has_multiple_symbols_flag Sample.world Sample.registry "data"
             Sample.registry_ciks [] df).
    + reflexivity.
    + intros H. simpl in H. intuition discriminate.
    + exact Hrun.
  - vm_compute in Hrun. discriminate.
Defined.

Lemma one_profile_per_entity_witness :
  match fst (get_sec_company_information Sample.world Sample.registry "data" []) with
  | Ok df =>
      unique_ciks Sample.registry_ciks =
        [VStr "0000320193"; VStr "0000789019"; VStr "0000001800"]
      /\ nrows df = 2
      /\ index df = [0; 1]
  | Raise _ => False
  end.
Proof.
  destruct (fst (get_sec_company_information Sample.world Sample.registry "data" []))
    as [df|e] eqn:Hrun.
  - destruct (one_profile_per_entity Sample.world Sample.registry "data"
                Sample.registry_ciks [] df eq_refl Hrun)
      as (_ & _ & _ & _ & _ & Hn & Hidx).
    split; [reflexivity|]. split; [exact Hn|]. rewrite Hidx, Hn. reflexivity.
  - vm_compute in Hrun. discriminate.
Defined.

(** * Further properties *)

(** ** Traces of the filing assembler *)

Lemma local_shards_trace (w : World) (dir : string) (descs : list json)
    (shards : list shard) :
  Forall2 (shard_at (fun name => files w (path_join dir name))) descs shards ->
  forall filings t,
    snd (for_each (local_shard w dir) descs filings t) = t ++ shard_opens dir shards.
Proof.
  induction 1 as [|d s descs shards (Hname & Hfile & Hpage) _ IH];
    intros filings t; simpl; [now rewrite app_nil_r|].
  unfold bind at 1. unfold local_shard at 1. unfold bind, lift.
  rewrite Hname. cbn [join_name]. rewrite open_json_run, Hfile. cbn [load].
  destruct (filing_page_frame _ _ Hpage) as (-> & _). unfold ret.
  rewrite IH. now rewrite <- app_assoc.
Qed.

Lemma live_shards_trace (w : World) (headers : list (string * string))
    (descs : list json) (shards : list shard) :
  Forall2 (shard_at (fun name => http w (submissions_url name) headers []))
    descs shards ->
  forall filings t,
    snd (for_each (live_shard w headers) descs filings t) =
    t ++ shard_requests headers shards.
Proof.
  induction 1 as [|d s descs shards (Hname & Hget & Hpage) _ IH];
    intros filings t; simpl; [now rewrite app_nil_r|].
  unfold bind at 1. unfold live_shard at 1. unfold bind, lift.
  rewrite Hname. cbn [str_concat]. rewrite requests_get_run.
  unfold submissions_url in Hget. rewrite Hget. cbn [load].
  destruct (filing_page_frame _ _ Hpage) as (-> & _). unfold emit, ret.
  fold (submissions_url (fst (fst s))).
  rewrite IH. now rewrite <- !app_assoc.
Qed.

Lemma local_filings_trace (w : World) (c dir : string) (t : trace) (r : json)
    (recent : page) (n : nat) (descs : list json) (shards : list shard) :
  files w (path_join dir ("CIK" ++ c ++ ".json")) = Some (JSON r) ->
  filings_section r "recent" = Ok (page_json recent) ->
  filings_section r "files" = Ok (JArr descs) ->
  filing_page n recent ->
  Forall2 (shard_at (fun name => files w (path_join dir name))) descs shards ->
  snd (local_filings w c dir t) =
  t ++ Open (path_join dir ("CIK" ++ c ++ ".json")) :: shard_opens dir shards.
Proof.
  intros Hfile Hrecent Hfiles Hpage Hshards.
  unfold local_filings, bind, lift. rewrite open_json_run, Hfile. cbn [load].
  rewrite Hrecent. destruct (filing_page_frame _ _ Hpage) as (-> & _).
  rewrite Hfiles. cbn [py_len rbind py_iter].
  destruct (0 <? List.length descs)%nat eqn:Hlen.
  - rewrite (local_shards_trace w dir descs shards Hshards).
    now rewrite <- app_assoc.
  - destruct descs; [|discriminate]. inversion Hshards; subst.
    unfold ret. simpl. reflexivity.
Qed.

Lemma live_filings_trace (w : World) (c email : string) (t : trace) (r : json)
    (recent : page) (n : nat) (descs : list json) (shards : list shard) :
  http w (submissions_url ("CIK" ++ c ++ ".json")) [("User-Agent", email)] [] =
    Some (JSON r) ->
  filings_section r "recent" = Ok (page_json recent) ->
  filings_section r "files" = Ok (JArr descs) ->
  filing_page n recent ->
  Forall2 (shard_at (fun name =>
                       http w (submissions_url name) [("User-Agent", email)] []))
    descs shards ->
  snd (live_filings w c email t) =
  t ++ Get (submissions_url ("CIK" ++ c ++ ".json")) [("User-Agent", email)] []
    :: shard_requests [("User-Agent", email)] shards.
Proof.
  intros Hget Hrecent Hfiles Hpage Hshards.
  unfold live_filings, bind, lift. rewrite requests_get_run.
  unfold submissions_url in Hget |- *. cbn [String.append] in Hget |- *.
  rewrite Hget. cbn [load rbind].
  rewrite Hrecent. destruct (filing_page_frame _ _ Hpage) as (-> & _).
  rewrite Hfiles. cbn [rbind py_iter].
  rewrite (live_shards_trace w [("User-Agent", email)] descs shards Hshards).
  now rewrite <- app_assoc.
Qed.

(** Sorting and renumbering are pure: the trace of the assembler is the
    trace of fetching the pages. *)
Lemma filings_trace_of_fetch (w : World) (c : string)
    (submission_dir email : option string) (t : trace) :
  String.length c = 10 ->
  (truthy submission_dir || truthy email)%bool = true ->
  snd (get_seccompany_filings w (VStr c) submission_dir email t) =
  snd ((if truthy submission_dir
        then local_filings w c (text submission_dir)
        else live_filings w c (text email)) t).
Proof.
  intros Hc Hsrc. unfold get_seccompany_filings. rewrite Hc, Nat.eqb_refl.
  replace (negb (truthy submission_dir) && negb (truthy email))%bool with false
    by (destruct (truthy submission_dir), (truthy email); auto; discriminate).
  unfold bind, lift, ret.
  destruct ((if truthy submission_dir
             then local_filings w c (text submission_dir)
             else live_filings w c (text email)) t) as [[f|e] t']; [|reflexivity].
  destruct (sort_values "acceptanceDateTime" f); reflexivity.
Qed.

(** X1: the I/O the filing assembler performs when every page is there.  In
    local mode it opens the entity's document and then one file per shard,
    in the order of [filings.files], and nothing else.  In live mode it
    requests the entity's document and then, per shard and in that order,
    the shard's document followed by a pause of 100 ms; every request
    carries the caller's [email] as User-Agent and no query parameters. *)
Theorem filings_io (w : World) (c : string)
    (submission_dir email : option string) (t : trace) (r : json)
    (recent : page) (n : nat) (descs : list json) (shards : list shard) :
  String.length c = 10 ->
  filings_section r "recent" = Ok (page_json recent) ->
  filings_section r "files" = Ok (JArr descs) ->
  filing_page n recent ->
  (truthy submission_dir = true ->
   files w (path_join (text submission_dir) ("CIK" ++ c ++ ".json")) = Some (JSON r) ->
   Forall2 (shard_at (fun name => files w (path_join (text submission_dir) name)))
     descs shards ->
   snd (get_seccompany_filings w (VStr c) submission_dir email t) =
   t ++ Open (path_join (text submission_dir) ("CIK" ++ c ++ ".json"))
     :: shard_opens (text submission_dir) shards)
  /\ (truthy submission_dir = false ->
      truthy email = true ->
      http w (submissions_url ("CIK" ++ c ++ ".json"))
        [("User-Agent", text email)] [] = Some (JSON r) ->
      Forall2 (shard_at (fun name =>
                           http w (submissions_url name)
                             [("User-Agent", text email)] []))
        descs shards ->
      snd (get_seccompany_filings w (VStr c) submission_dir email t) =
      t ++ Get (submissions_url ("CIK" ++ c ++ ".json"))
             [("User-Agent", text email)] []
        :: shard_requests [("User-Agent", text email)] shards).
Proof.
  intros Hc Hrecent Hfiles Hpage. split.
  - intros Hdir Hfile Hshards.
    rewrite filings_trace_of_fetch by (rewrite ?Hdir; auto).
    rewrite Hdir. eapply local_filings_trace; eauto.
  - intros Hdir Hemail Hget Hshards.
    rewrite filings_trace_of_fetch by (rewrite ?Hdir, ?Hemail; auto).
    rewrite Hdir. eapply live_filings_trace; eauto.
Qed.

Lemma filings_io_witness :
  snd (get_seccompany_filings Sample.world (VStr "0000320193")
         (Some "data") None []) =
    [Open "data/CIK0000320193.json"; Open "data/CIK0000320193-001.json"]
  /\ snd (get_seccompany_filings Sample.world (VStr "0000320193")
            None (Some "jane.doe@example.org") []) =
       [Get "https://data.sec.gov/submissions/CIK0000320193.json"
          [("User-Agent", "jane.doe@example.org")] [];
        Get "https://data.sec.gov/submissions/CIK0000320193-001.json"
          [("User-Agent", "jane.doe@example.org")] [];
        Sleep 100].
Proof.
  assert (Hrecent : filing_page 2 Sample.recent).
  { split; [repeat constructor|].
    exists ["2023-11-02T18:08:27.000Z"; "2023-08-03T18:04:43.000Z"]. reflexivity. }
  assert (Holder : filing_page 3 Sample.older).
  { split; [repeat constructor|].
    exists ["2014-01-28T16:32:11.000Z"; "2015-01-28T16:32:11.000Z";
            "2013-10-30T16:32:11.000Z"]. reflexivity. }
  split.
  - apply (proj1 (filings_io Sample.world "0000320193" (Some "data") None []
                    (Sample.submission [Sample.jstr "AAPL"] [Sample.jstr "Nasdaq"])
                    Sample.recent 2 Sample.shard_descriptors
                    [("CIK0000320193-001.json", 3, Sample.older)]
                    eq_refl eq_refl eq_refl Hrecent)).
    + reflexivity.
    + reflexivity.
    + constructor; [|constructor]. split; [reflexivity|]. split; [reflexivity|].
      exact Holder.
  - apply (proj2 (filings_io Sample.world "0000320193" None
                    (Some "jane.doe@example.org") []
                    (Sample.submission [Sample.jstr "AAPL"] [Sample.jstr "Nasdaq"])
                    Sample.recent 2 Sample.shard_descriptors
                    [("CIK0000320193-001.json", 3, Sample.older)]
                    eq_refl eq_refl eq_refl Hrecent)).
    + reflexivity.
    + reflexivity.
    + reflexivity.
    + constructor; [|constructor]. split; [reflexivity|]. split; [reflexivity|].
      exact Holder.
Defined.

(** ** The two sources agree *)

(** X2: when the local directory and the live endpoint hold the same
    documents for an entity (the same main document, the same page under
    every shard name), [get_seccompany_filings] returns the same table from
    either source. *)
Theorem filings_sources_agree (w : World) (c dir email : string) (t t' : trace)
    (r : json) (recent : page) (n : nat) (descs : list json)
    (shards : list shard) :
  String.length c = 10 ->
  dir <> "" ->
  email <> "" ->
  filings_section r "recent" = Ok (page_json recent) ->
  filings_section r "files" = Ok (JArr descs) ->
  filing_page n recent ->
  files w (path_join dir ("CIK" ++ c ++ ".json")) = Some (JSON r) ->
  http w (submissions_url ("CIK" ++ c ++ ".json")) [("User-Agent", email)] [] =
    Some (JSON r) ->
  Forall2 (shard_at (fun name => files w (path_join dir name))) descs shards ->
  Forall2 (shard_at (fun name =>
                       http w (submissions_url name) [("User-Agent", email)] []))
    descs shards ->
  exists df,
    fst (get_seccompany_filings w (VStr c) (Some dir) None t) = Ok df
    /\ fst (get_seccompany_filings w (VStr c) None (Some email) t') = Ok df.
Proof.
  intros Hc Hdir Hemail Hrecent Hfiles Hpage Hfile Hget Hlocal Hlive.
  apply String.eqb_neq in Hdir, Hemail.
  pose proof (local_filings_run w c dir t r recent n descs shards
                Hfile Hrecent Hfiles Hpage Hlocal) as Hl.
  pose proof (live_filings_run w c email t' r recent n descs shards
                Hget Hrecent Hfiles Hpage Hlive) as Hv.
  destruct (assemble n recent shards Hpage (shard_at_pages _ _ _ Hlocal))
    as (df & ts & Hdf & _).
  exists df. unfold get_seccompany_filings. rewrite Hc, Nat.eqb_refl.
  cbn [truthy text negb andb]. rewrite Hdir, Hemail. cbn [negb andb].
  unfold bind, lift, ret.
  destruct (local_filings w c dir t) as [res tl]. cbn [fst] in Hl. subst res.
  destruct (live_filings w c email t') as [res tv]. cbn [fst] in Hv. subst res.
  unfold rbind in Hdf.
  destruct (sort_values "acceptanceDateTime" _) as [f|e]; [|discriminate].
  injection Hdf as <-. split; reflexivity.
Qed.

Lemma filings_sources_agree_witness :
  exists df,
    fst (get_seccompany_filings Sample.world (VStr "0000320193")
           (Some "data") None []) = Ok df
    /\ fst (get_seccompany_filings Sample.world (VStr "0000320193")
              None (Some "jane.doe@example.org") []) = Ok df.
Proof.
  assert (Hrecent : filing_page 2 Sample.recent).
  { split; [repeat constructor|].
    exists ["2023-11-02T18:08:27.000Z"; "2023-08-03T18:04:43.000Z"]. reflexivity. }
  assert (Holder : filing_page 3 Sample.older).
  { split; [repeat constructor|].
    exists ["2014-01-28T16:32:11.000Z"; "2015-01-28T16:32:11.000Z";
            "2013-10-30T16:32:11.000Z"]. reflexivity. }
  apply (filings_sources_agree Sample.world "0000320193" "data"
           "jane.doe@example.org" [] []
           (Sample.submission [Sample.jstr "AAPL"] [Sample.jstr "Nasdaq"])
           Sample.recent 2 Sample.shard_descriptors
           [("CIK0000320193-001.json", 3, Sample.older)]);
    try reflexivity; try discriminate; try exact Hrecent;
    (constructor; [|constructor]; split; [reflexivity|]; split; [reflexivity|];
     exact Holder).
Defined.

(** ** Every filing record is kept *)

Lemma assoc_map_snd {B C} (h : B -> C) (c : string) (p : list (string * B)) :
  assoc c (map (fun kv => (fst kv, h (snd kv))) p) = option_map h (assoc c p).
Proof.
  induction p as [|[k b] p IH]; simpl; [reflexivity|].
  destruct (k =? c)%string; [reflexivity | exact IH].
Qed.

Lemma reindex_reindex (c0 c1 c2 : list string) (row : list value) :
  (forall x, mem x c0 = true -> mem x c1 = true) ->
  reindex c1 c2 (reindex c0 c1 row) = reindex c0 c2 row.
Proof.
  intros Hincl. unfold reindex at 1 3. apply map_ext. intros c.
  now apply cell_reindex.
Qed.

Lemma page_row_layout (cols : list string) (p : page) (i : nat) :
  reindex (map fst p) cols (map (fun kv => nth i (snd kv) VNaN) p) =
  layout cols (page_record p i).
Proof.
  unfold reindex, layout. apply map_ext. intros c.
  rewrite (cell_assoc (fun vs => nth i vs VNaN)).
  unfold record_cell, page_record.
  rewrite (assoc_map_snd (fun vs : list value => nth i vs VNaN)).
  now destruct (assoc c p).
Qed.

Lemma spread_page_frame (cols : list string) (n : nat) (p : page) :
  spread cols (page_frame n p) = map (layout cols) (page_records n p).
Proof.
  unfold spread, page_frame, page_records. cbn [columns rows].
  rewrite !map_map. apply map_ext. intros i. cbn [snd]. apply page_row_layout.
Qed.

Lemma assoc_fresh {B} (k k' : string) (b : B) (p : list (string * B)) :
  k <> k' -> assoc k' ((k, b) :: p) = assoc k' p.
Proof.
  intros Hne. simpl. destruct (String.eqb_spec k k'); [contradiction|reflexivity].
Qed.

Lemma layout_own_keys {B} (h : B -> value) (p : list (string * B)) :
  NoDup (map fst p) ->
  map (fun k => match assoc k p with
                | Some b => h b
                | None => VNaN
                end) (map fst p) =
  map (fun kv => h (snd kv)) p.
Proof.
  induction p as [|[k b] p IH]; intros Hnd; [reflexivity|].
  inversion Hnd as [|? ? Hk Hnd']; subst. cbn [map fst snd].
  f_equal.
  - simpl. now rewrite String.eqb_refl.
  - rewrite <- IH by exact Hnd'. apply map_ext_in. intros k' Hk'.
    rewrite assoc_fresh; [reflexivity|]. intros ->. contradiction.
Qed.

Lemma page_frame_own_rows (n : nat) (p : page) :
  NoDup (map fst p) ->
  map snd (rows (page_frame n p)) = spread (map fst p) (page_frame n p).
Proof.
  intros Hnd. unfold spread, page_frame. cbn [columns rows].
  rewrite !map_map. apply map_ext. intros i. cbn [snd].
  unfold reindex.
  rewrite (map_ext _ (fun k => match assoc k p with
                               | Some vs => nth i vs VNaN
                               | None => VNaN
                               end)).
  - symmetry. now apply (layout_own_keys (fun vs => nth i vs VNaN)).
  - intros c. apply (cell_assoc (fun vs => nth i vs VNaN)).
Qed.

Lemma concat_rows (a b : DataFrame) :
  map snd (rows (concat a b)) =
  map (reindex (columns a) (columns (concat a b))) (map snd (rows a))
    ++ spread (columns (concat a b)) b.
Proof.
  unfold concat, spread. cbn [columns rows].
  now rewrite map_app, !map_map.
Qed.

Lemma fold_concat_rows (fs : list DataFrame) :
  forall (acc : DataFrame) (parts : list DataFrame),
    map snd (rows acc) = flat_map (spread (columns acc)) parts ->
    Forall (fun p => forall x, mem x (columns p) = true ->
                               mem x (columns acc) = true) parts ->
    let df := fold_left concat fs acc in
    columns df = fold_left union_labels (map columns fs) (columns acc)
    /\ map snd (rows df) = flat_map (spread (columns df)) (parts ++ fs).
Proof.
  induction fs as [|f fs IH]; intros acc parts Hrows Hincl; simpl.
  - now rewrite app_nil_r.
  - replace (parts ++ f :: fs) with ((parts ++ [f]) ++ fs)
      by (now rewrite <- app_assoc).
    apply (IH (concat acc f) (parts ++ [f])).
    + rewrite concat_rows, Hrows, flat_map_app. simpl. rewrite app_nil_r.
      f_equal. clear Hrows.
      induction Hincl as [|p parts Hp _ IHp]; simpl; [reflexivity|].
      rewrite map_app, IHp. f_equal.
      unfold spread. rewrite map_map. apply map_ext. intros r.
      now apply reindex_reindex.
    + apply Forall_app. split.
      * eapply Forall_impl; [|exact Hincl]. intros p Hp x Hx.
        apply concat_mem_l. now apply Hp.
      * constructor; [|constructor]. intros x Hx.
        unfold concat. cbn [columns]. now apply mem_union_r.
Qed.

Lemma flat_map_page_records (cols : list string) (shards : list shard) :
  flat_map (spread cols) (map shard_frame shards) =
  map (layout cols)
    (flat_map (fun s : shard => page_records (snd (fst s)) (snd s)) shards).
Proof.
  induction shards as [|s shards IH]; simpl; [reflexivity|].
  rewrite map_app, IH. f_equal. apply spread_page_frame.
Qed.

(** The concatenated pages, before sorting. *)
Lemma fetched_frame (n : nat) (recent : page) (shards : list shard) :
  NoDup (map fst recent) ->
  let df := fold_left concat (map shard_frame shards) (page_frame n recent) in
  columns df = all_columns recent shards
  /\ map snd (rows df) =
     map (layout (all_columns recent shards)) (all_records n recent shards).
Proof.
  intros Hnd.
  destruct (fold_concat_rows (map shard_frame shards) (page_frame n recent)
              [page_frame n recent]) as [Hcols Hrows].
  - simpl. rewrite app_nil_r. now apply page_frame_own_rows.
  - constructor; [|constructor]. auto.
  - cbn zeta. split.
    + rewrite Hcols. unfold all_columns. now rewrite map_map.
    + rewrite Hrows.
      assert (Hc : columns (fold_left concat (map shard_frame shards)
                              (page_frame n recent)) = all_columns recent shards).
      { rewrite Hcols. unfold all_columns. now rewrite map_map. }
      rewrite Hc. cbn [app flat_map]. unfold all_records.
      now rewrite map_app, spread_page_frame, flat_map_page_records.
Qed.

Lemma complete_after_sort (n : nat) (recent : page) (shards : list shard)
    (out : result DataFrame) :
  NoDup (map fst recent) ->
  assembled_table n recent shards out ->
  out = (filings <~ sort_values "acceptanceDateTime"
                      (fold_left concat (map shard_frame shards)
                         (page_frame n recent)) ;;
         Ok (reset_index filings))%result ->
  complete_table n recent shards out.
Proof.
  intros Hnd (df & _ & Hout & _) Heq.
  destruct (fetched_frame n recent shards Hnd) as [Hcols Hrows].
  rewrite Hout in Heq. unfold rbind in Heq.
  destruct (sort_values "acceptanceDateTime" _) as [sorted|e] eqn:Hsort;
    [|discriminate].
  injection Heq as ->.
  destruct (sort_values_spec _ _ _ Hsort) as (_ & Hc & Hperm & _).
  exists (reset_index sorted). split; [exact Hout|]. split.
  - cbn [columns reset_index]. now rewrite Hc.
  - unfold reset_index. cbn [rows]. rewrite enumerate_snd, <- Hrows.
    now apply Permutation_map.
Qed.

Lemma filings_result (w : World) (c : string)
    (submission_dir email : option string) (t : trace) (fetched : DataFrame) :
  String.length c = 10 ->
  (truthy submission_dir || truthy email)%bool = true ->
  fst ((if truthy submission_dir
        then local_filings w c (text submission_dir)
        else live_filings w c (text email)) t) = Ok fetched ->
  fst (get_seccompany_filings w (VStr c) submission_dir email t) =
  (filings <~ sort_values "acceptanceDateTime" fetched ;;
   Ok (reset_index filings))%result.
Proof.
  intros Hc Hsrc Hfetch. unfold get_seccompany_filings. rewrite Hc, Nat.eqb_refl.
  replace (negb (truthy submission_dir) && negb (truthy email))%bool with false
    by (destruct (truthy submission_dir), (truthy email); auto; discriminate).
  unfold bind, lift, ret.
  destruct ((if truthy submission_dir
             then local_filings w c (text submission_dir)
             else live_filings w c (text email)) t) as [res t'].
  cbn [fst] in Hfetch. subst res. unfold rbind.
  destruct (sort_values "acceptanceDateTime" fetched); reflexivity.
Qed.

(** X3: the table the assembler returns holds every filing record of the
    seed page and of the shards exactly once; its columns are the fields of
    all pages in order of first appearance, and a record has NaN under the
    fields its own page lacks.  This holds for both sources, for pages
    whose fields hold text, or else integers of 64 bits in every page. *)
Theorem filings_keep_every_record (w : World) (c : string)
    (submission_dir email : option string) (t : trace) (r : json)
    (recent : page) (n : nat) (descs : list json) (shards : list shard) :
  String.length c = 10 ->
  filings_section r "recent" = Ok (page_json recent) ->
  filings_section r "files" = Ok (JArr descs) ->
  filing_page n recent ->
  NoDup (map fst recent) ->
  plain_pages (recent :: map (fun s : shard => snd s) shards) = true ->
  (truthy submission_dir = true ->
   files w (path_join (text submission_dir) ("CIK" ++ c ++ ".json")) = Some (JSON r) ->
   Forall2 (shard_at (fun name => files w (path_join (text submission_dir) name)))
     descs shards ->
   complete_table n recent shards
     (fst (get_seccompany_filings w (VStr c) submission_dir email t)))
  /\ (truthy submission_dir = false ->
      truthy email = true ->
      http w (submissions_url ("CIK" ++ c ++ ".json"))
        [("User-Agent", text email)] [] = Some (JSON r) ->
      Forall2 (shard_at (fun name =>
                           http w (submissions_url name)
                             [("User-Agent", text email)] []))
        descs shards ->
      complete_table n recent shards
        (fst (get_seccompany_filings w (VStr c) submission_dir email t))).
Proof.
  intros Hc Hrecent Hfiles Hpage Hnd _. split.
  - intros Hdir Hfile Hshards.
    pose proof (local_filings_run w c (text submission_dir) t r recent n descs
                  shards Hfile Hrecent Hfiles Hpage Hshards) as Hrun.
    pose proof (filings_result w c submission_dir email t
                  (fold_left concat (map shard_frame shards) (page_frame n recent))
                  Hc) as Hres.
    rewrite Hdir in Hres. specialize (Hres eq_refl Hrun).
    apply complete_after_sort; [exact Hnd| |exact Hres].
    rewrite Hres. apply assemble; [exact Hpage|].
    exact (shard_at_pages _ _ _ Hshards).
  - intros Hdir Hemail Hget Hshards.
    pose proof (live_filings_run w c (text email) t r recent n descs
                  shards Hget Hrecent Hfiles Hpage Hshards) as Hrun.
    pose proof (filings_result w c submission_dir email t
                  (fold_left concat (map shard_frame shards) (page_frame n recent))
                  Hc) as Hres.
    rewrite Hdir, Hemail in Hres. specialize (Hres eq_refl Hrun).
    apply complete_after_sort; [exact Hnd| |exact Hres].
    rewrite Hres. apply assemble; [exact Hpage|].
    exact (shard_at_pages _ _ _ Hshards).
Qed.

Lemma filings_keep_every_record_witness :
  complete_table 2 SamplePages.recent
    [("CIK0000001800-001.json", 1, SamplePages.older)]
    (fst (get_seccompany_filings SamplePages.world (VStr "0000001800")
            (Some "data") None []))
  /\ complete_table 2 SamplePages.recent
       [("CIK0000001800-001.json", 1, SamplePages.older)]
       (fst (get_seccompany_filings SamplePages.world (VStr "0000001800")
               None (Some "jane.doe@example.org") [])).
Proof.
  assert (Hrecent : filing_page 2 SamplePages.recent).
  { split; [repeat constructor|].
    exists ["2023-10-18T09:01:12.000Z"; "2023-07-20T08:45:03.000Z"]. reflexivity. }
  assert (Holder : filing_page 1 SamplePages.older).
  { split; [repeat constructor|].
    exists ["2005-02-22T17:20:41.000Z"]. reflexivity. }
  assert (Hnd : NoDup (map fst SamplePages.recent)).
  { repeat constructor; simpl; intuition discriminate. }
  split.
  - apply (proj1 (filings_keep_every_record SamplePages.world "0000001800"
                    (Some "data") None [] SamplePages.main
                    SamplePages.recent 2
                    [JObj [("name", Sample.jstr "CIK0000001800-001.json")]]
                    [("CIK0000001800-001.json", 1, SamplePages.older)]
                    eq_refl eq_refl eq_refl Hrecent Hnd eq_refl)).
    + reflexivity.
    + reflexivity.
    + constructor; [|constructor]. split; [reflexivity|]. split; [reflexivity|].
      exact Holder.
  - apply (proj2 (filings_keep_every_record SamplePages.world "0000001800" None
                    (Some "jane.doe@example.org") [] SamplePages.main
                    SamplePages.recent 2
                    [JObj [("name", Sample.jstr "CIK0000001800-001.json")]]
                    [("CIK0000001800-001.json", 1, SamplePages.older)]
                    eq_refl eq_refl eq_refl Hrecent Hnd eq_refl)).
    + reflexivity.
    + reflexivity.
    + reflexivity.
    + constructor; [|constructor]. split; [reflexivity|]. split; [reflexivity|].
      exact Holder.
Defined.

(** ** A shard that cannot be fetched *)

Lemma for_each_app {A S} (body : S -> A -> IO S) (l1 l2 : list A) :
  forall st t,
    for_each body (l1 ++ l2) st t =
    match for_each body l1 st t with
    | (Ok st', t') => for_each body l2 st' t'
    | (Raise e, t') => (Raise e, t')
    end.
Proof.
  induction l1 as [|a l1 IH]; intros st t; simpl; [reflexivity|].
  unfold bind. destruct (body st a t) as [[st'|e] t']; [apply IH | reflexivity].
Qed.

Lemma local_shards_pair (w : World) (dir : string) (descs : list json)
    (shards : list shard) (filings : DataFrame) (t : trace) :
  Forall2 (shard_at (fun name => files w (path_join dir name))) descs shards ->
  for_each (local_shard w dir) descs filings t =
  (Ok (fold_left concat (map shard_frame shards) filings),
   t ++ shard_opens dir shards).
Proof.
  intros H. rewrite (surjective_pairing (for_each _ _ _ _)).
  now rewrite (local_shards_run w dir descs shards H),
    (local_shards_trace w dir descs shards H).
Qed.

Lemma live_shards_pair (w : World) (headers : list (string * string))
    (descs : list json) (shards : list shard) (filings : DataFrame) (t : trace) :
  Forall2 (shard_at (fun name => http w (submissions_url name) headers []))
    descs shards ->
  for_each (live_shard w headers) descs filings t =
  (Ok (fold_left concat (map shard_frame shards) filings),
   t ++ shard_requests headers shards).
Proof.
  intros H. rewrite (surjective_pairing (for_each _ _ _ _)).
  now rewrite (live_shards_run w headers descs shards H),
    (live_shards_trace w headers descs shards H).
Qed.

(** X4: a shard that cannot be fetched ends the run with no table.  In
    local mode a missing shard file raises [FileNotFoundError] for its path;
    in live mode a failed shard request raises [ConnectionError].  Either
    way the shards before it have been fetched, the failing one is the last
    I/O event (no pause follows a failed request), and the shards after it
    are never asked for. *)
Theorem failed_shard_aborts (w : World) (c : string)
    (submission_dir email : option string) (t : trace) (r : json)
    (recent : page) (n : nat) (pre post : list json) (d : json)
    (fetched : list shard) (name : string) :
  String.length c = 10 ->
  filings_section r "recent" = Ok (page_json recent) ->
  filings_section r "files" = Ok (JArr (pre ++ d :: post)) ->
  filing_page n recent ->
  py_getitem d "name" = Ok (JVal (VStr name)) ->
  (truthy submission_dir = true ->
   files w (path_join (text submission_dir) ("CIK" ++ c ++ ".json")) = Some (JSON r) ->
   Forall2 (shard_at (fun nm => files w (path_join (text submission_dir) nm)))
     pre fetched ->
   files w (path_join (text submission_dir) name) = None ->
   get_seccompany_filings w (VStr c) submission_dir email t =
   (Raise (FileNotFoundError (path_join (text submission_dir) name)),
    t ++ Open (path_join (text submission_dir) ("CIK" ++ c ++ ".json"))
      :: shard_opens (text submission_dir) fetched
      ++ [Open (path_join (text submission_dir) name)]))
  /\ (truthy submission_dir = false ->
      truthy email = true ->
      http w (submissions_url ("CIK" ++ c ++ ".json"))
        [("User-Agent", text email)] [] = Some (JSON r) ->
      Forall2 (shard_at (fun nm =>
                           http w (submissions_url nm)
                             [("User-Agent", text email)] []))
        pre fetched ->
      http w (submissions_url name) [("User-Agent", text email)] [] = None ->
      get_seccompany_filings w (VStr c) submission_dir email t =
      (Raise ConnectionError,
       t ++ Get (submissions_url ("CIK" ++ c ++ ".json"))
              [("User-Agent", text email)] []
         :: shard_requests [("User-Agent", text email)] fetched
         ++ [Get (submissions_url name) [("User-Agent", text email)] []])).
Proof.
  intros Hc Hrecent Hfiles Hpage Hname. split.
  - intros Hdir Hfile Hpre Hmiss.
    unfold get_seccompany_filings. rewrite Hc, Nat.eqb_refl, Hdir.
    cbn [negb andb]. unfold bind at 1.
    assert (Hrun : local_filings w c (text submission_dir) t =
                   (Raise (FileNotFoundError (path_join (text submission_dir) name)),
                    t ++ Open (path_join (text submission_dir) ("CIK" ++ c ++ ".json"))
                      :: shard_opens (text submission_dir) fetched
                      ++ [Open (path_join (text submission_dir) name)])).
    { unfold local_filings, bind, lift. rewrite open_json_run, Hfile. cbn [load].
      rewrite Hrecent. destruct (filing_page_frame _ _ Hpage) as (-> & _).
      rewrite Hfiles. cbn [py_len rbind py_iter].
      replace (0 <? List.length (pre ++ d :: post))%nat with true
        by (symmetry; apply Nat.ltb_lt; rewrite length_app; simpl; lia).
      rewrite for_each_app, (local_shards_pair _ _ _ _ _ _ Hpre).
      simpl. unfold bind at 1. unfold local_shard, bind, lift.
      rewrite Hname. cbn [join_name]. rewrite open_json_run, Hmiss.
      now rewrite <- !app_assoc. }
    now rewrite Hrun.
  - intros Hdir Hemail Hget Hpre Hfail.
    unfold get_seccompany_filings. rewrite Hc, Nat.eqb_refl, Hdir, Hemail.
    cbn [negb andb]. unfold bind at 1.
    assert (Hrun : live_filings w c (text email) t =
                   (Raise ConnectionError,
                    t ++ Get (submissions_url ("CIK" ++ c ++ ".json"))
                           [("User-Agent", text email)] []
                      :: shard_requests [("User-Agent", text email)] fetched
                      ++ [Get (submissions_url name)
                            [("User-Agent", text email)] []])).
    { unfold live_filings, bind, lift. rewrite requests_get_run.
      unfold submissions_url in Hget, Hfail |- *.
      cbn [String.append] in Hget |- *.
      rewrite Hget. cbn [load rbind].
      rewrite Hrecent. destruct (filing_page_frame _ _ Hpage) as (-> & _).
      rewrite Hfiles. cbn [rbind py_iter].
      rewrite for_each_app, (live_shards_pair _ _ _ _ _ _ Hpre).
      simpl. unfold bind at 1. unfold live_shard, bind, lift.
      rewrite Hname. cbn [str_concat]. rewrite requests_get_run, Hfail.
      now rewrite <- !app_assoc. }
    now rewrite Hrun.
Qed.

Lemma failed_shard_aborts_witness :
  get_seccompany_filings SampleShards.world (VStr "0000320193")
    (Some "data") None [] =
    (Raise (FileNotFoundError "data/CIK0000320193-002.json"),
     [Open "data/CIK0000320193.json"; Open "data/CIK0000320193-001.json";
      Open "data/CIK0000320193-002.json"])
  /\ get_seccompany_filings SampleShards.world (VStr "0000320193")
       None (Some "jane.doe@example.org") [] =
       (Raise ConnectionError,
        [Get "https://data.sec.gov/submissions/CIK0000320193.json"
           [("User-Agent", "jane.doe@example.org")] [];
         Get "https://data.sec.gov/submissions/CIK0000320193-001.json"
           [("User-Agent", "jane.doe@example.org")] [];
         Sleep 100;
         Get "https://data.sec.gov/submissions/CIK0000320193-002.json"
           [("User-Agent", "jane.doe@example.org")] []]).
Proof.
  assert (Hrecent : filing_page 2 Sample.recent).
  { split; [repeat constructor|].
    exists ["2023-11-02T18:08:27.000Z"; "2023-08-03T18:04:43.000Z"]. reflexivity. }
  assert (Holder : filing_page 3 Sample.older).
  { split; [repeat constructor|].
    exists ["2014-01-28T16:32:11.000Z"; "2015-01-28T16:32:11.000Z";
            "2013-10-30T16:32:11.000Z"]. reflexivity. }
  split.
  - apply (proj1 (failed_shard_aborts SampleShards.world "0000320193"
                    (Some "data") None [] SampleShards.main Sample.recent 2
                    [JObj [("name", Sample.jstr "CIK0000320193-001.json")]]
                    [JObj [("name", Sample.jstr "CIK0000320193-003.json")]]
                    (JObj [("name", Sample.jstr "CIK0000320193-002.json")])
                    [("CIK0000320193-001.json", 3, Sample.older)]
                    "CIK0000320193-002.json"
                    eq_refl eq_refl eq_refl Hrecent eq_refl)).
    + reflexivity.
    + reflexivity.
    + constructor; [|constructor]. split; [reflexivity|]. split; [reflexivity|].
      exact Holder.
    + reflexivity.
  - apply (proj2 (failed_shard_aborts SampleShards.world "0000320193"
                    None (Some "jane.doe@example.org") [] SampleShards.main
                    Sample.recent 2
                    [JObj [("name", Sample.jstr "CIK0000320193-001.json")]]
                    [JObj [("name", Sample.jstr "CIK0000320193-003.json")]]
                    (JObj [("name", Sample.jstr "CIK0000320193-002.json")])
                    [("CIK0000320193-001.json", 3, Sample.older)]
                    "CIK0000320193-002.json"
                    eq_refl eq_refl eq_refl Hrecent eq_refl)).
    + reflexivity.
    + reflexivity.
    + reflexivity.
    + constructor; [|constructor]. split; [reflexivity|]. split; [reflexivity|].
      exact Holder.
    + reflexivity.
Defined.

(** ** A main document without the expected keys *)

Lemma filings_main_failure (w : World) (c : string)
    (submission_dir email : option string) (t : trace) (e : exn)
    (main : result json * event) :
  String.length c = 10 ->
  (truthy submission_dir || truthy email)%bool = true ->
  (if truthy submission_dir
   then local_filings w c (text submission_dir)
   else live_filings w c (text email)) t = (Raise e, t ++ [snd main]) ->
  get_seccompany_filings w (VStr c) submission_dir email t =
  (Raise e, t ++ [snd main]).
Proof.
  intros Hc Hsrc Hrun. unfold get_seccompany_filings. rewrite Hc, Nat.eqb_refl.
  replace (negb (truthy submission_dir) && negb (truthy email))%bool with false
    by (destruct (truthy submission_dir), (truthy email); auto; discriminate).
  unfold bind at 1. now rewrite Hrun.
Qed.

(** X5: a main document that lacks [filings], [filings.recent] or
    [filings.files] ends the run in [KeyError] for that key, in both modes
    and right after the one fetch of the main document: [recent] is looked
    up and turned into a table before [files] is looked at, and no shard is
    asked for. *)
Theorem filings_missing_key (w : World) (c : string)
    (submission_dir email : option string) (t : trace) (r : json) (e : exn) :
  String.length c = 10 ->
  (filings_section r "recent" = Raise e
   \/ exists recent n,
        filings_section r "recent" = Ok (page_json recent)
        /\ filing_page n recent
        /\ filings_section r "files" = Raise e) ->
  ((truthy submission_dir = true ->
    files w (path_join (text submission_dir) ("CIK" ++ c ++ ".json")) = Some (JSON r) ->
    get_seccompany_filings w (VStr c) submission_dir email t =
    (Raise e, t ++ [Open (path_join (text submission_dir) ("CIK" ++ c ++ ".json"))]))
   /\ (truthy submission_dir = false ->
       truthy email = true ->
       http w (submissions_url ("CIK" ++ c ++ ".json"))
         [("User-Agent", text email)] [] = Some (JSON r) ->
       get_seccompany_filings w (VStr c) submission_dir email t =
       (Raise e, t ++ [Get (submissions_url ("CIK" ++ c ++ ".json"))
                         [("User-Agent", text email)] []])))
  /\ (forall fields k,
         assoc "filings" fields = None ->
         filings_section (JObj fields) k = Raise (KeyError "filings"))
  /\ (forall fields section k,
         assoc "filings" fields = Some (JObj section) ->
         assoc k section = None ->
         filings_section (JObj fields) k = Raise (KeyError k)).
Proof.
  intros Hc Hcase. split; [split|split].
  - intros Hdir Hfile.
    apply (filings_main_failure w c submission_dir email t e
             (Ok r, Open (path_join (text submission_dir) ("CIK" ++ c ++ ".json"))));
      [exact Hc | now rewrite Hdir |].
    rewrite Hdir. unfold local_filings, bind, lift.
    rewrite open_json_run, Hfile. cbn [load snd].
    destruct Hcase as [Hrecent | (recent & n & Hrecent & Hpage & Hfiles)].
    + now rewrite Hrecent.
    + rewrite Hrecent. destruct (filing_page_frame _ _ Hpage) as (-> & _).
      now rewrite Hfiles.
  - intros Hdir Hemail Hget.
    apply (filings_main_failure w c submission_dir email t e
             (Ok r, Get (submissions_url ("CIK" ++ c ++ ".json"))
                      [("User-Agent", text email)] []));
      [exact Hc | now rewrite Hemail, orb_true_r |].
    rewrite Hdir. unfold live_filings, bind, lift. rewrite requests_get_run.
    unfold submissions_url in Hget |- *. cbn [String.append] in Hget |- *.
    rewrite Hget. cbn [load rbind snd].
    destruct Hcase as [Hrecent | (recent & n & Hrecent & Hpage & Hfiles)].
    + now rewrite Hrecent.
    + rewrite Hrecent. destruct (filing_page_frame _ _ Hpage) as (-> & _).
      now rewrite Hfiles.
  - intros fields k H. unfold filings_section, py_getitem. now rewrite H.
  - intros fields section k Hf Hk. unfold filings_section, py_getitem.
    rewrite Hf. cbn [rbind]. now rewrite Hk.
Qed.

Lemma filings_missing_key_witness :
  get_seccompany_filings SampleShards.world (VStr "0000001800")
    (Some "data") None [] =
    (Raise (KeyError "filings"), [Open "data/CIK0000001800.json"])
  /\ get_seccompany_filings SampleShards.world (VStr "0000001800")
       None (Some "jane.doe@example.org") [] =
       (Raise (KeyError "filings"),
        [Get "https://data.sec.gov/submissions/CIK0000001800.json"
           [("User-Agent", "jane.doe@example.org")] []]).
Proof.
  split.
  - apply (proj1 (proj1 (filings_missing_key SampleShards.world "0000001800"
                           (Some "data") None []
                           (JObj [("cik", Sample.jstr "1800")])
                           (KeyError "filings") eq_refl
                           (or_introl eq_refl))));
      reflexivity.
  - apply (proj2 (proj1 (filings_missing_key SampleShards.world "0000001800"
                           None (Some "jane.doe@example.org") []
                           (JObj [("cik", Sample.jstr "1800")])
                           (KeyError "filings") eq_refl
                           (or_introl eq_refl))));
      reflexivity.
Defined.

(** ** Pacing of the live requests *)




(** ** What the profile extractor reads of the registry *)

Lemma profile_step_key (w : World) (dir : string) (cols1 cols2 : list string)
    (dups : list value) (st : locals) (r1 r2 : nat * list value) :
  cell cols1 (snd r1) "cik_long" = cell cols2 (snd r2) "cik_long" ->
  profile_step w dir cols1 dups st r1 = profile_step w dir cols2 dups st r2.
Proof.
  intros H. unfold profile_step. now rewrite H.
Qed.

Lemma profile_loop_keys (w : World) (dir : string) (cols1 cols2 : list string)
    (dups : list value) (l1 : list (nat * list value)) :
  forall l2 st t,
    map (fun r => cell cols1 (snd r) "cik_long") l1 =
    map (fun r => cell cols2 (snd r) "cik_long") l2 ->
    for_each (profile_step w dir cols1 dups) l1 st t =
    for_each (profile_step w dir cols2 dups) l2 st t.
Proof.
  induction l1 as [|r1 l1 IH]; intros [|r2 l2] st t H; try discriminate;
    [reflexivity|].
  simpl in H. injection H as Hr Hl. simpl. unfold bind.
  rewrite (profile_step_key w dir cols1 cols2 dups st r1 r2 Hr).
  destruct (profile_step w dir cols2 dups st r2 t) as [[st'|e] t'];
    [now apply IH | reflexivity].
Qed.

(** X7: of a registry whose [cik_long] cells are text,
    [get_sec_company_information] reads the column [cik_long] and nothing
    else: two registry tables with the same text cells in that column give
    the same run, result and I/O alike, whatever their other columns, index
    labels or column order; and a table without the column is refused with
    [AttributeError] before anything is opened. *)
Theorem profiles_read_only_cik_long (w : World) (dir : string) (t : trace)
    (registry registry' : DataFrame) :
  (forall cik_long,
      getattr registry "cik_long" = Ok cik_long ->
      getattr registry' "cik_long" = Ok cik_long ->
      forallb is_text cik_long = true ->
      get_sec_company_information w registry dir t =
      get_sec_company_information w registry' dir t)
  /\ (mem "cik_long" (columns registry) = false ->
      get_sec_company_information w registry dir t = (Raise AttributeError, t)).
Proof.
  split.
  - intros cik_long H1 H2 _. unfold get_sec_company_information.
    rewrite H1, H2, !bind_lift_ok. cbn [columns rows]. unfold bind.
    rewrite (profile_loop_keys w dir (columns registry) (columns registry')
               (mask (duplicated cik_long) cik_long)
               (mask (map negb (duplicated cik_long)) (rows registry))
               (mask (map negb (duplicated cik_long)) (rows registry'))).
    + reflexivity.
    + now rewrite !mask_map, (getattr_cells _ _ _ H1), (getattr_cells _ _ _ H2).
  - intros Hmem. apply index_of_none in Hmem.
    unfold get_sec_company_information, getattr. now rewrite Hmem.
Qed.

Lemma profiles_read_only_cik_long_witness :
  get_sec_company_information Sample.world Sample.registry "data" [] =
    get_sec_company_information Sample.world
      (mkDataFrame ["cik_long"]
         [(7, [VStr "0000320193"]); (8, [VStr "0000789019"]);
          (9, [VStr "0000320193"]); (10, [VStr "0000001800"])])
      "data" []
  /\ get_sec_company_information Sample.world
       (mkDataFrame ["ticker"; "title"] [(0, [VStr "AAPL"; VStr "Apple Inc."])])
       "data" [] = (Raise AttributeError, []).
Proof.
  split.
  - apply (proj1 (profiles_read_only_cik_long Sample.world "data" []
                    Sample.registry
                    (mkDataFrame ["cik_long"]
                       [(7, [VStr "0000320193"]); (8, [VStr "0000789019"]);
                        (9, [VStr "0000320193"]); (10, [VStr "0000001800"])]))
             Sample.registry_ciks);
      reflexivity.
  - apply (proj2 (profiles_read_only_cik_long Sample.world "data" []
                    (mkDataFrame ["ticker"; "title"]
                       [(0, [VStr "AAPL"; VStr "Apple Inc."])])
                    Sample.registry));
      reflexivity.
Defined.

(** ** The I/O of the profile extractor *)




(** ** The cells of a profile row *)

Lemma assoc_filter {B} (P : string -> bool) (k : string) (l : list (string * B)) :
  P k = true -> assoc k (filter (fun kv => P (fst kv)) l) = assoc k l.
Proof.
  intros Hk. induction l as [|[k' b] l IH]; simpl; [reflexivity|].
  destruct (String.eqb_spec k' k) as [->|Hne].
  - rewrite Hk. simpl. now rewrite String.eqb_refl.
  - destruct (P k'); simpl; [|exact IH].
    destruct (String.eqb_spec k' k); [contradiction | exact IH].
Qed.

Lemma cell_columns (g : column_data -> value) (k : string)
    (d : list (string * json)) (cs : list column_data) :
  Forall2 (fun kv col => as_column (snd kv) = Ok col) d cs ->
  cell (map fst d) (map g cs) k =
  match assoc k d with
  | Some j => match as_column j with
              | Ok col => g col
              | Raise _ => VNaN
              end
  | None => VNaN
  end.
Proof.
  unfold cell. induction 1 as [|[k' j] col d cs Hcol _ IH]; simpl; [reflexivity|].
  destruct (k' =? k)%string.
  - simpl in Hcol. now rewrite Hcol.
  - destruct (index_of k (map fst d)) as [i|]; exact IH.
Qed.

Lemma first_cell_of_field (j : json) (col : column_data) :
  as_column j = Ok col -> column_cell 0 col = first_value (Some j).
Proof.
  destruct j as [v|items|fields]; simpl.
  - now intros [= <-].
  - destruct (rmap as_scalar items) as [vs|e] eqn:Hvs; [|discriminate].
    intros [= <-]. simpl.
    destruct items as [|[v| |] items]; simpl in Hvs.
    + now injection Hvs as <-.
    + destruct (rmap as_scalar items); [|discriminate]. now injection Hvs as <-.
    + discriminate.
    + discriminate.
  - discriminate.
Qed.

Lemma index_of_length (k : string) (cols : list string) (j : nat) :
  index_of k cols = Some j -> j < List.length cols.
Proof.
  revert j. induction cols as [|c cols IH]; simpl; intros j H; [discriminate|].
  destruct (c =? k)%string.
  - injection H as <-. lia.
  - destruct (index_of k cols) as [i|]; [|discriminate].
    injection H as <-. specialize (IH i eq_refl). lia.
Qed.

Lemma index_of_app_l (k : string) (cols extra : list string) (j : nat) :
  index_of k cols = Some j -> index_of k (cols ++ extra) = Some j.
Proof.
  revert j. induction cols as [|c cols IH]; simpl; intros j H; [discriminate|].
  destruct (c =? k)%string; [exact H|].
  destruct (index_of k cols) as [i|]; [|discriminate].
  now rewrite (IH i eq_refl).
Qed.

Lemma index_of_app_none (k h : string) (cols : list string) :
  index_of k cols = None -> k <> h -> index_of k (cols ++ [h]) = None.
Proof.
  intros Hk Hne. induction cols as [|c cols IH]; simpl in *.
  - destruct (String.eqb_spec h k); [congruence | reflexivity].
  - destruct (c =? k)%string; [discriminate|].
    destruct (index_of k cols); [discriminate|]. now rewrite IH.
Qed.

Lemma cell_app_other (k h : string) (cols : list string) (row : list value)
    (v : value) :
  k <> h ->
  List.length row = List.length cols ->
  cell (cols ++ [h]) (row ++ [v]) k = cell cols row k.
Proof.
  intros Hne Hlen. unfold cell.
  destruct (index_of k cols) as [j|] eqn:Hj.
  - rewrite (index_of_app_l _ _ [h] _ Hj).
    apply app_nth1. rewrite Hlen. eapply index_of_length; eauto.
  - now rewrite (index_of_app_none _ _ _ Hj Hne).
Qed.

(** The one-row frame of an entity holds, under each known key, the scalar
    of that field or the first entry of its array. *)
Lemma entity_frame_cells (w : World) (dir : string) (dups : list value)
    (c : value) (f : DataFrame) (items : list (string * json)) (k : string) :
  entity_frame w dir dups c = Ok (Some f) ->
  files w (metadata_path dir c) = Some (JSON (JObj items)) ->
  mem k get_keys = true ->
  cell (columns f) (first_row f) k = first_value (assoc k items).
Proof.
  unfold entity_frame. intros Hf Hfile Hk. rewrite Hfile in Hf.
  cbn [load rbind dict_items] in Hf.
  fold (known_fields items) in Hf.
  destruct (DataFrame_of_dict (known_fields items)) as [tmp|] eqn:Htmp;
    [|discriminate].
  cbn [rbind] in Hf.
  destruct (nrows tmp =? 0)%nat eqn:Hn; [discriminate|].
  destruct (DataFrame_of_dict_shape _ _ Htmp) as [Hcols Hrows].
  assert (Hflag : index_of "has_multiple_symbols" (columns tmp) = None).
  { apply index_of_none. rewrite Hcols. apply known_fields_exclude_flag. }
  assert (Hkf : k <> "has_multiple_symbols").
  { intros ->. discriminate Hk. }
  unfold setitem_scalar, setitem, iloc0_frame in Hf. rewrite Hflag in Hf.
  cbn [rows columns] in Hf.
  (* the first row of [tmp] *)
  unfold DataFrame_of_dict in Htmp.
  destruct (rmap _ (known_fields items)) as [cs|] eqn:Hcs; [|discriminate].
  cbn [rbind] in Htmp.
  destruct (array_lengths cs) as [|n ns].
  { destruct (known_fields items); [|discriminate].
    injection Htmp as <-. discriminate Hn. }
  destruct (forallb (Nat.eqb n) ns); [|discriminate].
  injection Htmp as <-. cbn [rows columns nrows] in *.
  destruct n as [|n]; [discriminate Hn|].
  cbn [seq map combine fst snd rbind] in Hf. injection Hf as <-.
  unfold first_row. cbn [rows columns snd].
  rewrite cell_app_other by (rewrite ?length_map; auto;
                             now apply rmap_length in Hcs).
  apply rmap_Forall2 in Hcs.
  rewrite (cell_columns (column_cell 0) k _ _ Hcs).
  unfold known_fields. rewrite (assoc_filter (fun x => mem x get_keys)) by exact Hk.
  destruct (assoc k items) as [j|] eqn:Hj; [|reflexivity].
  destruct (as_column j) as [col|e] eqn:Hcol.
  - now apply first_cell_of_field.
  - exfalso. clear - Hcs Hj Hcol Hk.
    assert (Hin : assoc k (known_fields items) = Some j).
    { unfold known_fields.
      now rewrite (assoc_filter (fun x => mem x get_keys)) by exact Hk. }
    revert Hin. induction Hcs as [|[k' j'] col d cs' Hc _ IH]; simpl; [discriminate|].
    destruct (k' =? k)%string; [|exact IH].
    intros [= ->]. simpl in Hc. congruence.
Qed.

(** X9: for a registry whose [cik_long] cells are text, in the table
    [get_sec_company_information] returns the row of an entity whose
    document has texts and arrays of texts under the known keys (as the
    metadata documents do) holds under each of the eight known keys what the
    document has for that key: the text itself, or the first entry of an
    array (so of several tickers only the first is kept), and NaN when the
    document lacks the key. *)
Theorem profile_keeps_first_values (w : World) (registry : DataFrame)
    (dir : string) (cik_long : list value) (t : trace) (df : DataFrame) :
  getattr registry "cik_long" = Ok cik_long ->
  forallb is_text cik_long = true ->
  fst (get_sec_company_information w registry dir t) = Ok df ->
  Forall2
    (fun out c =>
       forall items k,
         files w (metadata_path dir c) = Some (JSON (JObj items)) ->
         forallb (fun kv => text_field (snd kv)) (known_fields items) = true ->
         mem k get_keys = true ->
         cell (columns df) (snd out) k = first_value (assoc k items))
    (rows df)
    (profiled_ciks w dir (ciks_with_multiple cik_long) (unique_ciks cik_long)).
Proof.
  intros Hc _ Hrun.
  destruct (profile_rows _ _ _ _ _ _ Hc Hrun) as (frames & Hframes & Hcells & _).
  eapply Forall2_impl; [|exact (Forall2_through _ _ _ _ Hcells _ Hframes)].
  intros out c (f & Hout & _ & Hf) items k Hfile _ Hk. simpl in Hout, Hf.
  rewrite (Hout k). eapply entity_frame_cells; eauto.
Qed.

Lemma profile_keeps_first_values_witness :
  match fst (get_sec_company_information SampleTickers.world
               SampleTickers.registry "data" []) with
  | Ok df =>
      Forall (fun out => cell (columns df) (snd out) "tickers" = VStr "GOOGL"
                         /\ cell (columns df) (snd out) "name" = VStr "Alphabet Inc.")
        (rows df)
  | Raise _ => False
  end.
Proof.
  destruct (fst (get_sec_company_information SampleTickers.world
                   SampleTickers.registry "data" [])) as [df|e] eqn:Hrun.
  - assert (H : Forall2
                  (fun out c =>
                     forall items k,
                       files SampleTickers.world (metadata_path "data" c) =
                         Some (JSON (JObj items)) ->
                       forallb (fun kv => text_field (snd kv)) (known_fields items)
                         = true ->
                       mem k get_keys = true ->
                       cell (columns df) (snd out) k = first_value (assoc k items))
                  (rows df) [VStr "0001652044"]).
    { apply (profile_keeps_first_values SampleTickers.world SampleTickers.registry
               "data" SampleTickers.registry_ciks [] df eq_refl eq_refl Hrun). }
    inversion H as [|out c rest cs Hout Hrest Hrows Hcs]. subst.
    inversion Hrest. subst. constructor; [|constructor].
    let its := eval cbv in (match SampleTickers.document with
                            | JObj i => i
                            | _ => []
                            end) in
    split; [exact (Hout its "tickers" eq_refl eq_refl eq_refl)
           | exact (Hout its "name" eq_refl eq_refl eq_refl)].
  - vm_compute in Hrun. discriminate.
Defined.

(** ** The columns of the profile table *)

Lemma fold_concat_columns (fs : list DataFrame) :
  forall acc,
    columns (fold_left concat fs acc) =
    fold_left union_labels (map columns fs) (columns acc).
Proof.
  induction fs as [|f fs IH]; intros acc; simpl; [reflexivity|]. now rewrite IH.
Qed.

Lemma mem_fold_union (x : string) (ls : list (list string)) :
  forall seen,
    mem x (fold_left union_labels ls seen) =
    (mem x seen || existsb (mem x) ls)%bool.
Proof.
  induction ls as [|l ls IH]; intros seen; simpl.
  - now rewrite orb_false_r.
  - rewrite IH, mem_union_labels, orb_assoc. reflexivity.
Qed.

Lemma mem_filter_keys {B} (P : string -> bool) (x : string) (l : list (string * B)) :
  mem x (map fst (filter (fun kv => P (fst kv)) l)) = true -> P x = true.
Proof.
  induction l as [|[k b] l IH]; simpl; [discriminate|].
  destruct (P k) eqn:Hk; [|exact IH].
  cbn [map fst]. rewrite mem_cons.
  destruct (String.eqb_spec x k) as [->|Hne]; [now intros _ | exact IH].
Qed.

Lemma entity_frame_columns (w : World) (dir : string) (dups : list value)
    (c : value) (f : DataFrame) :
  entity_frame w dir dups c = Ok (Some f) ->
  exists items, columns f = map fst (known_fields items) ++ ["has_multiple_symbols"].
Proof.
  unfold entity_frame.
  destruct (files w (metadata_path dir c)) as [content|]; [|discriminate].
  destruct (load content) as [r|]; [|discriminate]. cbn [rbind].
  destruct (dict_items r) as [items|]; [|discriminate]. cbn [rbind].
  fold (known_fields items).
  destruct (DataFrame_of_dict (known_fields items)) as [tmp|] eqn:Htmp;
    [|discriminate].
  cbn [rbind].
  destruct (nrows tmp =? 0)%nat; [discriminate|].
  destruct (DataFrame_of_dict_shape _ _ Htmp) as [Hcols _].
  assert (Hflag : index_of "has_multiple_symbols" (columns tmp) = None).
  { apply index_of_none. rewrite Hcols. apply known_fields_exclude_flag. }
  unfold setitem_scalar, setitem, iloc0_frame. rewrite Hflag. cbn [rows columns].
  destruct (map _ (combine (rows tmp) _)) as [|r0 rest]; [discriminate|].
  cbn [rbind]. intros [= <-]. exists items. cbn [columns]. now rewrite Hcols.
Qed.

(** X10: the columns of the table [get_sec_company_information] returns
    are drawn from the eight known keys and [has_multiple_symbols]; the
    latter is always among them, and a known key is a column exactly when
    the document of some profiled entity has it. *)
Theorem profile_columns (w : World) (registry : DataFrame) (dir : string)
    (cik_long : list value) (t : trace) (df : DataFrame) :
  getattr registry "cik_long" = Ok cik_long ->
  fst (get_sec_company_information w registry dir t) = Ok df ->
  mem "has_multiple_symbols" (columns df) = true
  /\ (forall x, mem x (columns df) = true ->
                mem x get_keys = true \/ x = "has_multiple_symbols")
  /\ (forall k, mem k get_keys = true ->
        (mem k (columns df) = true <->
         exists c items,
           In c (profiled_ciks w dir (ciks_with_multiple cik_long)
                   (unique_ciks cik_long))
           /\ files w (metadata_path dir c) = Some (JSON (JObj items))
           /\ assoc k items <> None)).
Proof.
  intros Hc Hrun.
  destruct (company_information_ok _ _ _ _ _ _ Hc Hrun)
    as (os & f & fs & Hos & Hs & ->).
  pose proof (profiled_frames _ _ _ _ _ Hos) as Hframes. rewrite Hs in Hframes.
  cbn [columns reset_index]. rewrite fold_concat_columns.
  assert (Hmem : forall x,
             mem x (fold_left union_labels (map columns fs) (columns f)) = true <->
             exists g, In g (f :: fs) /\ mem x (columns g) = true).
  { intros x. rewrite mem_fold_union, orb_true_iff, existsb_exists. split.
    - intros [H|(l & Hl & H)].
      + exists f. split; [now left | exact H].
      + apply in_map_iff in Hl. destruct Hl as (g & <- & Hg).
        exists g. split; [now right | exact H].
    - intros (g & [<-|Hg] & H); [now left|].
      right. exists (columns g). split; [now apply in_map | exact H]. }
  assert (Hall : forall g, In g (f :: fs) ->
             exists c, In c (profiled_ciks w dir (ciks_with_multiple cik_long)
                               (unique_ciks cik_long))
                       /\ entity_frame w dir (ciks_with_multiple cik_long) c =
                          Ok (Some g)).
  { clear - Hframes. induction Hframes as [|c g cs gs [_ Hg] _ IH];
      intros g' Hin; [contradiction|].
    destruct Hin as [<-|Hin].
    - exists c. split; [now left | exact Hg].
    - destruct (IH g' Hin) as (c' & Hc' & Hg'). exists c'. split; [now right|auto]. }
  assert (Hany : forall c, In c (profiled_ciks w dir (ciks_with_multiple cik_long)
                                   (unique_ciks cik_long)) ->
             exists g, In g (f :: fs)
                       /\ entity_frame w dir (ciks_with_multiple cik_long) c =
                          Ok (Some g)).
  { clear - Hframes. induction Hframes as [|c g cs gs [_ Hg] _ IH];
      intros c' Hin; [contradiction|].
    destruct Hin as [<-|Hin].
    - exists g. split; [now left | exact Hg].
    - destruct (IH c' Hin) as (g' & Hg' & He). exists g'. split; [now right|auto]. }
  split; [|split].
  - apply Hmem. exists f. split; [now left|].
    destruct (Hall f (or_introl eq_refl)) as (c & _ & Hf).
    destruct (entity_frame_columns _ _ _ _ _ Hf) as [items ->].
    rewrite mem_app. simpl. apply orb_true_r.
  - intros x Hx. apply Hmem in Hx. destruct Hx as (g & Hg & Hx).
    destruct (Hall g Hg) as (c & _ & Hf).
    destruct (entity_frame_columns _ _ _ _ _ Hf) as [items Hcols].
    rewrite Hcols, mem_app in Hx. apply orb_true_iff in Hx.
    destruct Hx as [Hx|Hx].
    + left. unfold known_fields in Hx.
      exact (mem_filter_keys (fun y => mem y get_keys) x items Hx).
    + right. simpl in Hx. rewrite orb_false_r in Hx. now apply String.eqb_eq in Hx.
  - intros k Hk. rewrite Hmem. split.
    + intros (g & Hg & Hx). destruct (Hall g Hg) as (c & Hin & Hf).
      pose proof Hf as Hf'. unfold entity_frame in Hf'.
      destruct (files w (metadata_path dir c)) as [content|] eqn:Hfile;
        [|discriminate].
      destruct content as [|r]; [discriminate|]. cbn [load rbind] in Hf'.
      destruct r as [v|l|items]; try discriminate.
      exists c, items. split; [exact Hin|]. split; [exact Hfile|].
      intros Hnone.
      (* the key is a column of [g], hence a key of the document *)
      cbn [rbind dict_items] in Hf'.
      fold (known_fields items) in Hf'.
      destruct (DataFrame_of_dict (known_fields items)) as [tmp|] eqn:Htmp;
        [|discriminate].
      cbn [rbind] in Hf'.
      destruct (nrows tmp =? 0)%nat; [discriminate|].
      destruct (DataFrame_of_dict_shape _ _ Htmp) as [Htc _].
      assert (Hflag : index_of "has_multiple_symbols" (columns tmp) = None).
      { apply index_of_none. rewrite Htc. apply known_fields_exclude_flag. }
      unfold setitem_scalar, setitem, iloc0_frame in Hf'. rewrite Hflag in Hf'.
      cbn [rows columns] in Hf'.
      destruct (map _ (combine (rows tmp) _)) as [|r0 rest]; [discriminate|].
      cbn [rbind] in Hf'. injection Hf' as <-. cbn [columns] in Hx.
      rewrite Htc, mem_app in Hx. apply orb_true_iff in Hx.
      destruct Hx as [Hx|Hx].
      * assert (Hsome : assoc k (known_fields items) <> None).
        { clear - Hx. induction (known_fields items) as [|[k' b] l IH];
            simpl in *; [discriminate|].
          rewrite (String.eqb_sym k k') in Hx.
          destruct (k' =? k)%string; [discriminate|]. now apply IH. }
        unfold known_fields in Hsome.
        rewrite (assoc_filter (fun y => mem y get_keys)) in Hsome by exact Hk.
        contradiction.
      * simpl in Hx. rewrite orb_false_r in Hx. apply String.eqb_eq in Hx.
        subst k. discriminate Hk.
    + intros (c & items & Hin & Hfile & Hsome).
      destruct (Hany c Hin) as (g & Hg & Hf). exists g. split; [exact Hg|].
      pose proof Hf as Hf'. unfold entity_frame in Hf'. rewrite Hfile in Hf'.
      cbn [load rbind dict_items] in Hf'. fold (known_fields items) in Hf'.
      destruct (DataFrame_of_dict (known_fields items)) as [tmp|] eqn:Htmp;
        [|discriminate].
      cbn [rbind] in Hf'.
      destruct (nrows tmp =? 0)%nat; [discriminate|].
      destruct (DataFrame_of_dict_shape _ _ Htmp) as [Htc _].
      assert (Hflag : index_of "has_multiple_symbols" (columns tmp) = None).
      { apply index_of_none. rewrite Htc. apply known_fields_exclude_flag. }
      unfold setitem_scalar, setitem, iloc0_frame in Hf'. rewrite Hflag in Hf'.
      cbn [rows columns] in Hf'.
      destruct (map _ (combine (rows tmp) _)) as [|r0 rest]; [discriminate|].
      cbn [rbind] in Hf'. injection Hf' as <-. cbn [columns].
      rewrite Htc, mem_app. apply orb_true_iff. left.
      apply assoc_mem. unfold known_fields.
      now rewrite (assoc_filter (fun y => mem y get_keys)) by exact Hk.
Qed.

Lemma profile_columns_witness :
  match fst (get_sec_company_information SampleTickers.world
               SampleTickers.registry "data" []) with
  | Ok df =>
      mem "has_multiple_symbols" (columns df) = true
      /\ (forall x, mem x (columns df) = true ->
                    mem x get_keys = true \/ x = "has_multiple_symbols")
  | Raise _ => False
  end.
Proof.
  destruct (fst (get_sec_company_information SampleTickers.world
                   SampleTickers.registry "data" [])) as [df|e] eqn:Hrun.
  - destruct (profile_columns SampleTickers.world SampleTickers.registry
                "data" SampleTickers.registry_ciks [] df eq_refl Hrun)
      as (Hflag & Hknown & _).
    split; assumption.
  - vm_compute in Hrun. discriminate.
Defined.

(** ** Documents that are fatal rather than skipped *)

Lemma scalars_only_columns (d : list (string * json)) :
  Forall (fun kv => exists v, snd kv = JVal v) d ->
  exists cs,
    rmap (fun kv : string * json => as_column (snd kv)) d = Ok cs
    /\ array_lengths cs = [].
Proof.
  induction 1 as [|[k j] d [v Hv] _ (cs & Hcs & Hlen)]; simpl.
  - now exists [].
  - simpl in Hv. subst j. simpl. rewrite Hcs.
    exists (Broadcast v :: cs). split; [reflexivity | exact Hlen].
Qed.

(** X11: a metadata document whose known fields are all scalars (one
    without the [tickers] and [exchanges] arrays, say) is not skipped: the
    table cannot be built from scalars alone, and the run ends in
    [ValueError] with no table returned, unless an earlier entity has
    already failed. *)
Theorem scalar_only_document_is_fatal (w : World) (registry : DataFrame)
    (dir : string) (cik_long : list value) (t : trace)
    (pre post : list value) (c : value) (items : list (string * json)) :
  getattr registry "cik_long" = Ok cik_long ->
  unique_ciks cik_long = pre ++ c :: post ->
  Forall (fun c' => exists o,
            entity_frame w dir (ciks_with_multiple cik_long) c' = Ok o) pre ->
  files w (metadata_path dir c) = Some (JSON (JObj items)) ->
  known_fields items <> [] ->
  Forall (fun kv => exists v, snd kv = JVal v) (known_fields items) ->
  fst (get_sec_company_information w registry dir t) = Raise ValueError.
Proof.
  intros Hc HU Hpre Hfile Hne Hscalars.
  rewrite (company_information_run _ _ _ _ _ Hc), HU.
  rewrite (rmap_first_raise _ pre c post ValueError); auto.
  unfold entity_frame. rewrite Hfile. cbn [load rbind dict_items].
  fold (known_fields items). unfold DataFrame_of_dict.
  destruct (scalars_only_columns _ Hscalars) as (cs & Hcs & Hlen).
  rewrite Hcs. cbn [rbind]. rewrite Hlen.
  destruct (known_fields items); [contradiction | reflexivity].
Qed.

Lemma scalar_only_document_is_fatal_witness :
  fst (get_sec_company_information SampleTickers.world
         SampleTickers.registry_with_scalars "data" []) = Raise ValueError.
Proof.
  apply (scalar_only_document_is_fatal SampleTickers.world
           SampleTickers.registry_with_scalars "data"
           [VStr "0001652044"; VStr "0000001800"] []
           [VStr "0001652044"] [] (VStr "0000001800")
           [("cik", Sample.jstr "1800"); ("name", Sample.jstr "Abbott Laboratories")]).
  - reflexivity.
  - reflexivity.
  - constructor; [|constructor]. eexists. reflexivity.
  - reflexivity.
  - discriminate.
  - repeat constructor; eexists; reflexivity.
Defined.

(** ** Registry responses the lister refuses *)

Lemma registry_run (w : World) (email : string) (t : trace)
    (fields : list (string * json)) (recs : list (list (string * value))) :
  http w tickers_url [("User-Agent", "email")] [] = Some (JSON (JObj fields)) ->
  rmap as_record (map snd fields) = Ok recs ->
  get_sec_companies w email t =
  ((let tickers_cik :=
      mkDataFrame (record_labels recs)
        (enumerate (map (fun r => map (record_cell r) (record_labels recs)) recs)) in
    cik_str <~ getitem tickers_cik "cik_str" ;;
    tickers_cik <~ set_columns
                     (setitem tickers_cik "cik" (astype_str_zfill10 cik_str))
                     ["cik"; "ticker"; "title"; "cik_long"] ;;
    loc_columns tickers_cik ["ticker"; "title"; "cik"; "cik_long"])%result,
   t ++ [tickers_request]).
Proof.
  intros Hhttp Hrecs. unfold get_sec_companies, bind.
  rewrite requests_get_run. unfold tickers_url in Hhttp. rewrite Hhttp.
  unfold lift, mapping_values. cbn [load rbind].
  unfold DataFrame_of_records. rewrite Hrecs. reflexivity.
Qed.

Lemma assoc_none_mem {B} (k : string) (r : list (string * B)) :
  assoc k r = None -> mem k (map fst r) = false.
Proof.
  induction r as [|[k' b] r IH]; simpl; [reflexivity|].
  rewrite (String.eqb_sym k k'). destruct (k' =? k)%string; [discriminate|].
  simpl. exact IH.
Qed.

(** X12: a registry response none of whose records has a [cik_str] field,
    the empty mapping included, ends [get_sec_companies] in
    [KeyError] for [cik_str], after its one request. *)
Theorem registry_without_cik_str (w : World) (email : string) (t : trace)
    (fields : list (string * json)) (recs : list (list (string * value))) :
  http w tickers_url [("User-Agent", "email")] [] = Some (JSON (JObj fields)) ->
  rmap as_record (map snd fields) = Ok recs ->
  Forall (fun r => assoc "cik_str" r = None) recs ->
  get_sec_companies w email t = (Raise (KeyError "cik_str"), t ++ [tickers_request]).
Proof.
  intros Hhttp Hrecs Hnone.
  rewrite (registry_run w email t fields recs Hhttp Hrecs). f_equal.
  cbn zeta. unfold getitem. cbn [columns].
  replace (index_of "cik_str" (record_labels recs)) with (@None nat);
    [reflexivity|].
  symmetry. apply index_of_none. unfold record_labels.
  rewrite mem_fold_labels. simpl.
  apply not_true_is_false. intros H. apply existsb_exists in H.
  destruct H as (r & Hr & Hmem).
  rewrite Forall_forall in Hnone.
  rewrite (assoc_none_mem _ _ (Hnone r Hr)) in Hmem. discriminate.
Qed.

Lemma registry_without_cik_str_witness :
  get_sec_companies (SampleRegistry.world (JObj [])) "jane.doe@example.org" [] =
    (Raise (KeyError "cik_str"), [tickers_request])
  /\ get_sec_companies (SampleRegistry.world SampleRegistry.without_cik)
       "jane.doe@example.org" [] =
       (Raise (KeyError "cik_str"), [tickers_request]).
Proof.
  split.
  - apply (registry_without_cik_str (SampleRegistry.world (JObj []))
             "jane.doe@example.org" [] [] []); [reflexivity | reflexivity | constructor].
  - apply (registry_without_cik_str
             (SampleRegistry.world SampleRegistry.without_cik)
             "jane.doe@example.org" []
             [("0", JObj [("ticker", Sample.jstr "AAPL");
                          ("title", Sample.jstr "Apple Inc.")])]
             [[("ticker", VStr "AAPL"); ("title", VStr "Apple Inc.")]]);
      [reflexivity | reflexivity | repeat constructor].
Defined.

Lemma setitem_columns_length (df : DataFrame) (c : string) (vs : list value) :
  List.length (columns (setitem df c vs)) =
  List.length (columns df) + (if mem c (columns df) then 0 else 1).
Proof.
  unfold setitem.
  destruct (index_of c (columns df)) as [j|] eqn:Hj.
  - replace (mem c (columns df)) with true
      by (symmetry; apply index_of_mem; eauto).
    cbn [columns]. lia.
  - replace (mem c (columns df)) with false
      by (symmetry; now apply index_of_none).
    cbn [columns]. rewrite length_app. simpl. lia.
Qed.

(** X13: the lister relabels its columns by position and needs exactly
    four of them.  A response whose records have a [cik_str] but whose
    fields, counted together with the added [cik] column, are not four in
    number (a fourth field per record, say) ends the run in [ValueError]. *)
Theorem registry_field_count (w : World) (email : string) (t : trace)
    (fields : list (string * json)) (recs : list (list (string * value))) :
  http w tickers_url [("User-Agent", "email")] [] = Some (JSON (JObj fields)) ->
  rmap as_record (map snd fields) = Ok recs ->
  mem "cik_str" (record_labels recs) = true ->
  List.length (record_labels recs)
    + (if mem "cik" (record_labels recs) then 0 else 1) <> 4 ->
  get_sec_companies w email t = (Raise ValueError, t ++ [tickers_request]).
Proof.
  intros Hhttp Hrecs Hcik Hcount.
  rewrite (registry_run w email t fields recs Hhttp Hrecs). f_equal.
  cbn zeta. rewrite getitem_cells by exact Hcik. cbn [rbind].
  unfold set_columns.
  rewrite setitem_columns_length. cbn [columns List.length].
  destruct (Nat.eqb_spec 4 (List.length (record_labels recs)
                            + (if mem "cik" (record_labels recs) then 0 else 1)))
    as [E|E]; [congruence | reflexivity].
Qed.

Lemma registry_field_count_witness :
  get_sec_companies (SampleRegistry.world SampleRegistry.with_exchange)
    "jane.doe@example.org" [] = (Raise ValueError, [tickers_request]).
Proof.
  apply (registry_field_count (SampleRegistry.world SampleRegistry.with_exchange)
           "jane.doe@example.org" []
           [("0", JObj [("cik_str", JVal (VInt 320193)); ("ticker", Sample.jstr "AAPL");
                        ("title", Sample.jstr "Apple Inc.");
                        ("exchange", Sample.jstr "Nasdaq")])]
           [[("cik_str", VInt 320193); ("ticker", VStr "AAPL");
             ("title", VStr "Apple Inc."); ("exchange", VStr "Nasdaq")]]).
  - reflexivity.
  - reflexivity.
  - reflexivity.
  - vm_compute. lia.
Defined.

(** ** Labels by position *)

Lemma union_labels_fresh (extra : list string) :
  forall seen, NoDup (seen ++ extra) -> union_labels seen extra = seen ++ extra.
Proof.
  induction extra as [|c extra IH]; intros seen Hnd; simpl.
  - now rewrite app_nil_r.
  - assert (Hc : mem c seen = false).
    { apply not_true_is_false. intros H. apply mem_In in H.
      apply NoDup_remove_2 in Hnd. apply Hnd. apply in_or_app. now left. }
    rewrite Hc, IH.
    + now rewrite <- app_assoc.
    + now rewrite <- app_assoc.
Qed.

Lemma union_labels_known (extra seen : list string) :
  (forall x, In x extra -> mem x seen = true) -> union_labels seen extra = seen.
Proof.
  induction extra as [|c extra IH]; intros H; simpl; [reflexivity|].
  rewrite (H c (or_introl eq_refl)). apply IH. intros x Hx. apply H. now right.
Qed.

Lemma record_labels_uniform (keys : list string)
    (recs : list (list (string * value))) :
  NoDup keys ->
  recs <> [] ->
  Forall (fun r => map fst r = keys) recs ->
  record_labels recs = keys.
Proof.
  intros Hnd Hne Hall. unfold record_labels.
  destruct recs as [|r recs]; [contradiction|].
  inversion Hall as [|? ? Hr Hrest]; subst. simpl.
  rewrite union_labels_fresh by exact Hnd. simpl.
  clear Hne Hall.
  induction Hrest as [|r' recs Hr' _ IH]; simpl; [reflexivity|].
  rewrite Hr', union_labels_known; [exact IH|].
  intros x Hx. now apply mem_In.
Qed.

Lemma map_fst_combine_eq {A B} (l : list A) (l' : list B) :
  List.length l = List.length l' -> map fst (combine l l') = l.
Proof.
  revert l'. induction l as [|a l IH]; intros [|b l'] H; simpl in *;
    try discriminate; [reflexivity|]. f_equal. apply IH. lia.
Qed.

Lemma map_snd_combine_eq {A B} (l : list A) (l' : list B) :
  List.length l = List.length l' -> map snd (combine l l') = l'.
Proof.
  revert l'. induction l as [|a l IH]; intros [|b l'] H; simpl in *;
    try discriminate; [reflexivity|]. f_equal. apply IH. lia.
Qed.

Lemma as_record_combine (keys : list string) :
  forall vs,
    rmap (fun kv : string * json =>
            match as_scalar (snd kv) with
            | Ok v => Ok (fst kv, v)
            | Raise e => Raise e
            end) (combine keys (map JVal vs)) =
    Ok (combine keys vs).
Proof.
  induction keys as [|k keys IH]; intros [|v vs]; simpl; try reflexivity.
  now rewrite IH.
Qed.

Lemma record_row_own_keys (keys : list string) (vs : list value) :
  NoDup keys ->
  List.length keys = List.length vs ->
  map (record_cell (combine keys vs)) keys = vs.
Proof.
  intros Hnd Hlen.
  pose proof (layout_own_keys (fun v : value => v) (combine keys vs)) as H.
  rewrite (map_fst_combine_eq _ _ Hlen) in H. specialize (H Hnd).
  unfold record_cell.
  rewrite H. rewrite <- (map_snd_combine_eq keys vs Hlen) at 2.
  reflexivity.
Qed.

(** X14: the lister names its columns by position, not by field name.
    For records that list three fields in any order and under any names, one
    of them [cik_str] and none of them [cik], each field holding texts in all
    records or integers of 64 bits in all records, the column [ticker] holds
    the second field of each record, [title] the third and [cik] the first,
    whatever these fields are called; only [cik_long] follows the name, being
    the padded text of the [cik_str] field. *)
Theorem registry_labels_are_positional (w : World) (email : string) (t : trace)
    (fields : list (string * json)) (keys : list string)
    (entries : list (list value)) :
  http w tickers_url [("User-Agent", "email")] [] = Some (JSON (JObj fields)) ->
  NoDup keys ->
  List.length keys = 3 ->
  In "cik_str" keys ->
  ~ In "cik" keys ->
  map snd fields = map (fun vs => JObj (combine keys (map JVal vs))) entries ->
  Forall (fun vs : list value => List.length vs = 3) entries ->
  forallb (fun i => uniform_column (map (fun vs => nth i vs VNaN) entries))
    [0; 1; 2] = true ->
  entries <> [] ->
  fst (get_sec_companies w email t) =
  Ok (mkDataFrame ["ticker"; "title"; "cik"; "cik_long"]
        (enumerate
           (map (fun vs =>
                   [nth 1 vs VNaN; nth 2 vs VNaN; nth 0 vs VNaN;
                    VStr (zfill 10 (py_str (cell keys vs "cik_str")))])
                entries))).
Proof.
  intros Hhttp Hnd Hlen Hin Hnot Hfields Hall _ Hne.
  assert (Hrecs : rmap as_record (map snd fields) =
                  Ok (map (fun vs => combine keys vs) entries)).
  { rewrite Hfields, rmap_map. apply rmap_ok_map.
    intros vs. simpl. apply as_record_combine. }
  rewrite (registry_run w email t fields _ Hhttp Hrecs). cbn [fst]. cbn zeta.
  assert (Hlabels : record_labels (map (fun vs => combine keys vs) entries) = keys).
  { apply record_labels_uniform; [exact Hnd | | ].
    - destruct entries; [contradiction | discriminate].
    - apply Forall_forall. intros r Hr. apply in_map_iff in Hr.
      destruct Hr as (vs & <- & Hvs). apply map_fst_combine_eq.
      rewrite Forall_forall in Hall. rewrite (Hall vs Hvs). exact Hlen. }
  rewrite Hlabels.
  assert (Hrows : map (fun r => map (record_cell r) keys)
                    (map (fun vs => combine keys vs) entries) = entries).
  { rewrite map_map. rewrite <- (map_id entries) at 2.
    apply map_ext_in. intros vs Hvs. apply record_row_own_keys; [exact Hnd|].
    rewrite Forall_forall in Hall. rewrite (Hall vs Hvs). exact Hlen. }
  rewrite Hrows.
  assert (Hcik : mem "cik_str" keys = true) by (now apply mem_In).
  assert (Hnocik : index_of "cik" keys = None).
  { apply index_of_none. apply not_true_is_false. intros H. now apply mem_In in H. }
  rewrite getitem_cells by exact Hcik. cbn [rbind].
  unfold column_cells, astype_str_zfill10. cbn [columns rows]. rewrite map_map.
  unfold setitem. cbn [columns rows]. rewrite Hnocik.
  rewrite combine_map_self, map_map. cbn [fst snd].
  unfold set_columns. cbn [columns rows]. rewrite length_app, Hlen.
  cbn [List.length Nat.add Nat.eqb rbind].
  unfold loc_columns. cbn [columns rows].
  change (find _ ["ticker"; "title"; "cik"; "cik_long"]) with (@None string).
  cbn iota. rewrite map_map. cbn [fst snd].
  rewrite enumerate_map. f_equal. f_equal.
  apply map_ext_in. intros [i vs] Hvs. cbn [fst snd]. f_equal.
  assert (Hvs' : In vs entries).
  { rewrite <- (enumerate_snd entries). apply in_map_iff. now exists (i, vs). }
  rewrite Forall_forall in Hall. specialize (Hall vs Hvs').
  destruct vs as [|a [|b [|c [|]]]]; try discriminate.
  reflexivity.
Qed.

Lemma registry_labels_are_positional_witness :
  fst (get_sec_companies (SampleRegistry.world SampleRegistry.reordered)
         "jane.doe@example.org" []) =
  Ok (mkDataFrame ["ticker"; "title"; "cik"; "cik_long"]
        [(0, [VInt 320193; VStr "Apple Inc."; VStr "AAPL"; VStr "0000320193"])]).
Proof.
  apply (registry_labels_are_positional
           (SampleRegistry.world SampleRegistry.reordered)
           "jane.doe@example.org" []
           [("0", JObj [("ticker", Sample.jstr "AAPL");
                        ("cik_str", JVal (VInt 320193));
                        ("title", Sample.jstr "Apple Inc.")])]
           ["ticker"; "cik_str"; "title"]
           [[VStr "AAPL"; VInt 320193; VStr "Apple Inc."]]).
  - reflexivity.
  - repeat constructor; simpl; intuition discriminate.
  - reflexivity.
  - simpl. auto.
  - simpl. intuition discriminate.
  - reflexivity.
  - repeat constructor.
  - reflexivity.
  - discriminate.
Defined.

(** ** Padding keeps the number *)

Lemma uint_of_string_zeros (n : nat) (s : string) :
  NilEmpty.uint_of_string (zeros n ++ s) =
  option_map (Nat.iter n Decimal.D0) (NilEmpty.uint_of_string s).
Proof.
  induction n as [|n IH]; simpl.
  - now destruct (NilEmpty.uint_of_string s).
  - rewrite IH. now destruct (NilEmpty.uint_of_string s).
Qed.

Lemma of_uint_leading_zeros (n : nat) (d : Decimal.uint) :
  Z.of_uint (Nat.iter n Decimal.D0 d) = Z.of_uint d.
Proof.
  induction n as [|n IH]; simpl; [reflexivity | exact IH].
Qed.

Lemma uint_of_padded (n : nat) (d : Decimal.uint) :
  d <> Decimal.Nil ->
  NilZero.uint_of_string (zeros n ++ NilEmpty.string_of_uint d) =
  Some (Nat.iter n Decimal.D0 d).
Proof.
  intros Hd.
  assert (H : NilEmpty.uint_of_string (zeros n ++ NilEmpty.string_of_uint d) =
              Some (Nat.iter n Decimal.D0 d))
    by (now rewrite uint_of_string_zeros, NilEmpty.usu).
  destruct n; [destruct d; try contradiction; exact H | exact H].
Qed.

Lemma int_of_unsigned (s : string) :
  starts_with_sign s = false ->
  NilZero.int_of_string s = option_map Decimal.Pos (NilZero.uint_of_string s).
Proof.
  destruct s as [|a s]; simpl; [reflexivity|].
  intros H. apply orb_false_iff in H. destruct H as [_ H]. now rewrite H.
Qed.

Lemma zeros_unsigned (n : nat) (s : string) :
  starts_with_sign s = false -> starts_with_sign (zeros n ++ s) = false.
Proof. destruct n; simpl; auto. Qed.

Lemma digits_unsigned (d : Decimal.uint) :
  starts_with_sign (NilEmpty.string_of_uint d) = false.
Proof. destruct d; reflexivity. Qed.

Lemma zfill_negative (width : nat) (s : string) :
  exists n, zfill width (String "-" s) = String "-" (zeros n ++ s).
Proof.
  unfold zfill.
  destruct (width <=? String.length (String "-" s))%nat.
  - now exists 0.
  - simpl. eauto.
Qed.

Lemma int_of_padded_text (z : Z) :
  int_of_text (zfill 10 (str_of_Z z)) = Some z.
Proof.
  destruct z as [|p|p].
  - reflexivity.
  - rewrite zfill_unsigned by (apply str_of_Z_unsigned; lia).
    unfold str_of_Z, int_of_text. simpl Z.to_int.
    unfold NilZero.string_of_int, NilZero.string_of_uint.
    pose proof (DecimalPos.Unsigned.to_uint_nonnil p) as Hnil.
    pose proof (DecimalZ.of_to (Z.pos p)) as Hz. simpl Z.to_int in Hz.
    set (d := Pos.to_uint p) in *.
    assert (Hs : (match d with
                  | Decimal.Nil => "0"
                  | _ => NilEmpty.string_of_uint d
                  end)%string = NilEmpty.string_of_uint d)
      by (destruct d; try contradiction; reflexivity).
    rewrite Hs.
    rewrite int_of_unsigned by (apply zeros_unsigned, digits_unsigned).
    rewrite uint_of_padded by exact Hnil.
    simpl. f_equal. rewrite of_uint_leading_zeros. exact Hz.
  - unfold str_of_Z. simpl Z.to_int.
    unfold NilZero.string_of_int, NilZero.string_of_uint.
    pose proof (DecimalPos.Unsigned.to_uint_nonnil p) as Hnil.
    pose proof (DecimalZ.of_to (Z.neg p)) as Hz. simpl Z.to_int in Hz.
    set (d := Pos.to_uint p) in *.
    assert (Hs : (match d with
                  | Decimal.Nil => "0"
                  | _ => NilEmpty.string_of_uint d
                  end)%string = NilEmpty.string_of_uint d)
      by (destruct d; try contradiction; reflexivity).
    rewrite Hs.
    destruct (zfill_negative 10 (NilEmpty.string_of_uint d)) as [n ->].
    unfold int_of_text. simpl NilZero.int_of_string.
    rewrite uint_of_padded by exact Hnil.
    simpl. f_equal. rewrite of_uint_leading_zeros. exact Hz.
Qed.

Lemma duplicated_from_injective (f : value -> value) (l : list value) :
  forall seen,
    (forall a b, In a (seen ++ l) -> In b (seen ++ l) -> f a = f b -> a = b) ->
    duplicated_from (map f seen) (map f l) = duplicated_from seen l.
Proof.
  induction l as [|v l IH]; intros seen Hinj; simpl; [reflexivity|].
  f_equal.
  - destruct (existsb (value_eqb v) seen) eqn:Hv.
    + apply existsb_value_eqb in Hv. apply existsb_value_eqb.
      now apply in_map.
    + apply not_true_is_false. intros H. apply existsb_value_eqb in H.
      apply in_map_iff in H. destruct H as (u & Hu & Hin).
      assert (u = v).
      { apply Hinj; [apply in_or_app; now left | | exact Hu].
        apply in_or_app. right. now left. }
      subst u. apply existsb_value_eqb in Hin. congruence.
  - apply (IH (v :: seen)). intros a b Ha Hb. apply Hinj.
    + simpl in Ha. destruct Ha as [<-|Ha].
      * apply in_or_app. right. now left.
      * apply in_app_or in Ha. apply in_or_app.
        destruct Ha; [now left | right; now right].
    + simpl in Hb. destruct Hb as [<-|Hb].
      * apply in_or_app. right. now left.
      * apply in_app_or in Hb. apply in_or_app.
        destruct Hb; [now left | right; now right].
Qed.

Lemma padded_injective (a b : value) (l : list Z) :
  In a (map VInt l) -> In b (map VInt l) ->
  VStr (zfill 10 (py_str a)) = VStr (zfill 10 (py_str b)) -> a = b.
Proof.
  intros Ha Hb H. apply in_map_iff in Ha, Hb.
  destruct Ha as (x & <- & _), Hb as (y & <- & _).
  injection H as H. simpl in H. f_equal.
  pose proof (int_of_padded_text x) as Hx.
  pose proof (int_of_padded_text y) as Hy.
  rewrite H in Hx. congruence.
Qed.

(** X15: padding a CIK to ten characters loses nothing.  Read back as a
    number, the padded text of an integer is that integer (negative ones
    included, the sign staying in front of the zeros); so two different
    integers never share a padded text, and the rows of a registry that
    repeat an earlier [cik_long] are exactly those that repeat an earlier
    [cik_str]. *)
Theorem padding_keeps_the_number :
  (forall z, int_of_text (zfill 10 (py_str (VInt z))) = Some z)
  /\ (forall a b,
         zfill 10 (py_str (VInt a)) = zfill 10 (py_str (VInt b)) -> a = b)
  /\ (forall cik_str : list Z,
         duplicated (astype_str_zfill10 (map VInt cik_str)) =
         duplicated (map VInt cik_str)).
Proof.
  split; [exact int_of_padded_text|]. split.
  - intros a b H. simpl in H.
    pose proof (int_of_padded_text a) as Ha.
    pose proof (int_of_padded_text b) as Hb.
    rewrite H in Ha. congruence.
  - intros cik_str. unfold duplicated, astype_str_zfill10.
    apply (duplicated_from_injective (fun v => VStr (zfill 10 (py_str v)))
             (map VInt cik_str) []).
    intros a b Ha Hb. simpl in Ha, Hb. now apply (padded_injective a b cik_str).
Qed.

(** ** From the registry to the filing assembler *)

(** X16: the two columns of the registry table and the assembler's
    argument check.  For records whose [cik_str] is an integer from 0 to
    9999999999, every [cik_long] cell of the table [get_sec_companies]
    returns is a text of ten characters, which [get_seccompany_filings] lets
    past its assertion (with no source given it goes on to raise
    [ValueError]); every [cik] cell is an integer, which the assertion
    refuses whatever the other arguments. *)
Theorem registry_feeds_the_assembler (w : World) (email : string) (t : trace)
    (fields : list (string * json)) (listing : list (Z * value * value)) :
  http w tickers_url [("User-Agent", "email")] [] = Some (JSON (JObj fields)) ->
  map snd fields =
    map (fun e : Z * value * value =>
           registry_record (VInt (fst (fst e)), snd (fst e), snd e)) listing ->
  listing <> [] ->
  Forall (fun e : Z * value * value => (0 <= fst (fst e) < 10 ^ 10)%Z) listing ->
  exists df,
    fst (get_sec_companies w email t) = Ok df
    /\ Forall
         (fun row =>
            (exists s,
                cell (columns df) (snd row) "cik_long" = VStr s
                /\ String.length s = 10
                /\ forall w' t',
                     get_seccompany_filings w' (VStr s) None None t' =
                     (Raise ValueError, t'))
            /\ forall w' dir email' t',
                 get_seccompany_filings w'
                   (cell (columns df) (snd row) "cik") dir email' t' =
                 (Raise AssertionError, t'))
         (rows df).
Proof.
  intros Hhttp Hfields Hne Hrange.
  set (entries := map (fun e : Z * value * value =>
                         (VInt (fst (fst e)), snd (fst e), snd e)) listing).
  assert (Hfields' : map snd fields = map registry_record entries).
  { unfold entries. now rewrite map_map. }
  assert (Hne' : entries <> []).
  { unfold entries. destruct listing; [contradiction | discriminate]. }
  eexists. split.
  - exact (registry_frame w email t fields entries Hhttp Hfields' Hne').
  - cbn [rows columns]. rewrite enumerate_map. apply Forall_forall.
    intros row Hrow. apply in_map_iff in Hrow.
    destruct Hrow as ([i e] & <- & Hin). cbn [fst snd].
    assert (He : In e entries).
    { rewrite <- (enumerate_snd entries). apply in_map_iff. now exists (i, e). }
    unfold entries in He. apply in_map_iff in He.
    destruct He as ([[z a] b] & <- & Hz). cbn [fst snd registry_row].
    rewrite Forall_forall in Hrange. specialize (Hrange _ Hz). cbn [fst] in Hrange.
    split.
    + exists (zfill 10 (str_of_Z z)). split; [reflexivity|].
      assert (Hlen : String.length (zfill 10 (str_of_Z z)) = 10)
        by (now apply zfill_ten_digits).
      split; [exact Hlen|].
      intros w' t'. unfold get_seccompany_filings. now rewrite Hlen.
    + reflexivity.
Qed.

Lemma registry_feeds_the_assembler_witness :
  exists df,
    fst (get_sec_companies Sample.world "jane.doe@example.org" []) = Ok df
    /\ Forall
         (fun row =>
            (exists s,
                cell (columns df) (snd row) "cik_long" = VStr s
                /\ String.length s = 10
                /\ forall w' t',
                     get_seccompany_filings w' (VStr s) None None t' =
                     (Raise ValueError, t'))
            /\ forall w' dir email' t',
                 get_seccompany_filings w'
                   (cell (columns df) (snd row) "cik") dir email' t' =
                 (Raise AssertionError, t'))
         (rows df).
Proof.
  apply (registry_feeds_the_assembler Sample.world "jane.doe@example.org" []
           [("0", registry_record (VInt 320193, VStr "AAPL", VStr "Apple Inc."))]
           [(320193%Z, VStr "AAPL", VStr "Apple Inc.")]).
  - reflexivity.
  - reflexivity.
  - discriminate.
  - constructor; [simpl; lia | constructor].
Defined.

(** ** The price request *)

(** X17: when its arguments are accepted, [get_fmp_stock_data] issues
    exactly one request, whatever comes back: to the endpoint of the ticker,
    with no headers, with [apikey], with [from] exactly when [start_date] is
    given and [to] exactly when [end_date] is given (and then [from] is
    there too).  It opens no file and prints nothing. *)
Theorem price_request (w : World) (apikey ticker : string)
    (start_date end_date : option string) (t : trace) :
  (truthy end_date && negb (truthy start_date))%bool = false ->
  exists parameters,
    snd (get_fmp_stock_data w apikey ticker start_date end_date t) =
      t ++ [Get ("https://financialmodelingprep.com/api/v3/historical-price-full/"
                 ++ ticker)%string [] parameters]
    /\ assoc "apikey" parameters = Some apikey
    /\ assoc "from" parameters =
       (if truthy start_date then Some (text start_date) else None)
    /\ assoc "to" parameters =
       (if truthy end_date then Some (text end_date) else None)
    /\ (assoc "to" parameters <> None -> assoc "from" parameters <> None)
    /\ List.length parameters <= 3.
Proof.
  intros Hargs. exists (price_parameters apikey start_date end_date).
  rewrite prices_run by exact Hargs. cbn [snd]. split; [reflexivity|].
  unfold price_parameters.
  destruct (truthy start_date), (truthy end_date); try discriminate;
    simpl; repeat split; auto; try lia; discriminate.
Qed.

Lemma price_request_witness :
  exists parameters,
    snd (get_fmp_stock_data Sample.world "key" "ABC"
           (Some "2020-01-01") (Some "2020-12-31") []) =
      [] ++ [Get ("https://financialmodelingprep.com/api/v3/historical-price-full/"
                  ++ "ABC")%string [] parameters]
    /\ assoc "apikey" parameters = Some "key"
    /\ assoc "from" parameters = Some "2020-01-01"
    /\ assoc "to" parameters = Some "2020-12-31".
Proof.
  destruct (price_request Sample.world "key" "ABC" (Some "2020-01-01")
              (Some "2020-12-31") [] eq_refl)
    as (parameters & Htrace & Hkey & Hfrom & Hto & _).
  exists parameters. auto.
Defined.

(** ** Price responses without data *)

(** X18: a price response that is an object without [historical] (what
    comes back for an unknown symbol) ends the run in [KeyError] for
    [historical]; a [historical] array none of whose records has a [date],
    the empty array included, ends it in [KeyError] for [date].  Either way
    the one request has been made and no table is returned. *)
Theorem price_response_without_data (w : World) (apikey ticker : string)
    (start_date end_date : option string) (t : trace)
    (fields : list (string * json)) :
  (truthy end_date && negb (truthy start_date))%bool = false ->
  http w (price_url ticker) [] (price_parameters apikey start_date end_date) =
    Some (JSON (JObj fields)) ->
  (assoc "historical" fields = None ->
   get_fmp_stock_data w apikey ticker start_date end_date t =
   (Raise (KeyError "historical"),
    t ++ [Get (price_url ticker) [] (price_parameters apikey start_date end_date)]))
  /\ (forall items recs,
         assoc "historical" fields = Some (JArr items) ->
         rmap as_record items = Ok recs ->
         Forall (fun r => assoc "date" r = None) recs ->
         get_fmp_stock_data w apikey ticker start_date end_date t =
         (Raise (KeyError "date"),
          t ++ [Get (price_url ticker) []
                  (price_parameters apikey start_date end_date)])).
Proof.
  intros Hargs Hhttp. rewrite prices_run by exact Hargs. rewrite Hhttp.
  cbn [load rbind py_getitem]. split.
  - intros Hnone. now rewrite Hnone.
  - intros items recs Hhist Hrecs Hdates. rewrite Hhist. cbn [rbind pd_DataFrame].
    unfold DataFrame_of_records. rewrite Hrecs. cbn [rbind].
    unfold sort_values. cbn [columns].
    replace (index_of "date" _) with (@None nat); [reflexivity|].
    symmetry. apply index_of_none.
    rewrite mem_fold_labels. simpl.
    apply not_true_is_false. intros H. apply existsb_exists in H.
    destruct H as (r & Hr & Hmem).
    rewrite Forall_forall in Hdates.
    rewrite (assoc_none_mem _ _ (Hdates r Hr)) in Hmem. discriminate.
Qed.

Lemma price_response_without_data_witness :
  fst (get_fmp_stock_data (SamplePrices.world SamplePrices.unknown_symbol)
         "key" "NOPE" None None []) = Raise (KeyError "historical")
  /\ fst (get_fmp_stock_data (SamplePrices.world SamplePrices.empty_history)
            "key" "ABC" None None []) = Raise (KeyError "date").
Proof.
  split.
  - rewrite (proj1 (price_response_without_data
                      (SamplePrices.world SamplePrices.unknown_symbol)
                      "key" "NOPE" None None [] [] eq_refl eq_refl) eq_refl).
    reflexivity.
  - rewrite (proj2 (price_response_without_data
                      (SamplePrices.world SamplePrices.empty_history)
                      "key" "ABC" None None []
                      [("symbol", Sample.jstr "ABC"); ("historical", JArr [])]
                      eq_refl eq_refl) [] [] eq_refl eq_refl (Forall_nil _)).
    reflexivity.
Defined.
